(** * Dynamic causal-effect estimation engine: levels, ECM and local projections

    A shallow embedding of the estimation logic of
      - [src/models/its_levels.py]                (levels / dynamics engine),
      - [src/analysis/11_ecm.py]                  (cointegration and ECM),
      - [src/analysis/12_irf_local_projections.py] (local-projection IRFs),
    together with the properties the specification states about them.

    Modelling conventions.

    - A Python/NumPy float is a [pyfloat]: a real number, one of the two
      infinities, or NaN.  Arithmetic is the IEEE-754 arithmetic of NumPy
      scalars with rounding idealised away (a finite result is the exact real)
      and with an unsigned zero (a zero divisor behaves as +0.0).  Where
      exact and double arithmetic differ in what a property says (a sum
      that a double absorbs, a power one unit in the last place short of
      an integer, an exponential that overflows) the property is stated on
      the range where they agree, or about the computation without its
      value.
    - A pandas column is a list of [pyfloat], NaN standing for a missing cell;
      a DataFrame is a finite map from column names to columns.
    - A Python dict with string keys is a [gmap string _]; indexing a missing
      key raises [KeyError].
    - Exceptions are explicit: fallible code returns a [result].
    - Third-party numerical routines (statsmodels fits, ADF and Johansen
      tests, residual diagnostics, NumPy's correlation, percentiles and random
      generator) are not part of the repository; they are the fields of the
      [Backend] class and every definition is parametric in them. *)

From Stdlib Require Import Reals Lra Lia ZArith List Bool.
From stdpp Require Import base option gmap strings list pretty.

Set Warnings "-register-all".

Local Open Scope R_scope.

(* ===================================================================== *)
(** * NumPy scalars *)
(* ===================================================================== *)

Inductive pyfloat : Type :=
  | Num (x : R)
  | PInf
  | NInf
  | NaN.

Definition Rltb (x y : R) : bool := if Rlt_dec x y then true else false.
Definition Rleb (x y : R) : bool := if Rle_dec x y then true else false.
Definition Reqb (x y : R) : bool := if Req_dec_T x y then true else false.

Definition isnan (a : pyfloat) : bool :=
  match a with NaN => true | _ => false end.

Definition isfinite (a : pyfloat) : bool :=
  match a with Num _ => true | _ => false end.

Definition fneg (a : pyfloat) : pyfloat :=
  match a with
  | Num x => Num (- x)
  | PInf => NInf
  | NInf => PInf
  | NaN => NaN
  end.

Definition fadd (a b : pyfloat) : pyfloat :=
  match a, b with
  | NaN, _ | _, NaN => NaN
  | Num x, Num y => Num (x + y)
  | PInf, NInf | NInf, PInf => NaN
  | PInf, _ | _, PInf => PInf
  | NInf, _ | _, NInf => NInf
  end.

Definition fsub (a b : pyfloat) : pyfloat := fadd a (fneg b).

(** The infinity a nonzero real sends [+inf] to under multiplication;
    [0 * inf] is NaN. *)
Definition signed_inf (x : R) : pyfloat :=
  if Rltb 0 x then PInf else if Rltb x 0 then NInf else NaN.

Definition fmul (a b : pyfloat) : pyfloat :=
  match a, b with
  | NaN, _ | _, NaN => NaN
  | Num x, Num y => Num (x * y)
  | Num x, PInf | PInf, Num x => signed_inf x
  | Num x, NInf | NInf, Num x => fneg (signed_inf x)
  | PInf, PInf | NInf, NInf => PInf
  | PInf, NInf | NInf, PInf => NInf
  end.

(** NumPy scalar division: dividing by zero does not raise, it yields an
    infinity (or NaN for [0/0]) and a warning. *)
Definition fdiv (a b : pyfloat) : pyfloat :=
  match a, b with
  | NaN, _ | _, NaN => NaN
  | Num x, Num y => if Reqb y 0 then signed_inf x else Num (x / y)
  | Num _, (PInf | NInf) => Num 0
  | PInf, Num y => if Rltb y 0 then NInf else PInf
  | NInf, Num y => if Rltb y 0 then PInf else NInf
  | (PInf | NInf), (PInf | NInf) => NaN
  end.

(** [np.exp], [np.log], [np.sqrt].  The values are the exact ones: the
    exponential of a real is a positive real, where a double overflows to
    [inf] above about 709.78 and underflows to [0] below about -745. *)
Definition fexp (a : pyfloat) : pyfloat :=
  match a with
  | Num x => Num (exp x)
  | PInf => PInf
  | NInf => Num 0
  | NaN => NaN
  end.

Definition flog (a : pyfloat) : pyfloat :=
  match a with
  | Num x => if Rltb 0 x then Num (ln x) else if Reqb x 0 then NInf else NaN
  | PInf => PInf
  | NInf => NaN
  | NaN => NaN
  end.

Definition fsqrt (a : pyfloat) : pyfloat :=
  match a with
  | Num x => if Rltb x 0 then NaN else Num (sqrt x)
  | PInf => PInf
  | NInf => NaN
  | NaN => NaN
  end.

(** Comparisons; every comparison with NaN is [False]. *)
Definition flt (a b : pyfloat) : bool :=
  match a, b with
  | NaN, _ | _, NaN => false
  | Num x, Num y => Rltb x y
  | NInf, (Num _ | PInf) => true
  | Num _, PInf => true
  | _, _ => false
  end.

Definition fgt (a b : pyfloat) : bool := flt b a.

Definition fle (a b : pyfloat) : bool :=
  match a, b with
  | NaN, _ | _, NaN => false
  | Num x, Num y => Rleb x y
  | NInf, _ => true
  | _, PInf => true
  | _, _ => false
  end.

Declare Scope pyfloat_scope.
Delimit Scope pyfloat_scope with py.
Bind Scope pyfloat_scope with pyfloat.
Infix "+" := fadd : pyfloat_scope.
Infix "-" := fsub : pyfloat_scope.
Infix "*" := fmul : pyfloat_scope.
Infix "/" := fdiv : pyfloat_scope.

(** [int(x)] of a finite float: truncation toward zero. *)
Definition trunc (x : R) : Z :=
  if Rltb x 0 then (- Int_part (- x))%Z else Int_part x.

(** Python's [x ** y] for a float base [x >= 0] and exponent [y > 0]. *)
Definition pow_pos (x y : R) : R :=
  if Reqb x 0 then 0 else Rpower x y.

(** The automatic HAC bandwidth [int(4 * (n/100) ** (2/9))] that every
    regression of the three modules computes.  The power is the exact one:
    where it is an integer (n = 51200: 16) the double can fall just short
    of it, and [int] then gives the integer below. *)
Definition andrews_bandwidth (n : nat) : Z :=
  trunc (4 * pow_pos (INR n / 100) (2 / 9)).

(* ===================================================================== *)
(** * Exceptions *)
(* ===================================================================== *)

Inductive exn : Type :=
  | KeyError (key : string)
  | ValueError (msg : string)
  | IndexError (msg : string)
  | TypeError (msg : string)
  | AssertionError (msg : string)
  | PatsyError (name : string)
  | LibraryError (msg : string).

Inductive result (A : Type) : Type :=
  | Ok (a : A)
  | Raise (e : exn).
Arguments Ok {A} a.
Arguments Raise {A} e.

#[global] Instance result_ret : MRet result := fun A a => Ok a.
#[global] Instance result_bind : MBind result := fun A B f m =>
  match m with
  | Ok a => f a
  | Raise e => Raise e
  end.
#[global] Instance result_fmap : FMap result := fun A B f m =>
  match m with
  | Ok a => Ok (f a)
  | Raise e => Raise e
  end.

Definition returns {A} (m : result A) : bool :=
  match m with Ok _ => true | Raise _ => false end.

(** [try: m except Exception: d]. *)
Definition try_except {A} (m : result A) (d : A) : A :=
  match m with Ok a => a | Raise _ => d end.

(** [d[k]] on a dict. *)
Definition getitem {V} (d : gmap string V) (k : string) : result V :=
  match d !! k with
  | Some v => Ok v
  | None => Raise (KeyError k)
  end.

(** [a[i]] on an array. *)
Definition array_at {A} (l : list A) (i : nat) : result A :=
  match l !! i with
  | Some x => Ok x
  | None => Raise (IndexError "index out of bounds")
  end.

Fixpoint mapM {A B} (f : A -> result B) (l : list A) : result (list B) :=
  match l with
  | [] => Ok []
  | x :: l' => y ← f x; ys ← mapM f l'; Ok (y :: ys)
  end.

(* ===================================================================== *)
(** * pandas columns and frames *)
(* ===================================================================== *)

Abbreviation column := (list pyfloat).

(** A Series: values with their index labels. *)
Record Series := { s_index : list nat; s_values : column }.

(** A DataFrame: an index (row labels) and named columns of that length. *)
Record DataFrame := { index : list nat; columns : gmap string column }.

Definition len (df : DataFrame) : nat := length (index df).

Definition has_column (df : DataFrame) (c : string) : bool :=
  bool_decide (is_Some (columns df !! c)).

(** [df[c]] *)
Definition col (df : DataFrame) (c : string) : result column :=
  getitem (columns df) c.

(** [df[c] = values] *)
Definition set_column (c : string) (v : column) (df : DataFrame) : DataFrame :=
  {| index := index df; columns := <[c := v]> (columns df) |}.

(** [s.shift(k)]: values move [k] rows down ([k < 0]: up); vacated cells
    are NaN. *)
Definition shift (k : Z) (c : column) : column :=
  let n := length c in
  if (0 <=? k)%Z
  then take n (replicate (Z.to_nat k) NaN ++ c)
  else drop (Z.to_nat (- k)) c ++ replicate (Nat.min (Z.to_nat (- k)) n) NaN.

Definition col_sub (a b : column) : column := zip_with fsub a b.

(** [s.diff()] *)
Definition diff (c : column) : column := col_sub c (shift 1 c).

Fixpoint select {A} (mask : list bool) (l : list A) : list A :=
  match mask, l with
  | b :: mask', x :: l' => if b then x :: select mask' l' else select mask' l'
  | _, _ => []
  end.

Definition notna (c : column) : list bool := map (fun x => negb (isnan x)) c.

(** Rows (by position) in which none of the columns [cs] is missing. *)
Definition complete_rows (n : nat) (cs : list column) : list bool :=
  fold_right (fun c m => zip_with andb (notna c) m) (replicate n true) cs.

Definition take_rows (mask : list bool) (df : DataFrame) : DataFrame :=
  {| index := select mask (index df); columns := select mask <$> columns df |}.

(** [df.dropna()]: drop every row with a missing cell in any column. *)
Definition dropna (df : DataFrame) : DataFrame :=
  take_rows (complete_rows (len df) (map snd (map_to_list (columns df)))) df.

(** [df.dropna(subset=names)] *)
Definition dropna_subset (names : list string) (df : DataFrame) : result DataFrame :=
  cs ← mapM (col df) names;
  Ok (take_rows (complete_rows (len df) cs) df).

(** [df.reset_index(drop=True)] *)
Definition reset_index (df : DataFrame) : DataFrame :=
  {| index := seq 0 (len df); columns := columns df |}.

Fixpoint series_at (idx : list nat) (vals : column) (label : nat) : pyfloat :=
  match idx, vals with
  | i :: idx', v :: vals' => if Nat.eqb i label then v else series_at idx' vals' label
  | _, _ => NaN
  end.

(** [s.reindex(new_index)]: values by label, NaN where the label is absent. *)
Definition reindex (s : Series) (new_index : list nat) : Series :=
  {| s_index := new_index;
     s_values := map (series_at (s_index s) (s_values s)) new_index |}.

(** [s.sum()] (pandas, [skipna=True]) and [np.nansum]. *)
Definition pd_sum (c : column) : pyfloat :=
  fold_left fadd (List.filter (fun x => negb (isnan x)) c) (Num 0).

Definition nansum (c : column) : pyfloat := pd_sum c.

(** The design matrices patsy builds from [lhs ~ rhs_1 + ... + rhs_k]:
    rows with a missing value in a variable of the formula are dropped and
    an intercept column of ones comes first. *)
Record design := {
  d_index : list nat;
  d_y : column;
  d_names : list string;
  d_X : list column
}.

Definition variable (data : DataFrame) (name : string) : result column :=
  match columns data !! name with
  | Some c => Ok c
  | None => Raise (PatsyError name)
  end.

Definition dmatrices (lhs : string) (rhs : list string) (data : DataFrame)
  : result design :=
  y ← variable data lhs;
  xs ← mapM (variable data) rhs;
  let mask := complete_rows (len data) (y :: xs) in
  let idx := select mask (index data) in
  Ok {| d_index := idx;
        d_y := select mask y;
        d_names := "Intercept" :: rhs;
        d_X := replicate (length idx) (Num 1) :: map (select mask) xs |}.

(* ===================================================================== *)
(** * Third-party numerical routines *)
(* ===================================================================== *)

(** [cov_type] argument of a statsmodels fit. *)
Inductive cov_type : Type :=
  | NonRobust
  | HAC (maxlags : Z).

(** What a statsmodels results object exposes, positionally (one entry per
    design column). *)
Record Fit := {
  params : list pyfloat;
  bse : list pyfloat;
  pvalues : list pyfloat;
  conf_int : list (pyfloat * pyfloat);
  resid : column;
  rsquared : pyfloat;
  rsquared_adj : pyfloat;
  exog : list column
}.

(** Output of [coint_johansen]: trace and max-eigenvalue statistics with
    their 90/95/99% critical values, by rank. *)
Record Johansen := {
  lr1 : list pyfloat;
  lr2 : list pyfloat;
  cvt : list (pyfloat * pyfloat * pyfloat);
  cvm : list (pyfloat * pyfloat * pyfloat)
}.

Class Backend := {
  (** [sm.OLS(y, X).fit(cov_type=...)]; raises on a degenerate design. *)
  OLS_fit : column -> list column -> cov_type -> result Fit;
  (** [sm.add_constant] on a list of columns of the given length. *)
  add_constant : nat -> list (string * column) -> list (string * column);
  (** [acorr_ljungbox(resid, lags, return_df=True)]: statistics and p-values. *)
  acorr_ljungbox : column -> Z -> result (list pyfloat * list pyfloat);
  (** [het_white(resid, exog)]: statistic and p-value. *)
  het_white : column -> list column -> result (pyfloat * pyfloat);
  durbin_watson : column -> pyfloat;
  (** [np.corrcoef(a, b)[0, 1]] *)
  corrcoef : column -> column -> pyfloat;
  (** [adfuller(x, regression=..., autolag='AIC')]: statistic and p-value. *)
  adfuller : column -> string -> result (pyfloat * pyfloat);
  coint_johansen : list column -> Z -> Z -> result Johansen;
  (** [np.percentile(a, [2.5, 97.5])] *)
  percentile_2_5_97_5 : list pyfloat -> pyfloat * pyfloat;
  (** [np.random.Generator]: state, seeding and [integers(low, high)]
      (a [ValueError] when [low >= high]). *)
  rng_state : Type;
  default_rng : Z -> rng_state;
  rng_integers : rng_state -> Z -> Z -> result (Z * rng_state);
  (** pandas: the row order of [sort_values] on a column, and the
      [dt.dayofweek] and [dt.is_month_end] accessors of a date. *)
  argsort : column -> list nat;
  dt_dayofweek : pyfloat -> Z;
  dt_is_month_end : pyfloat -> bool;
  (** The curated event registry ([build_event_dummies_from_registry]
      left-merged on the dates of the frame): indicator columns aligned to
      the rows, or an exception when the registry cannot be read. *)
  event_dummies : column -> result (list (string * column))
}.

(** A fit together with the column names of the DataFrame design it was
    computed from ([params] is then a Series indexed by name). *)
Record NamedFit := { names : list string; fit : Fit }.

Fixpoint index_of (name : string) (l : list string) : option nat :=
  match l with
  | [] => None
  | x :: l' => if String.eqb x name then Some 0%nat
               else S <$> index_of name l'
  end.

(** [series[name]] and [series.get(name, default)] on a named vector. *)
Definition loc {V} (ns : list string) (vals : list V) (name : string) : result V :=
  match index_of name ns ≫= (fun i => vals !! i) with
  | Some v => Ok v
  | None => Raise (KeyError name)
  end.

Definition series_get {V} (ns : list string) (vals : list V) (name : string)
  (default : V) : V :=
  try_except (loc ns vals name) default.

(** Values stored in result dictionaries. *)
Inductive pyval : Type :=
  | VFloat (x : pyfloat)
  | VInt (n : Z)
  | VBool (b : bool)
  | VStr (s : string)
  | VFloats (l : list pyfloat)
  | VModel (m : NamedFit)
  | VArrayModel (m : Fit)
  | VList (l : list pyval)
  | VIntDict (d : list (Z * pyval))
  | VDict (d : gmap string pyval).

Abbreviation record := (gmap string pyval).

(** [d[k]] where the stored value is itself a dict. *)
Definition getitem_dict (d : record) (k : string) : result record :=
  v ← getitem d k;
  match v with
  | VDict r => Ok r
  | _ => Raise (TypeError k)
  end.

(** Percentage effect of a 10-percentage-point treatment change,
    [(np.exp(0.10 * beta) - 1) * 100]. *)
Definition semi_elasticity (beta : pyfloat) : pyfloat :=
  ((fexp (Num 0.10 * beta) - Num 1) * Num 100)%py.

(* ===================================================================== *)
(** * Levels / dynamics regression engine ([ITSLevelsEstimator]) *)
(* ===================================================================== *)

Module Levels.
Section Engine.
Context `{Backend}.

(** The estimator instance after [__init__]: the prepared panel and the two
    dictionaries the methods write to. *)
Record ITSLevelsEstimator := {
  data : DataFrame;
  outcome : string;
  treatment : string;
  results : record;
  diagnostics : record
}.

Definition with_data (self : ITSLevelsEstimator) (d : DataFrame) :=
  {| data := d; outcome := outcome self; treatment := treatment self;
     results := results self; diagnostics := diagnostics self |}.

Definition with_results (self : ITSLevelsEstimator) (r : record) :=
  {| data := data self; outcome := outcome self; treatment := treatment self;
     results := r; diagnostics := diagnostics self |}.

Definition with_diagnostics (self : ITSLevelsEstimator) (d : record) :=
  {| data := data self; outcome := outcome self; treatment := treatment self;
     results := results self; diagnostics := d |}.

(** A method call: the instance after the call and what the call returned
    or raised. *)
Definition method (A : Type) : Type := ITSLevelsEstimator * result A.

Definition fit_design (d : design) (cov : cov_type) : result NamedFit :=
  f ← OLS_fit (d_y d) (d_X d) cov;
  Ok {| names := d_names d; fit := f |}.

Definition param (m : NamedFit) (name : string) : result pyfloat :=
  loc (names m) (params (fit m)) name.

Definition std_err (m : NamedFit) (name : string) : result pyfloat :=
  loc (names m) (bse (fit m)) name.

Definition pvalue (m : NamedFit) (name : string) : result pyfloat :=
  loc (names m) (pvalues (fit m)) name.

Definition conf_int_of (m : NamedFit) (name : string) : result (pyfloat * pyfloat) :=
  loc (names m) (conf_int (fit m)) name.

(** [_delta_method_se]: [derivative = 10 * np.exp(0.10 * beta)];
    [return derivative * se_beta]. *)
Definition _delta_method_se (beta se_beta : pyfloat) : pyfloat :=
  let derivative := (Num 10 * fexp (Num 0.10 * beta))%py in
  (derivative * se_beta)%py.

Definition any_below (ps : list pyfloat) (level : pyfloat) : bool :=
  existsb (fun p => flt p level) ps.

(** [_run_diagnostics]: Ljung-Box (10 lags), White and Durbin-Watson on the
    residuals of [model_results], stored in [self.diagnostics]. *)
Definition _run_diagnostics (model_results : NamedFit)
  (self : ITSLevelsEstimator) : method unit :=
  let residuals := resid (fit model_results) in
  match
    lb_test ← acorr_ljungbox residuals 10;
    white_test ← het_white residuals (exog (fit model_results));
    Ok (lb_test, white_test)
  with
  | Raise e => (self, Raise e)
  | Ok (lb_test, white_test) =>
      let dw := durbin_watson residuals in
      let ljung_box : record :=
        {[ "statistic" := VFloats lb_test.1;
           "pvalue" := VFloats lb_test.2;
           "significant" := VBool (any_below lb_test.2 (Num 0.05)) ]} in
      let white : record :=
        {[ "statistic" := VFloat white_test.1;
           "pvalue" := VFloat white_test.2;
           "significant" := VBool (flt white_test.2 (Num 0.05)) ]} in
      (with_diagnostics self
         (<["durbin_watson" := VFloat dw]>
            (<["white_test" := VDict white]>
               (<["ljung_box" := VDict ljung_box]> (diagnostics self)))),
       Ok tt)
  end.

Definition base_controls : list string :=
  ["D_star"; "regime_merge"; "regime_dencun"; "is_weekend"; "is_month_end"].

(** [estimate_main_spec] *)
Definition estimate_main_spec (use_time_trend : bool)
  (self : ITSLevelsEstimator) : method record :=
  let rhs := treatment self :: base_controls
             ++ (if use_time_trend then ["time_trend"] else []) in
  match
    d ← dmatrices (outcome self) rhs (data self);
    ols_results ← fit_design d NonRobust;
    let n := length (d_y d) in
    let bandwidth := andrews_bandwidth n in
    hac_results ← fit_design d (HAC bandwidth);
    beta ← param hac_results (treatment self);
    se ← std_err hac_results (treatment self);
    ci ← conf_int_of hac_results (treatment self);
    pval ← pvalue hac_results (treatment self);
    let semi := semi_elasticity beta in
    let semi_se := _delta_method_se beta se in
    let main_effect : record :=
      {[ "beta" := VFloat beta;
         "se" := VFloat se;
         "ci_lower" := VFloat ci.1;
         "ci_upper" := VFloat ci.2;
         "pvalue" := VFloat pval;
         "semi_elasticity" := VFloat semi;
         "semi_se" := VFloat semi_se;
         "bandwidth" := VInt bandwidth;
         "n_obs" := VInt (Z.of_nat n);
         "r_squared" := VFloat (rsquared (fit ols_results));
         "r_squared_adj" := VFloat (rsquared_adj (fit ols_results)) ]} in
    Ok (ols_results, hac_results, main_effect)
  with
  | Raise e => (self, Raise e)
  | Ok (ols_results, hac_results, main_effect) =>
      let self1 :=
        with_results self
          (<["main_effect" := VDict main_effect]>
             (<["main_hac" := VModel hac_results]>
                (<["main_ols" := VModel ols_results]> (results self)))) in
      match _run_diagnostics ols_results self1 with
      | (self2, Raise e) => (self2, Raise e)
      | (self2, Ok _) => (self2, getitem_dict (results self2) "main_effect")
      end
  end.

Definition lag_name (treat : string) (lag : Z) : string :=
  treat +:+ "_lag" +:+ pretty lag.

(** The loop [for lag in lags: self.data[f'{treatment}_lag{lag}'] =
    self.data[treatment].shift(lag)]; the column is read again at each
    iteration. *)
Fixpoint add_lag_columns (treat : string) (lags : list Z) (df : DataFrame)
  : DataFrame * result unit :=
  match lags with
  | [] => (df, Ok tt)
  | lag :: lags' =>
      match col df treat with
      | Raise e => (df, Raise e)
      | Ok a => add_lag_columns treat lags' (set_column (lag_name treat lag) (shift lag a) df)
      end
  end.

(** [estimate_distributed_lags] (default [lags = [1, 7]]) *)
Definition estimate_distributed_lags (lags : list Z)
  (self : ITSLevelsEstimator) : method record :=
  match add_lag_columns (treatment self) lags (data self) with
  | (df, Raise e) => (with_data self df, Raise e)
  | (df, Ok _) =>
      let self1 := with_data self df in
      let lag_terms := map (lag_name (treatment self)) lags in
      let rhs := treatment self :: lag_terms ++ base_controls in
      match
        d ← dmatrices (outcome self) rhs (dropna (data self1));
        let n := length (d_y d) in
        let bandwidth := andrews_bandwidth n in
        dl_results ← fit_design d (HAC bandwidth);
        contemporaneous ← param dl_results (treatment self);
        lag_params ← mapM (param dl_results) lag_terms;
        let long_run_effect := fold_left fadd lag_params contemporaneous in
        let lr_semi_elasticity := semi_elasticity long_run_effect in
        Ok ({[ "model" := VModel dl_results;
               "contemporaneous" := VFloat contemporaneous;
               "lags" := VIntDict (zip lags (map VFloat lag_params));
               "long_run_effect" := VFloat long_run_effect;
               "long_run_semi_elasticity" := VFloat lr_semi_elasticity;
               "n_obs" := VInt (Z.of_nat n) ]} : record)
      with
      | Raise e => (self1, Raise e)
      | Ok r =>
          let self2 := with_results self1 (<["distributed_lags" := VDict r]> (results self1)) in
          (self2, getitem_dict (results self2) "distributed_lags")
      end
  end.

(** The long-run multiplier block of [estimate_koyck_lag]:
    [if rho < 1: long_run = short_run / (1 - rho); ... else: np.nan]. *)
Definition koyck_long_run (rho short_run : pyfloat) : pyfloat * pyfloat :=
  if flt rho (Num 1)
  then let long_run := (short_run / (Num 1 - rho))%py in
       (long_run, semi_elasticity long_run)
  else (NaN, NaN).

(** Right-hand side of the Koyck formula: the lagged outcome, the treatment,
    the controls and the optional trend. *)
Definition koyck_rhs (self : ITSLevelsEstimator) (use_time_trend : bool) : list string :=
  "log_base_fee_lag1" :: treatment self :: base_controls
  ++ (if use_time_trend then ["time_trend"] else []).

(** [estimate_koyck_lag] *)
Definition estimate_koyck_lag (use_time_trend : bool)
  (self : ITSLevelsEstimator) : method record :=
  match col (data self) (outcome self) with
  | Raise e => (self, Raise e)
  | Ok y_col =>
      let self1 := with_data self (set_column "log_base_fee_lag1" (shift 1 y_col) (data self)) in
      match
        d ← dmatrices (outcome self) (koyck_rhs self use_time_trend) (dropna (data self1));
        let n := length (d_y d) in
        let bandwidth := andrews_bandwidth n in
        koyck_results ← fit_design d (HAC bandwidth);
        rho ← param koyck_results "log_base_fee_lag1";
        short_run ← param koyck_results (treatment self);
        let lr := koyck_long_run rho short_run in
        Ok ({[ "model" := VModel koyck_results;
               "rho" := VFloat rho;
               "short_run_effect" := VFloat short_run;
               "long_run_effect" := VFloat lr.1;
               "long_run_semi_elasticity" := VFloat lr.2;
               "adjustment_speed" := VFloat (Num 1 - rho)%py;
               "n_obs" := VInt (Z.of_nat n) ]} : record)
      with
      | Raise e => (self1, Raise e)
      | Ok r =>
          let self2 := with_results self1 (<["koyck" := VDict r]> (results self1)) in
          (self2, getitem_dict (results self2) "koyck")
      end
  end.

(** Step 3 of [estimate_fgls] on one column: the first entry is scaled by
    [sqrt(1 - rho**2)], every later entry becomes [x_t - rho * x_{t-1}]. *)
Definition prais_winsten (rho : pyfloat) (c : column) : result column :=
  match c with
  | [] => Raise (IndexError "index 0 is out of bounds for axis 0 with size 0")
  | x0 :: rest =>
      Ok ((fsqrt (Num 1 - rho * rho) * x0)%py
            :: zip_with (fun x_t x_prev => (x_t - rho * x_prev)%py) rest c)
  end.

(** Steps 3 and 4 of [estimate_fgls]: transform outcome and design with
    [rho], then re-run OLS on the transformed arrays. *)
Definition fgls_refit (rho : pyfloat) (y : column) (X : list column) : result Fit :=
  y_transformed ← prais_winsten rho y;
  X_transformed ← mapM (prais_winsten rho) X;
  OLS_fit y_transformed X_transformed NonRobust.

(** [estimate_fgls] *)
Definition estimate_fgls (self : ITSLevelsEstimator) : method record :=
  let rhs := treatment self :: base_controls in
  match
    d ← dmatrices (outcome self) rhs (data self);
    ols_results ← fit_design d NonRobust;
    let residuals := resid (fit ols_results) in
    let rho := corrcoef (removelast residuals) (tail residuals) in
    let n := length (d_y d) in
    fgls_results ← fgls_refit rho (d_y d) (d_X d);
    treat_idx ← match index_of (treatment self) (d_names d) with
                | Some i => Ok i
                | None => Raise (ValueError "is not in list")
                end;
    beta ← match params fgls_results !! treat_idx with
           | Some b => Ok b
           | None => Raise (IndexError "params")
           end;
    se ← match bse fgls_results !! treat_idx with
         | Some b => Ok b
         | None => Raise (IndexError "bse")
         end;
    let dw := durbin_watson (resid fgls_results) in
    Ok ({[ "model" := VArrayModel fgls_results;
           "beta" := VFloat beta;
           "se" := VFloat se;
           "semi_elasticity" := VFloat (semi_elasticity beta);
           "rho" := VFloat rho;
           "durbin_watson" := VFloat dw;
           "n_obs" := VInt (Z.of_nat n) ]} : record)
  with
  | Raise e => (self, Raise e)
  | Ok r =>
      let self1 := with_results self (<["fgls" := VDict r]> (results self)) in
      (self1, getitem_dict (results self1) "fgls")
  end.

(** [_create_translation_box] *)
Definition _create_translation_box (beta_diff se_diff : pyfloat) : record :=
  {[ "specification" := VStr "First Differences";
     "interpretation" := VStr "Change-on-change elasticity";
     "coefficient" := VFloat beta_diff;
     "se" := VFloat se_diff;
     "mapping_to_levels" := VDict
       {[ "method" := VStr "Integration under stationarity";
          "assumption" := VStr "No permanent level shift";
          "formula" := VStr "β_diff approximates short-run β_levels";
          "long_run_relation" := VStr "Requires distributed lags for full mapping" ]};
     "advantages" := VList
       [ VStr "Eliminates time-invariant unobservables";
         VStr "Addresses non-stationarity";
         VStr "Simpler identification" ];
     "disadvantages" := VList
       [ VStr "May amplify measurement error";
         VStr "Loses long-run information";
         VStr "Different identifying variation";
         VStr "Cannot identify level effects" ];
     "econometric_notes" := VStr
       ("First differences and levels identify different parameters. "
        +:+ "FD identifies short-run effects from period-to-period changes. "
        +:+ "Levels with proper controls identifies total effects including "
        +:+ "long-run adjustments. Translation requires assumptions about "
        +:+ "the dynamic adjustment process.") ]}.

(** The three assignments that open [estimate_differences_robustness]. *)
Definition add_difference_columns (self : ITSLevelsEstimator)
  : DataFrame * result unit :=
  let df := data self in
  match col df (outcome self) with
  | Raise e => (df, Raise e)
  | Ok y_col =>
      let df1 := set_column "d_log_base_fee" (diff y_col) df in
      match col df1 (treatment self) with
      | Raise e => (df1, Raise e)
      | Ok a_col =>
          let df2 := set_column "d_A_t" (diff a_col) df1 in
          match col df2 "D_star" with
          | Raise e => (df2, Raise e)
          | Ok d_col => (set_column "d_D_star" (diff d_col) df2, Ok tt)
          end
      end
  end.

(** [estimate_differences_robustness] *)
Definition estimate_differences_robustness (self : ITSLevelsEstimator)
  : method record :=
  match add_difference_columns self with
  | (df, Raise e) => (with_data self df, Raise e)
  | (df, Ok _) =>
      let self1 := with_data self df in
      match
        d ← dmatrices "d_log_base_fee" ["d_A_t"; "d_D_star"] (dropna (data self1));
        let n := length (d_y d) in
        let bandwidth := andrews_bandwidth n in
        diff_results ← fit_design d (HAC bandwidth);
        beta_diff ← param diff_results "d_A_t";
        se_diff ← std_err diff_results "d_A_t";
        let translation_box := _create_translation_box beta_diff se_diff in
        Ok ({[ "model" := VModel diff_results;
               "beta" := VFloat beta_diff;
               "se" := VFloat se_diff;
               "translation_box" := VDict translation_box;
               "n_obs" := VInt (Z.of_nat n) ]} : record)
      with
      | Raise e => (self1, Raise e)
      | Ok r =>
          let self2 := with_results self1 (<["differences" := VDict r]> (results self1)) in
          (self2, getitem_dict (results self2) "differences")
      end
  end.

End Engine.
End Levels.

(* ===================================================================== *)
(** * Cointegration and error-correction component ([11_ecm.py]) *)
(* ===================================================================== *)

Module ECM.
Section Engine.
Context `{Backend}.

(** [df[names]] *)
Definition select_columns (names : list string) (df : DataFrame) : result DataFrame :=
  cs ← mapM (col df) names;
  Ok {| index := index df; columns := list_to_map (zip names cs) |}.

(** [engle_granger]: regress [y] on [xvars], ADF (intercept only) on the
    residuals.  Returns the statistic, the p-value and the residual series,
    which keeps the labels of the rows used. *)
Definition engle_granger (df : DataFrame) (y : string) (xvars : list string)
  : result (pyfloat * pyfloat * Series) :=
  sel ← select_columns (y :: xvars) df;
  let use := dropna sel in
  if Nat.eqb (len use) 0
  then Ok (NaN, NaN, {| s_index := []; s_values := [] |})
  else
    d ← dmatrices y xvars use;
    model ← OLS_fit (d_y d) (d_X d) NonRobust;
    let residuals := {| s_index := d_index d; s_values := resid model |} in
    let r := try_except (adfuller (s_values residuals) "c") (NaN, NaN) in
    Ok (r.1, r.2, residuals).

(** The record of an ECM that was not estimated on too short a sample:
    the [return] under [if len(use) < 30]. *)
Definition ecm_short_sample (n : nat) : record :=
  {[ "phi" := VFloat NaN; "phi_se" := VFloat NaN; "phi_p" := VFloat NaN;
     "psi" := VFloat NaN; "psi_se" := VFloat NaN; "psi_p" := VFloat NaN;
     "n" := VInt (Z.of_nat n); "half_life_days" := VFloat NaN ]}.

(** The speed-of-adjustment half-life block of [estimate_ecm].  The sum
    [1 + phi] is the exact one: for [|phi| < 2^-52] the double sum can be
    [1], whose logarithm is [0]. *)
Definition half_life_days (phi : pyfloat) : pyfloat :=
  if negb (isnan phi) && fgt (Num 1 + phi)%py (Num 0)
  then (flog (Num 0.5) / flog (Num 1 + phi))%py
  else NaN.

(** HAC bandwidth of the ECM: [min(7, max(1, int(4 * (n/100) ** (2/9))))]. *)
Definition ecm_bandwidth (n : nat) : Z :=
  Z.min 7 (Z.max 1 (andrews_bandwidth n)).

(** The frame [estimate_ecm] builds before it selects the usable rows,
    with the difference terms and the controls of the formula. *)
Definition ecm_frame (df : DataFrame) (residuals : Series)
  (event_controls : list string)
  : result (DataFrame * list string * list string) :=
  let frame := reset_index df in
  let residuals := reindex residuals (index frame) in
  let frame := set_column "ECT" (s_values residuals) frame in
  let frame := set_column "ECT_lag1" (shift 1 (s_values residuals)) frame in
  let '(frame, terms) :=
    match columns frame !! "A_t_clean" with
    | Some a => (set_column "d_A_t_clean" (diff a) frame, ["d_A_t_clean"])
    | None => (frame, [])
    end in
  let '(frame, terms) :=
    match columns frame !! "D_star" with
    | Some dstar => (set_column "d_D_star" (diff dstar) frame, terms ++ ["d_D_star"])
    | None => (frame, terms)
    end in
  let controls := ["is_weekend"; "is_month_end"]
                  ++ List.filter (has_column frame) event_controls in
  let present_controls := List.filter (has_column frame) controls in
  frame ← (if has_column frame "d_log_base_fee" then Ok frame
           else y ← col frame "log_base_fee";
                Ok (set_column "d_log_base_fee" (diff y) frame));
  dy ← col frame "d_log_base_fee";
  let frame := set_column "d_log_base_fee_lag1" (shift 1 dy) frame in
  Ok (frame, terms, present_controls).

(** The record of a fitted ECM: the last [return] of [estimate_ecm]. *)
Definition ecm_fitted (d : design) (res : Fit) (n : nat) : record :=
  let phi := series_get (d_names d) (params res) "ECT_lag1" NaN in
  let phi_se := series_get (d_names d) (bse res) "ECT_lag1" NaN in
  let phi_p := series_get (d_names d) (pvalues res) "ECT_lag1" NaN in
  let psi := series_get (d_names d) (params res) "d_A_t_clean" NaN in
  let psi_se := series_get (d_names d) (bse res) "d_A_t_clean" NaN in
  let psi_p := series_get (d_names d) (pvalues res) "d_A_t_clean" NaN in
  {[ "phi" := VFloat phi; "phi_se" := VFloat phi_se; "phi_p" := VFloat phi_p;
     "psi" := VFloat psi; "psi_se" := VFloat psi_se; "psi_p" := VFloat psi_p;
     "n" := VInt (Z.of_nat n); "bw" := VInt (ecm_bandwidth n);
     "half_life_days" := VFloat (half_life_days phi) ]}.

(** [estimate_ecm]: Δy_t on ECT_{t-1}, Δx_t and controls. *)
Definition estimate_ecm (df : DataFrame) (y : string) (xvars : list string)
  (residuals : Series) (event_controls : list string) : result record :=
  '(frame, terms, present_controls) ← ecm_frame df residuals event_controls;
  use ← dropna_subset ("d_log_base_fee" :: "ECT_lag1" :: terms) frame;
  if (len use <? 30)%nat
  then Ok (ecm_short_sample (len use))
  else
    d ← dmatrices "d_log_base_fee"
          ("ECT_lag1" :: terms ++ "d_log_base_fee_lag1" :: present_controls) use;
    let n := len use in
    let bw := ecm_bandwidth n in
    res ← OLS_fit (d_y d) (d_X d) (HAC bw);
    Ok (ecm_fitted d res n).

Definition johansen_row (stat_type rank_null : string) (stat : pyfloat)
  (crit : pyfloat * pyfloat * pyfloat) : record :=
  {[ "sample" := VStr "Full Post-London";
     "rank_null" := VStr rank_null;
     "stat_type" := VStr stat_type;
     "stat" := VFloat stat;
     "crit_90" := VFloat crit.1.1;
     "crit_95" := VFloat crit.1.2;
     "crit_99" := VFloat crit.2 ]}.

(** The two rows appended for rank [r] in [johansen_tests]. *)
Definition johansen_rank_rows (joh : Johansen) (r : nat) : result (list record) :=
  t ← array_at (lr1 joh) r;
  ct ← array_at (cvt joh) r;
  m ← array_at (lr2 joh) r;
  cm ← array_at (cvm joh) r;
  Ok [ johansen_row "trace" ("r<=" +:+ pretty r) t ct;
       johansen_row "max-eig" ("r=" +:+ pretty r) m cm ].

(** [johansen_tests]: the rows of the returned frame; the empty list is the
    empty frame returned on insufficient data or when the test fails. *)
Definition johansen_tests (df : DataFrame) (series : list string)
  (det_order k_ar_diff : Z) : result (list record) :=
  sub ← dropna_subset series df;
  if (len sub <? 50)%nat
  then Ok []
  else
    X ← mapM (col sub) series;
    Ok (try_except
          (joh ← coint_johansen X det_order k_ar_diff;
           rows0 ← johansen_rank_rows joh 0;
           rows1 ← johansen_rank_rows joh 1;
           Ok (rows0 ++ rows1))
          []).

(** ** Report tables *)

(** [stars(p)] *)
Definition stars (p : pyfloat) : string :=
  if flt p (Num 0.001) then "***"
  else if flt p (Num 0.01) then "**"
  else if flt p (Num 0.05) then "*"
  else "".

(** A table cell: ['N/A'], or a number set with Python's float formatting
    (kept symbolic), its significance stars and a standard error. *)
Inductive cell : Type :=
  | NA
  | Estimate (x : pyfloat) (marks : string) (se : pyfloat)
  | Number (x : pyval).

Record ecm_table := {
  phi_str : cell;
  psi_str : cell;
  hl_str : cell;
  bw_str : cell;
  n_str : pyval
}.

Definition as_float (key : string) (v : pyval) : result pyfloat :=
  match v with
  | VFloat x => Ok x
  | VInt n => Ok (Num (IZR n))
  | _ => Raise (TypeError key)
  end.

Definition float_item (res : record) (key : string) : result pyfloat :=
  v ← getitem res key; as_float key v.

(** [save_latex_ecm]: what is written to the table, or the exception. *)
Definition save_latex_ecm (res : record) : result ecm_table :=
  phi ← float_item res "phi";
  phi_se ← float_item res "phi_se";
  phi_p ← float_item res "phi_p";
  psi ← float_item res "psi";
  psi_se ← float_item res "psi_se";
  psi_p ← float_item res "psi_p";
  n ← getitem res "n";
  bw ← getitem res "bw";
  hl ← float_item res "half_life_days";
  bw_f ← as_float "bw" bw;
  Ok {| phi_str := if isfinite phi then Estimate phi (stars phi_p) phi_se else NA;
        psi_str := if isfinite psi then Estimate psi (stars psi_p) psi_se else NA;
        hl_str := if isfinite hl then Number (VFloat hl) else NA;
        bw_str := if isfinite bw_f then Number bw else NA;
        n_str := n |}.

(** [save_latex_johansen]: a one-line comment for the empty frame, else one
    table line per row. *)
Definition save_latex_johansen (rows : list record) : result (list record) :=
  match rows with
  | [] => Ok []
  | _ =>
      mapM (fun r =>
              _ ← getitem r "rank_null"; _ ← getitem r "stat";
              _ ← getitem r "crit_90"; _ ← getitem r "crit_95";
              _ ← getitem r "crit_99"; _ ← getitem r "stat_type";
              _ ← getitem r "sample"; Ok r) rows
  end.

(** The initial [ecm_summary] of [main]: no cointegration, the model is
    retained in differences. *)
Definition ecm_not_estimated : record :=
  {[ "phi" := VFloat NaN; "phi_se" := VFloat NaN; "phi_p" := VFloat NaN;
     "psi" := VFloat NaN; "psi_se" := VFloat NaN; "psi_p" := VFloat NaN;
     "n" := VInt 0; "bw" := VFloat NaN; "half_life_days" := VFloat NaN ]}.

Definition x_full : list string :=
  ["A_t_clean"; "D_star"; "is_weekend"; "is_month_end";
   "regime_post_merge"; "regime_post_dencun"].

(** The gate of [main]:
    [if np.isfinite(eg_p) and eg_p < 0.05: ecm_summary = estimate_ecm(...)]. *)
Definition ecm_stage (df : DataFrame) (eg_p : pyfloat) (residuals : Series)
  : result record :=
  if isfinite eg_p && flt eg_p (Num 0.05)
  then estimate_ecm df "log_base_fee" x_full residuals []
  else Ok ecm_not_estimated.

(** What one batch run leaves behind. *)
Record outputs := {
  eg_full : pyfloat * pyfloat;
  johansen : list record;
  ecm_summary : record;
  table_c2_johansen : list record;
  table_c2_ecm : ecm_table
}.

(** [main] on a loaded panel that carries the regime dummies: full-sample
    Engle-Granger, Johansen, the gated ECM and the LaTeX tables of the last
    two.  (The unit-root table, the per-regime Engle-Granger rows, the two
    [try/except]-wrapped diagnostic blocks, CSV writing and console output
    lie between these steps; the event-control variant follows them.) *)
Definition main (df : DataFrame) : result outputs :=
  '(eg_stat, eg_p, residuals) ← engle_granger df "log_base_fee" x_full;
  joh ← johansen_tests df ["log_base_fee"; "A_t_clean"; "D_star"] 1 1;
  ecm ← ecm_stage df eg_p residuals;
  tj ← save_latex_johansen joh;
  te ← save_latex_ecm ecm;
  Ok {| eg_full := (eg_stat, eg_p); johansen := joh; ecm_summary := ecm;
        table_c2_johansen := tj; table_c2_ecm := te |}.

End Engine.
End ECM.

(* ===================================================================== *)
(** * Local-projection impulse responses ([12_irf_local_projections.py]) *)
(* ===================================================================== *)

Module LP.
Section Engine.
Context `{Backend}.

(** Dates are day numbers since 1970-01-01. *)
Definition MERGE : pyfloat := Num 19250.   (* 2022-09-15 *)
Definition DENCUN : pyfloat := Num 19795.  (* 2024-03-13 *)

Definition indicator (b : bool) : pyfloat := if b then Num 1 else Num 0.

Definition permute {A} (order : list nat) (l : list A) : list A :=
  omap (fun i => l !! i) order.

(** [df.sort_values("date").reset_index(drop=True)] *)
Definition sort_by_date (df : DataFrame) : result DataFrame :=
  dates ← col df "date";
  let order := argsort dates in
  Ok {| index := seq 0 (len df); columns := permute order <$> columns df |}.

Definition required_columns : list string :=
  ["date"; "A_t_clean"; "log_base_fee"; "D_star"].

Definition set_columns (cs : list (string * column)) (df : DataFrame) : DataFrame :=
  fold_left (fun d kv => set_column kv.1 kv.2 d) cs df.

(** [prepare_frame] *)
Definition prepare_frame (df : DataFrame) : result DataFrame :=
  df ← sort_by_date df;
  if negb (forallb (has_column df) required_columns)
  then Raise (AssertionError "Missing required columns in panel")
  else
    y ← col df "log_base_fee";
    a ← col df "A_t_clean";
    dstar ← col df "D_star";
    dates ← col df "date";
    let df := set_column "d_log_base_fee" (diff y) df in
    let df := set_column "d_A_t" (diff a) df in
    let df := set_column "d_D_star" (diff dstar) df in
    let df :=
      match columns df !! "regime_post_merge" with
      | Some m =>
          let df := set_column "regime_merge" m df in
          set_column "regime_dencun"
            (default (replicate (len df) (Num 0)) (columns df !! "regime_post_dencun")) df
      | None =>
          let df := set_column "regime_merge" (map (fun d => indicator (fle MERGE d)) dates) df in
          set_column "regime_dencun" (map (fun d => indicator (fle DENCUN d)) dates) df
      end in
    let df :=
      if has_column df "is_weekend" then df
      else set_column "is_weekend"
             (map (fun d => indicator (5 <=? dt_dayofweek d)%Z) dates) df in
    let df :=
      if has_column df "is_month_end" then df
      else set_column "is_month_end"
             (map (fun d => indicator (dt_is_month_end d)) dates) df in
    Ok (try_except (ev ← event_dummies dates; Ok (set_columns ev df)) df).

(** One row of the horizon summary: the dict [horizon_regression] returns,
    with the two bootstrap entries [compute_irfs] may add. *)
Record HorizonResult := {
  hr_h : Z;
  hr_n : nat;
  hr_bandwidth : Z;
  hr_beta : pyfloat;
  hr_se : pyfloat;
  hr_ci_low_hac : pyfloat;
  hr_ci_high_hac : pyfloat;
  hr_beta_ols : pyfloat;
  hr_r2 : pyfloat;
  hr_controls : list string;
  hr_mbb : option (pyfloat * pyfloat)
}.

Definition base_cols : list string :=
  ["d_A_t"; "d_D_star"; "regime_merge"; "regime_dencun"; "is_weekend"; "is_month_end"].

(** The frame [{"y_h": y, **base, **present}] after [dropna()], as the
    dependent column and the named regressors. *)
Definition horizon_frame (df : DataFrame) (h : Z) (outcome : string)
  (Xcols : list string) : result (column * list (string * column)) :=
  y0 ← col df outcome;
  let y := col_sub (shift (- h) y0) (shift (- h + 1) y0) in
  xs ← mapM (col df) Xcols;
  let mask := complete_rows (len df) (y :: xs) in
  Ok (select mask y, zip Xcols (map (select mask) xs)).

(** [horizon_regression] *)
Definition horizon_regression (df : DataFrame) (h : Z) (hac_base_bw : option Z)
  (outcome : string) (extra_controls : list string) : result HorizonResult :=
  let present := List.filter (has_column df) extra_controls in
  let Xcols := base_cols ++ present in
  '(y_h, frame) ← horizon_frame df h outcome Xcols;
  let X := add_constant (length y_h) frame in
  ols_res ← OLS_fit y_h X.*2 NonRobust;
  let n := length y_h in
  let hac_base_bw := default (andrews_bandwidth n) hac_base_bw in
  let bw := Z.min (hac_base_bw + Z.max h 1) (Z.of_nat n - 1) in
  hac_res ← OLS_fit y_h X.*2 (HAC bw);
  beta ← loc X.*1 (params hac_res) "d_A_t";
  se ← loc X.*1 (bse hac_res) "d_A_t";
  ci ← loc X.*1 (conf_int hac_res) "d_A_t";
  Ok {| hr_h := h; hr_n := n; hr_bandwidth := bw; hr_beta := beta; hr_se := se;
        hr_ci_low_hac := ci.1; hr_ci_high_hac := ci.2;
        hr_beta_ols := series_get X.*1 (params ols_res) "d_A_t" NaN;
        hr_r2 := rsquared ols_res; hr_controls := Xcols; hr_mbb := None |}.

(** ** Moving-block bootstrap *)

(** [round(x)] for [x >= 0]. *)
Definition round_half (x : R) : Z := Int_part (x + 1 / 2).

(** [max(5, int(round(n ** (1 / 3))))] *)
Definition default_block_len (n : nat) : Z :=
  Z.max 5 (round_half (pow_pos (INR n) (1 / 3))).

(** [list(range(start, start + block_len))] *)
Definition block_idx (start block_len : Z) : list Z :=
  map (fun i => (start + Z.of_nat i)%Z) (seq 0 (Z.to_nat block_len)).

(** The [while len(indices) < n_eff] loop.  [None]: the loop did not finish
    within [fuel] draws. *)
Fixpoint draw_indices (fuel : nat) (n_eff : nat) (block_len : Z)
  (rng : rng_state) (indices : list Z) : option (result (list Z * rng_state)) :=
  if (length indices <? n_eff)%nat
  then match fuel with
       | O => None
       | S fuel' =>
           match rng_integers rng 0 (Z.of_nat n_eff - block_len + 1) with
           | Raise e => Some (Raise e)
           | Ok (start, rng') =>
               draw_indices fuel' n_eff block_len rng' (indices ++ block_idx start block_len)
           end
       end
  else Some (Ok (indices, rng)).

(** [a.iloc[i]]: by position, a negative position counting from the end. *)
Definition iloc {A} (l : list A) (i : Z) : result A :=
  let n := Z.of_nat (length l) in
  let j := if (i <? 0)%Z then (n + i)%Z else i in
  if (j <? 0)%Z then Raise (IndexError "positional indexers are out-of-bounds")
  else array_at l (Z.to_nat j).

(** The body of the [for b in range(B)] loop after the indices are drawn:
    resample the rows, refit OLS, keep the coefficient on [d_A_t]
    (NaN when the fit raises). *)
Definition replication_beta (y_h : column) (frame : list (string * column))
  (indices : list Z) : result pyfloat :=
  yb ← mapM (iloc y_h) indices;
  Xb ← mapM (fun kv => c ← mapM (iloc kv.2) indices; Ok (kv.1, c)) frame;
  let Xb := add_constant (length yb) Xb in
  Ok (try_except
        (res_b ← OLS_fit yb Xb.*2 NonRobust;
         Ok (series_get Xb.*1 (params res_b) "d_A_t" NaN))
        NaN).

Fixpoint bootstrap_loop (B : nat) (n_eff : nat) (block_len : Z)
  (y_h : column) (frame : list (string * column)) (rng : rng_state)
  : option (result (list pyfloat)) :=
  match B with
  | O => Some (Ok [])
  | S B' =>
      match draw_indices n_eff n_eff block_len rng [] with
      | None => None
      | Some (Raise e) => Some (Raise e)
      | Some (Ok (indices, rng')) =>
          match replication_beta y_h frame (take n_eff indices) with
          | Raise e => Some (Raise e)
          | Ok beta_b =>
              match bootstrap_loop B' n_eff block_len y_h frame rng' with
              | None => None
              | Some (Raise e) => Some (Raise e)
              | Some (Ok betas) => Some (Ok (beta_b :: betas))
              end
          end
      end
  end.

(** [moving_block_bootstrap_irf] (defaults: [B = 300], [block_len = None],
    [random_state = 42]); [None] stands for a call that never returns. *)
Definition moving_block_bootstrap_irf (df : DataFrame) (h : Z) (B : nat)
  (block_len : option Z) (random_state : Z) : option (result (pyfloat * pyfloat)) :=
  let rng := default_rng random_state in
  let n := len df in
  let block_len := default (default_block_len n) block_len in
  match horizon_frame df h "log_base_fee" base_cols with
  | Raise e => Some (Raise e)
  | Ok (y_h, base_frame) =>
      let n_eff := length y_h in
      match bootstrap_loop B n_eff block_len y_h base_frame rng with
      | None => None
      | Some (Raise e) => Some (Raise e)
      | Some (Ok betas) =>
          let betas := List.filter (fun b => negb (isnan b)) betas in
          if (length betas <? Nat.max 30 (B / 2))%nat
          then Some (Ok (NaN, NaN))
          else Some (Ok (percentile_2_5_97_5 betas))
      end
  end.

(** ** Horizon sweep *)

Definition candidate_events : list string :=
  ["shock_china_ban"; "shock_otherside_mint"; "shock_terra_luna";
   "shock_ftx_collapse"; "shock_usdc_depeg"; "any_airdrop_d0";
   "any_outage_d0"; "base_onchain_summer_d0"].

(** [range(0, H + 1)] *)
Definition horizons_upto (H : Z) : list Z :=
  map Z.of_nat (seq 0 (Z.to_nat (H + 1))).

(** One iteration of the [for h in range(0, H + 1)] loop of [compute_irfs]. *)
Definition horizon_step (df_prep : DataFrame) (hac_base : Z) (with_mbb : bool)
  (outcome : string) (extra : list string) (h : Z)
  : option (result HorizonResult) :=
  match horizon_regression df_prep h (Some hac_base) outcome extra with
  | Raise e => Some (Raise e)
  | Ok res =>
      if with_mbb && String.eqb outcome "log_base_fee"
      then match moving_block_bootstrap_irf df_prep h 300 None 42 with
           | None => None
           | Some (Raise e) => Some (Raise e)
           | Some (Ok ci) =>
               Some (Ok {| hr_h := hr_h res; hr_n := hr_n res;
                           hr_bandwidth := hr_bandwidth res; hr_beta := hr_beta res;
                           hr_se := hr_se res; hr_ci_low_hac := hr_ci_low_hac res;
                           hr_ci_high_hac := hr_ci_high_hac res;
                           hr_beta_ols := hr_beta_ols res; hr_r2 := hr_r2 res;
                           hr_controls := hr_controls res; hr_mbb := Some ci |})
           end
      else Some (Ok res)
  end.

Fixpoint horizon_sweep (step : Z -> option (result HorizonResult)) (hs : list Z)
  : option (result (list HorizonResult)) :=
  match hs with
  | [] => Some (Ok [])
  | h :: hs' =>
      match step h with
      | None => None
      | Some (Raise e) => Some (Raise e)
      | Some (Ok res) =>
          match horizon_sweep step hs' with
          | None => None
          | Some (Raise e) => Some (Raise e)
          | Some (Ok rows) => Some (Ok (res :: rows))
          end
      end
  end.

(** [pd.DataFrame(rows)] for the rows of a sweep (the list-valued
    [controls] entry is not a numeric column and is left out). *)
Definition summary_frame (rows : list HorizonResult) : DataFrame :=
  let numeric : gmap string column :=
    {[ "h" := map (fun r => Num (IZR (hr_h r))) rows;
       "n" := map (fun r => Num (INR (hr_n r))) rows;
       "bandwidth" := map (fun r => Num (IZR (hr_bandwidth r))) rows;
       "beta" := map hr_beta rows;
       "se" := map hr_se rows;
       "ci_low_hac" := map hr_ci_low_hac rows;
       "ci_high_hac" := map hr_ci_high_hac rows;
       "beta_ols" := map hr_beta_ols rows;
       "r2" := map hr_r2 rows ]} in
  {| index := seq 0 (length rows);
     columns :=
       match rows with
       | [] => ∅
       | _ =>
           if existsb (fun r => bool_decide (is_Some (hr_mbb r))) rows
           then <["ci_low_mbb" := map (fun r => from_option fst NaN (hr_mbb r)) rows]>
                  (<["ci_high_mbb" := map (fun r => from_option snd NaN (hr_mbb r)) rows]>
                     numeric)
           else numeric
       end |}.

(** [compute_irfs] (defaults: [H = 56], [with_mbb = True],
    [outcome = "log_base_fee"], [use_event_controls = True]): the rows of
    the summary, whose frame is [summary_frame]. *)
Definition compute_irfs (df : DataFrame) (H : Z) (with_mbb : bool)
  (outcome : string) (use_event_controls : bool)
  : option (result (list HorizonResult)) :=
  match prepare_frame df with
  | Raise e => Some (Raise e)
  | Ok df_prep =>
      let extra := List.filter (fun c => use_event_controls && has_column df_prep c)
                     candidate_events in
      match horizon_regression df_prep 0 None outcome extra with
      | Raise e => Some (Raise e)
      | Ok tmp =>
          let hac_base := hr_bandwidth tmp in
          horizon_sweep (horizon_step df_prep hac_base with_mbb outcome extra)
            (horizons_upto H)
      end
  end.

(** ** Cumulative effects *)

Definition square (x : pyfloat) : pyfloat := (x * x)%py.

(** [summary[summary["h"] <= H]] *)
Definition upto_horizon (summary : DataFrame) (H : Z) : result DataFrame :=
  hcol ← col summary "h";
  Ok (take_rows (map (fun x => fle x (Num (IZR H))) hcol) summary).

(** The body of the [for H in horizons] loop of [compute_cumulative]. *)
Definition cumulative_row (summary : DataFrame) (outcome : string) (H : Z)
  : result record :=
  sub ← upto_horizon summary H;
  beta ← col sub "beta";
  let beta_cum := pd_sum beta in
  let se_col := if has_column sub "se_hac" then "se_hac" else "se" in
  if String.eqb outcome "log_base_fee"
  then
    let semi := semi_elasticity beta_cum in
    se ← col sub se_col;
    let var_cum := nansum (map square se) in
    let se_cum := fsqrt var_cum in
    let beta_low := (beta_cum - Num 1.96 * se_cum)%py in
    let beta_high := (beta_cum + Num 1.96 * se_cum)%py in
    bounds ←
      (if has_column sub "ci_low_mbb" && has_column sub "ci_high_mbb"
          && negb (existsb isnan (default [] (columns sub !! "ci_low_mbb")))
       then lo ← col sub "ci_low_mbb"; hi ← col sub "ci_high_mbb";
            Ok (pd_sum lo, pd_sum hi)
       else lo ← col sub "ci_low_hac"; hi ← col sub "ci_high_hac";
            Ok (pd_sum lo, pd_sum hi));
    Ok ({[ "H" := VInt H;
           "beta_cum" := VFloat beta_cum;
           "semi_elasticity_10pp" := VFloat semi;
           "semi_ci_low_delta" := VFloat (semi_elasticity beta_low);
           "semi_ci_high_delta" := VFloat (semi_elasticity beta_high);
           "semi_ci_low_cons" := VFloat (semi_elasticity bounds.1);
           "semi_ci_high_cons" := VFloat (semi_elasticity bounds.2) ]} : record)
  else
    let level_change := (Num 0.10 * beta_cum)%py in
    se ← col sub se_col;
    let var_cum := nansum (map square se) in
    let se_cum := fsqrt var_cum in
    let level_se := (Num 0.10 * se_cum)%py in
    Ok ({[ "H" := VInt H;
           "beta_cum" := VFloat beta_cum;
           "level_change_10pp" := VFloat level_change;
           "level_ci_low_delta" := VFloat (level_change - Num 1.96 * level_se)%py;
           "level_ci_high_delta" := VFloat (level_change + Num 1.96 * level_se)%py ]}
        : record).

(** [compute_cumulative] (default [horizons = (1, 7, 14, 28, 56)]): the rows
    of the returned frame, one per requested horizon. *)
Definition compute_cumulative (summary : DataFrame) (horizons : list Z)
  (outcome : string) : result (list record) :=
  mapM (cumulative_row summary outcome) horizons.

(** The rows of a sweep with [h <= horizon]. *)
Definition rows_upto (horizon : Z) (rows : list HorizonResult) : list HorizonResult :=
  List.filter (fun r => fle (Num (IZR (hr_h r))) (Num (IZR horizon))) rows.

(** The [beta_cum] entry of a row of the cumulative table. *)
Definition beta_cum_of (row : record) : option pyfloat :=
  match row !! "beta_cum" with
  | Some (VFloat x) => Some x
  | _ => None
  end.

End Engine.
End LP.

(* ===================================================================== *)
(** * A reference backend and small panels *)
(* ===================================================================== *)

(** A test double for the numerical routines: every fit succeeds on a
    non-empty sample and reports the same coefficient [coef] for every
    column, the residual autocorrelation is [rho_hat] and the ADF p-value
    is [adf_p].  It serves to run the control flow on concrete panels. *)
Module Stub.

Definition stub_fit (coef : pyfloat) (y : column) (X : list column) (c : cov_type)
  : result Fit :=
  match y with
  | [] => Raise (ValueError "zero-size array to reduction operation")
  | _ =>
      Ok {| params := map (fun _ => coef) X;
            bse := map (fun _ => Num 1) X;
            pvalues := map (fun _ => Num 0) X;
            conf_int := map (fun _ => (NInf, PInf)) X;
            resid := y;
            rsquared := Num 0;
            rsquared_adj := Num 0;
            exog := X |}
  end.

Definition stub_integers (s low high : Z) : result (Z * Z) :=
  if (low <? high)%Z
  then Ok ((low + s mod (high - low))%Z, (s + 1)%Z)
  else Raise (ValueError "low >= high").

Definition backend (coef rho_hat adf_p : pyfloat) : Backend :=
  {| OLS_fit := stub_fit coef;
     add_constant := fun n cs => ("const", replicate n (Num 1)) :: cs;
     acorr_ljungbox := fun _ _ => Ok ([Num 0], [Num 1]);
     het_white := fun _ _ => Ok (Num 0, Num 1);
     durbin_watson := fun _ => Num 2;
     corrcoef := fun _ _ => rho_hat;
     adfuller := fun _ _ => Ok (Num (-5), adf_p);
     coint_johansen := fun _ _ _ => Raise (LibraryError "singular matrix");
     percentile_2_5_97_5 := fun l => (hd NaN l, List.last l NaN);
     rng_state := Z;
     default_rng := fun seed => seed;
     rng_integers := stub_integers;
     argsort := fun c => seq 0 (length c);
     dt_dayofweek := fun _ => 0%Z;
     dt_is_month_end := fun _ => false;
     event_dummies := fun _ => Raise (LibraryError "registry not found") |}.

(** A complete daily panel of [n] rows: day numbers from 19000 on, every
    series constant. *)
Definition panel (n : nat) : DataFrame :=
  let const (x : R) : column := replicate n (Num x) in
  {| index := seq 0 n;
     columns :=
       {[ "date" := map (fun i => Num (19000 + INR i)) (seq 0 n);
          "log_base_fee" := const 3;
          "A_t_clean" := const 0.5;
          "D_star" := const 0;
          "regime_merge" := const 0;
          "regime_dencun" := const 0;
          "regime_post_merge" := const 0;
          "regime_post_dencun" := const 0;
          "is_weekend" := const 0;
          "is_month_end" := const 0 ]} |}.

Definition estimator (n : nat) : Levels.ITSLevelsEstimator :=
  {| Levels.data := panel n;
     Levels.outcome := "log_base_fee";
     Levels.treatment := "A_t_clean";
     Levels.results := ∅;
     Levels.diagnostics := ∅ |}.

(** The record a call returned, or the empty dict if it raised. *)
Definition returned (m : result (gmap string pyval)) : gmap string pyval :=
  match m with Ok r => r | Raise _ => ∅ end.

(** The backend used below unless a property needs particular numbers:
    coefficient [0.5], no residual autocorrelation, ADF p-value [0.01]. *)
Definition be : Backend := backend (Num 0.5) (Num 0) (Num 0.01).

(** A daily panel of [2 * n] rows in which the demand factor is missing on
    every second day: [n] complete rows, no two of them consecutive. *)
Definition gappy_panel (n : nat) : DataFrame :=
  let const (x : R) : column := replicate (2 * n) (Num x) in
  {| index := seq 0 (2 * n);
     columns :=
       {[ "date" := map (fun i => Num (19000 + INR i)) (seq 0 (2 * n));
          "log_base_fee" := const 3;
          "A_t_clean" := const 0.5;
          "D_star" := mjoin (replicate n [Num 0; NaN]);
          "regime_post_merge" := const 0;
          "regime_post_dencun" := const 0;
          "is_weekend" := const 0;
          "is_month_end" := const 0 ]} |}.

(** The long-run residual series of [gappy_panel n]: one value per complete
    row, labelled by that row. *)
Definition gappy_residuals (n : nat) : Series :=
  {| s_index := map (fun i => 2 * i)%nat (seq 0 n); s_values := replicate n (Num 3) |}.

(** A long-run residual series for the rows of [panel n]. *)
Definition residuals (n : nat) : Series :=
  {| s_index := seq 0 n; s_values := replicate n (Num 3) |}.

(** A backend whose ADF p-value is [0.5]: no cointegration. *)
Definition be_no_cointegration : Backend := backend (Num 0.5) (Num 0) (Num 0.5).

(** A backend whose fitted coefficients all equal [-0.5]. *)
Definition be_adjusting : Backend := backend (Num (-0.5)) (Num 0) (Num 0.01).

(** A row of a horizon summary with point estimate [b] at horizon [h]. *)
Definition row (h : Z) (b : R) : LP.HorizonResult :=
  {| LP.hr_h := h; LP.hr_n := 100; LP.hr_bandwidth := 5; LP.hr_beta := Num b;
     LP.hr_se := Num 1; LP.hr_ci_low_hac := Num (b - 2); LP.hr_ci_high_hac := Num (b + 2);
     LP.hr_beta_ols := Num b; LP.hr_r2 := Num 0;
     LP.hr_controls := LP.base_cols; LP.hr_mbb := None |}.

(** Horizons 0 to 7 with point estimates 1 to 8. *)
Definition rows8 : list LP.HorizonResult :=
  [row 0 1; row 1 2; row 2 3; row 3 4; row 4 5; row 5 6; row 6 7; row 7 8].

(** The rows a sweep returned, or none if it raised or did not finish. *)
Definition swept (m : option (result (list LP.HorizonResult))) : list LP.HorizonResult :=
  match m with Some (Ok rows) => rows | _ => [] end.

(** The five- and ten-day estimators after one call of a method. *)
Definition after_main_spec : Levels.ITSLevelsEstimator :=
  (Levels.estimate_main_spec (H := be) false (estimator 5)).1.

Definition after_fgls : Levels.ITSLevelsEstimator :=
  (Levels.estimate_fgls (H := be) (estimator 5)).1.

Definition after_distributed_lags : Levels.ITSLevelsEstimator :=
  (Levels.estimate_distributed_lags (H := be) [1; 7]%Z (estimator 10)).1.

End Stub.

(* ===================================================================== *)
(** * Construction of the estimator ([ITSLevelsEstimator.__init__]) *)
(* ===================================================================== *)

Module LevelsInit.
Section Engine.
Context `{Backend}.

(** pandas' [dt.month] accessor of a date. *)
Variable dt_month : pyfloat -> Z.

(** Day numbers of the three upgrade dates. *)
Definition LONDON_DATE : pyfloat := Num 18844.  (* 2021-08-05 *)
Definition MERGE_DATE : pyfloat := Num 19250.   (* 2022-09-15 *)
Definition DENCUN_DATE : pyfloat := Num 19795.  (* 2024-03-13 *)

(** [self.data[self.data['date'] >= self.LONDON_DATE]] *)
Definition post_london (df : DataFrame) : result DataFrame :=
  dates ← col df "date";
  Ok (take_rows (map (fun d => fle LONDON_DATE d) dates) df).

(** The [else] branch of the regime block: the three indicators are built
    from the dates. *)
Definition regime_london_of (d : pyfloat) : pyfloat :=
  LP.indicator (fle LONDON_DATE d && flt d MERGE_DATE).
Definition regime_merge_of (d : pyfloat) : pyfloat :=
  LP.indicator (fle MERGE_DATE d && flt d DENCUN_DATE).
Definition regime_dencun_of (d : pyfloat) : pyfloat :=
  LP.indicator (fle DENCUN_DATE d).

(** [_prepare_data] *)
Definition _prepare_data (df : DataFrame) : result DataFrame :=
  df ← post_london df;
  df ← LP.sort_by_date df;
  let df :=
    match columns df !! "base_fee_median_gwei" with
    | Some fee =>
        if has_column df "log_base_fee" then df
        else set_column "log_base_fee" (map (fun x => flog (x + Num 1)%py) fee) df
    | None => df
    end in
  df ←
    match columns df !! "regime_post_merge" with
    | Some m =>
        let df := set_column "regime_merge" m df in
        Ok (set_column "regime_dencun"
              (default (replicate (len df) (Num 0)) (columns df !! "regime_post_dencun")) df)
    | None =>
        dates ← col df "date";
        let df := set_column "regime_london" (map regime_london_of dates) df in
        let df := set_column "regime_merge" (map regime_merge_of dates) df in
        Ok (set_column "regime_dencun" (map regime_dencun_of dates) df)
    end;
  df ← (if has_column df "day_of_week" then Ok df
        else dates ← col df "date";
             Ok (set_column "day_of_week" (map (fun d => Num (IZR (dt_dayofweek d))) dates) df));
  df ← (if has_column df "month_of_year" then Ok df
        else dates ← col df "date";
             Ok (set_column "month_of_year" (map (fun d => Num (IZR (dt_month d))) dates) df));
  df ← (if has_column df "is_weekend" then Ok df
        else dates ← col df "date";
             Ok (set_column "is_weekend"
                   (map (fun d => LP.indicator (5 <=? dt_dayofweek d)%Z) dates) df));
  df ← (if has_column df "is_month_end" then Ok df
        else dates ← col df "date";
             Ok (set_column "is_month_end"
                   (map (fun d => LP.indicator (dt_is_month_end d)) dates) df));
  Ok (set_column "time_trend" (map (fun i => Num (INR i)) (seq 0 (len df))) df).

(** [ITSLevelsEstimator(data, outcome, treatment)] *)
Definition __init__ (data : DataFrame) (outcome treatment : string)
  : result Levels.ITSLevelsEstimator :=
  df ← _prepare_data data;
  Ok {| Levels.data := df; Levels.outcome := outcome; Levels.treatment := treatment;
        Levels.results := ∅; Levels.diagnostics := ∅ |}.

End Engine.
End LevelsInit.

(* ===================================================================== *)
(** * ARMA error models ([estimate_arma_grid]) *)
(* ===================================================================== *)

(** What a fitted statsmodels ARIMA exposes to the grid search. *)
Record ArimaFit := {
  a_params : list pyfloat;
  a_bse : list pyfloat;
  a_aic : pyfloat;
  a_bic : pyfloat;
  a_resid : column;
  a_nobs : nat
}.

(** [ARIMA(endog, exog, order=(p, 0, q), trend='c').fit()] *)
Class ArimaBackend := {
  ARIMA_fit : column -> list column -> nat -> nat -> result ArimaFit
}.

Module ArmaGrid.
Section Engine.
Context `{Backend} `{ArimaBackend}.

(** A row of the grid. *)
Record GridRow := {
  g_p : nat;
  g_q : nat;
  g_beta : pyfloat;
  g_se : pyfloat;
  g_aic : pyfloat;
  g_bic : pyfloat;
  g_dw : pyfloat;
  g_lb_p_at_maxlag : pyfloat;
  g_lb_p_min : pyfloat;
  g_n : nat
}.

(** The row appended by the [except] branch. *)
Definition failed_row (p q n : nat) : GridRow :=
  {| g_p := p; g_q := q; g_beta := NaN; g_se := NaN; g_aic := PInf; g_bic := PInf;
     g_dw := NaN; g_lb_p_at_maxlag := NaN; g_lb_p_min := NaN; g_n := n |}.

(** [s.min()] (pandas, [skipna=True]). *)
Definition pd_min (c : column) : pyfloat :=
  fold_left (fun m x => if isnan x then m else if isnan m then x
                        else if flt x m then x else m) c NaN.

(** The body of the double loop for one order [(p, q)]. *)
Definition grid_cell (y_vec : column) (X_exog : list column) (lb_lags : Z)
  (p q : nat) : GridRow :=
  try_except
    (res ← ARIMA_fit y_vec X_exog p q;
     beta ← array_at (a_params res) 1;
     se ← array_at (a_bse res) 1;
     let dw := durbin_watson (a_resid res) in
     lb ← acorr_ljungbox (a_resid res) lb_lags;
     lb_p_at_max ← LP.iloc lb.2 (-1);
     Ok {| g_p := p; g_q := q; g_beta := beta; g_se := se;
           g_aic := a_aic res; g_bic := a_bic res; g_dw := dw;
           g_lb_p_at_maxlag := lb_p_at_max; g_lb_p_min := pd_min lb.2;
           g_n := a_nobs res |})
    (failed_row p q (length y_vec)).

(** [range(0, n + 1)] *)
Definition orders_upto (n : Z) : list nat := seq 0 (Z.to_nat (n + 1)).

(** The rows collected by the double loop, the order [(0, 0)] skipped. *)
Definition grid_rows (y_vec : column) (X_exog : list column)
  (max_p max_q lb_lags : Z) : list GridRow :=
  p ← orders_upto max_p;
  q ← orders_upto max_q;
  if Nat.eqb p 0 && Nat.eqb q 0 then []
  else [grid_cell y_vec X_exog lb_lags p q].

(** Order of two keys in an ascending sort and in a descending sort;
    pandas puts missing keys last in both. *)
Definition asc_before (a b : pyfloat) : bool :=
  match a, b with
  | NaN, _ => false
  | _, NaN => true
  | _, _ => flt a b
  end.

Definition desc_before (a b : pyfloat) : bool :=
  match a, b with
  | NaN, _ => false
  | _, NaN => true
  | _, _ => flt b a
  end.

(** [r1] sorts strictly before [r2] under
    [sort_values(['aic', 'lb_p_at_maxlag'], ascending=[True, False])]. *)
Definition row_before (r1 r2 : GridRow) : bool :=
  asc_before (g_aic r1) (g_aic r2)
  || (negb (asc_before (g_aic r2) (g_aic r1))
      && desc_before (g_lb_p_at_maxlag r1) (g_lb_p_at_maxlag r2)).

(** The sort is stable: a row stays ahead of the later rows it ties with. *)
Fixpoint insert_row (r : GridRow) (sorted : list GridRow) : list GridRow :=
  match sorted with
  | [] => [r]
  | x :: sorted' => if row_before x r then x :: insert_row r sorted'
                    else r :: sorted
  end.

Definition sort_values (rows : list GridRow) : result (list GridRow) :=
  match rows with
  | [] => Raise (KeyError "aic")
  | _ => Ok (foldr insert_row [] rows)
  end.

(** A row of the grid as a dict. *)
Definition row_dict (r : GridRow) : record :=
  {[ "p" := VInt (Z.of_nat (g_p r)); "q" := VInt (Z.of_nat (g_q r));
     "beta" := VFloat (g_beta r); "se" := VFloat (g_se r);
     "aic" := VFloat (g_aic r); "bic" := VFloat (g_bic r); "dw" := VFloat (g_dw r);
     "lb_p_at_maxlag" := VFloat (g_lb_p_at_maxlag r);
     "lb_p_min" := VFloat (g_lb_p_min r);
     "n" := VInt (Z.of_nat (g_n r)) ]}.

(** [grid_sorted.iloc[0].to_dict()]: a row taken out of the frame is a
    float Series, so every entry is a float. *)
Definition to_dict (r : GridRow) : record :=
  {[ "p" := VFloat (Num (INR (g_p r))); "q" := VFloat (Num (INR (g_q r)));
     "beta" := VFloat (g_beta r); "se" := VFloat (g_se r);
     "aic" := VFloat (g_aic r); "bic" := VFloat (g_bic r); "dw" := VFloat (g_dw r);
     "lb_p_at_maxlag" := VFloat (g_lb_p_at_maxlag r);
     "lb_p_min" := VFloat (g_lb_p_min r);
     "n" := VFloat (Num (INR (g_n r))) ]}.

(** [estimate_arma_grid] (defaults: [max_p = 3], [max_q = 2],
    [lb_lags = 10]): the grid and the selected row. *)
Definition estimate_arma_grid (max_p max_q lb_lags : Z)
  (self : Levels.ITSLevelsEstimator) : Levels.method (list GridRow * GridRow) :=
  match
    d ← dmatrices (Levels.outcome self)
          (Levels.treatment self
             :: ["D_star"; "regime_merge"; "regime_dencun"; "is_weekend"; "is_month_end"])
          (Levels.data self);
    let X_exog := tail (d_X d) in
    let y_vec := d_y d in
    let grid := grid_rows y_vec X_exog max_p max_q lb_lags in
    grid_sorted ← sort_values grid;
    best ← LP.iloc grid_sorted 0;
    Ok (grid, best)
  with
  | Raise e => (self, Raise e)
  | Ok (grid, best) =>
      (Levels.with_results self
         (<["arma_best" := VDict (to_dict best)]>
            (<["arma_grid" := VList (map (fun r => VDict (row_dict r)) grid)]>
               (Levels.results self))),
       Ok (grid, best))
  end.

End Engine.
End ArmaGrid.

(* ===================================================================== *)
(** * What the levels engine writes out ([save_results]) *)
(* ===================================================================== *)

Module LevelsReport.

(** The keys [save_results] copies into the summary. *)
Definition saved_keys : list string :=
  ["main_effect"; "distributed_lags"; "arima"; "fgls"; "differences"].

(** One iteration of [for key in [...]] on the [results] part of the
    summary.  The operations store a dict under each of these keys; for
    any other kind of value the model raises. *)
Definition save_entry (results : record) (summary : record) (key : string)
  : result record :=
  match results !! key with
  | None => Ok summary
  | Some (VDict d) =>
      if bool_decide (d = ∅) then Ok summary
      else if bool_decide (is_Some (d !! "model"))
           then Ok (<[key := VDict (delete "model" d)]> summary)
           else Ok (<[key := VDict d]> summary)
  | Some _ => Raise (TypeError key)
  end.

Fixpoint save_entries (results : record) (summary : record) (keys : list string)
  : result record :=
  match keys with
  | [] => Ok summary
  | key :: keys' =>
      summary ← save_entry results summary key;
      save_entries results summary keys'
  end.

(** [save_results]: the ['results'] entry of the summary written to
    [its_levels_results.yaml]. *)
Definition save_results (self : Levels.ITSLevelsEstimator) : result record :=
  save_entries (Levels.results self) ∅ saved_keys.

End LevelsReport.

(* ===================================================================== *)
(** * Further tables and samples of the ECM component *)
(* ===================================================================== *)

Module ECMReport.

(** The two lines of the compact table and its observation count. *)
Record ecm_compact := {
  cp_phi : ECM.cell;
  cp_half_life : ECM.cell;
  cp_psi : ECM.cell;
  cp_n : pyval
}.

(** [save_latex_ecm_compact_plain] *)
Definition save_latex_ecm_compact_plain (res : record) : result ecm_compact :=
  phi ← getitem res "phi";
  phi_se ← getitem res "phi_se";
  phi_p ← getitem res "phi_p";
  psi ← getitem res "psi";
  psi_se ← getitem res "psi_se";
  psi_p ← getitem res "psi_p";
  n ← getitem res "n";
  hl ← getitem res "half_life_days";
  phi ← ECM.as_float "phi" phi;
  phi_line ←
    (if isfinite phi
     then p ← ECM.as_float "phi_p" phi_p;
          se ← ECM.as_float "phi_se" phi_se;
          hl ← ECM.as_float "half_life_days" hl;
          Ok (ECM.Estimate phi (ECM.stars p) se, ECM.Number (VFloat hl))
     else Ok (ECM.NA, ECM.NA));
  psi ← ECM.as_float "psi" psi;
  psi_line ←
    (if isfinite psi
     then p ← ECM.as_float "psi_p" psi_p;
          se ← ECM.as_float "psi_se" psi_se;
          Ok (ECM.Estimate psi (ECM.stars p) se)
     else Ok ECM.NA);
  Ok {| cp_phi := phi_line.1; cp_half_life := phi_line.2; cp_psi := psi_line;
        cp_n := n |}.

(** Day numbers of the upgrade dates ([LONDON], [MERGE], [DENCUN]). *)
Definition LONDON : pyfloat := Num 18844.
Definition MERGE : pyfloat := Num 19250.
Definition DENCUN : pyfloat := Num 19795.

(** [regime_label] of [load_core_panel] *)
Definition regime_label (d : pyfloat) : string :=
  if flt d MERGE then "London-Merge"
  else if flt d DENCUN then "Merge-Dencun"
  else "Post-Dencun".

(** The regime dummies [main] constructs when the panel has none. *)
Definition regime_post_merge (d : pyfloat) : pyfloat :=
  LP.indicator (fle MERGE d && flt d DENCUN).

Definition regime_post_dencun (d : pyfloat) : pyfloat :=
  LP.indicator (fle DENCUN d).

(** The mask [df['regime_label'] == regime] of the by-regime samples, for
    the dates of the rows. *)
Definition regime_mask (regime : string) (dates : column) : list bool :=
  map (fun d => String.eqb (regime_label d) regime) dates.

End ECMReport.

(* ===================================================================== *)
(** * ARIMA test doubles *)
(* ===================================================================== *)

Module StubArima.

(** No order can be fitted. *)
Definition failing : ArimaBackend :=
  {| ARIMA_fit := fun _ _ _ _ => Raise (LibraryError "LU decomposition error") |}.

(** Every order is fitted; the AIC of order [(p, q)] is [10 - p + 2 q]. *)
Definition by_order : ArimaBackend :=
  {| ARIMA_fit := fun y X p q =>
       Ok {| a_params := [Num 0; Num 0.5]; a_bse := [Num 1; Num 1];
             a_aic := Num (IZR (10 - Z.of_nat p + 2 * Z.of_nat q));
             a_bic := Num (IZR (10 - Z.of_nat p + 2 * Z.of_nat q));
             a_resid := y; a_nobs := length y |} |}.

(** The grid and the selected row a call returned. *)
Definition selected (m : result (list ArmaGrid.GridRow * ArmaGrid.GridRow))
  : list ArmaGrid.GridRow * ArmaGrid.GridRow :=
  match m with
  | Ok x => x
  | Raise _ => ([], ArmaGrid.failed_row 0 0 0)
  end.

End StubArima.

(* ===================================================================== *)
(** * Prepared panels *)
(* ===================================================================== *)

Module Prepared.

(** The frame [prepare_frame] makes of the complete [n]-day panel. *)
Definition frame (n : nat) : DataFrame :=
  try_except (LP.prepare_frame (H := Stub.be) (Stub.panel n)) (Stub.panel n).

(** Outcome and regressors of the horizon-3 projection on five days. *)
Definition horizon3 : column * list (string * column) :=
  try_except (LP.horizon_frame (frame 5) 3 "log_base_fee" LP.base_cols)
    ([], []).

(** The horizon-3 projection on five days. *)
Definition projection3 : LP.HorizonResult :=
  try_except
    (LP.horizon_regression (H := Stub.be) (frame 5) 3 None "log_base_fee" [])
    (Stub.row 0 0).

(** The frame the ECM is fitted on, for five days. *)
Definition ecm_frame5 : DataFrame * list string * list string :=
  try_except (ECM.ecm_frame (Stub.panel 5) (Stub.residuals 5) [])
    (Stub.panel 5, [], []).

(** Four days, one before London and one in each regime, without regime
    or calendar columns. *)
Definition bare_panel : DataFrame :=
  let const (x : R) : column := replicate 4 (Num x) in
  {| index := seq 0 4;
     columns :=
       {[ "date" := [Num 18800; Num 18900; Num 19300; Num 19800];
          "log_base_fee" := const 3;
          "A_t_clean" := const 0.5;
          "D_star" := const 0 ]} |}.

(** The estimator constructed on [bare_panel], every date in August. *)
Definition bare_estimator : Levels.ITSLevelsEstimator :=
  try_except
    (LevelsInit.__init__ (H := Stub.be) (fun _ => 8%Z) bare_panel
       "log_base_fee" "A_t_clean")
    (Stub.estimator 0).

(** The local-projection frame of [bare_panel]. *)
Definition bare_frame : DataFrame :=
  try_except (LP.prepare_frame (H := Stub.be) bare_panel) bare_panel.

(** A fitted ECM design whose adjustment coefficient is exactly zero. *)
Definition zero_adjustment_design : design :=
  {| d_index := [0; 1]%nat; d_y := [Num 1; Num 2];
     d_names := ["Intercept"; "ECT_lag1"; "d_A_t_clean"];
     d_X := [[Num 1; Num 1]; [Num 0; Num 1]; [Num 1; Num 0]] |}.

Definition zero_adjustment_fit : Fit :=
  {| params := [Num 1; Num 0; Num 0.5]; bse := [Num 1; Num 1; Num 1];
     pvalues := [Num 0; Num 1; Num 0.5];
     conf_int := [(NInf, PInf); (NInf, PInf); (NInf, PInf)];
     resid := [Num 0; Num 0]; rsquared := Num 0; rsquared_adj := Num 0;
     exog := [[Num 1; Num 1]; [Num 0; Num 1]; [Num 1; Num 0]] |}.

End Prepared.

(* ===================================================================== *)
(** * Further panels and test doubles *)
(* ===================================================================== *)

Module Daily.

(** A complete daily panel of [n] rows from day 19220 (2022-08-16) on: the
    fee moves with a weekly pattern, the adoption share grows, the demand
    factor cycles; the Merge is row 30, Saturdays and Sundays follow the
    calendar and the month ends are 31 August and 30 September. *)
Definition panel (n : nat) : DataFrame :=
  let days := seq 0 n in
  let const (x : R) : column := replicate n (Num x) in
  let post_merge : column := map (fun i => LP.indicator (30 <=? i)%nat) days in
  {| index := days;
     columns :=
       {[ "date" := map (fun i => Num (19220 + INR i)) days;
          "log_base_fee" := map (fun i => Num (3 + INR (i mod 7) / 10)) days;
          "A_t_clean" := map (fun i => Num (0.3 + INR i / 1000)) days;
          "D_star" := map (fun i => Num (INR (i mod 5) / 10 - 0.2)) days;
          "regime_merge" := post_merge;
          "regime_dencun" := const 0;
          "regime_post_merge" := post_merge;
          "regime_post_dencun" := const 0;
          "is_weekend" := map (fun i => LP.indicator (5 <=? (i + 1) mod 7)%nat) days;
          "is_month_end" :=
            map (fun i => LP.indicator ((i =? 15) || (i =? 45))%nat) days ]} |}.

(** The estimator on the first [n] days of that panel. *)
Definition estimator (n : nat) : Levels.ITSLevelsEstimator :=
  {| Levels.data := panel n;
     Levels.outcome := "log_base_fee";
     Levels.treatment := "A_t_clean";
     Levels.results := ∅;
     Levels.diagnostics := ∅ |}.

End Daily.

Module Gaps.

(** A daily panel of [3 * n] rows in which the fee is missing on every
    third day: no row has both a fee change and a lagged fee change. *)
Definition fee_gap_panel (n : nat) : DataFrame :=
  let const (x : R) : column := replicate (3 * n) (Num x) in
  {| index := seq 0 (3 * n);
     columns :=
       {[ "date" := map (fun i => Num (19000 + INR i)) (seq 0 (3 * n));
          "log_base_fee" := mjoin (replicate n [Num 3; Num 3; NaN]);
          "A_t_clean" := const 0.5;
          "D_star" := const 0;
          "regime_post_merge" := const 0;
          "regime_post_dencun" := const 0;
          "is_weekend" := const 0;
          "is_month_end" := const 0 ]} |}.

(** The long-run residuals of [fee_gap_panel n]: one value per row with a
    fee, labelled by that row. *)
Definition fee_gap_residuals (n : nat) : Series :=
  {| s_index := mjoin (map (fun i => [3 * i; 3 * i + 1])%nat (seq 0 n));
     s_values := replicate (2 * n) (Num 3) |}.

End Gaps.

Module Doubles.

(** [Stub.be] with a Johansen routine that returns statistics and critical
    values for two ranks. *)
Definition be_johansen : Backend :=
  {| OLS_fit := @OLS_fit Stub.be;
     add_constant := @add_constant Stub.be;
     acorr_ljungbox := @acorr_ljungbox Stub.be;
     het_white := @het_white Stub.be;
     durbin_watson := @durbin_watson Stub.be;
     corrcoef := @corrcoef Stub.be;
     adfuller := @adfuller Stub.be;
     coint_johansen := fun _ _ _ =>
       Ok {| lr1 := [Num 40; Num 10]; lr2 := [Num 30; Num 10];
             cvt := [(Num 27, Num 30, Num 35); (Num 13, Num 15, Num 20)];
             cvm := [(Num 19, Num 21, Num 26); (Num 13, Num 15, Num 20)] |};
     percentile_2_5_97_5 := @percentile_2_5_97_5 Stub.be;
     rng_state := @rng_state Stub.be;
     default_rng := @default_rng Stub.be;
     rng_integers := @rng_integers Stub.be;
     argsort := @argsort Stub.be;
     dt_dayofweek := @dt_dayofweek Stub.be;
     dt_is_month_end := @dt_is_month_end Stub.be;
     event_dummies := @event_dummies Stub.be |}.

(** [Stub.be] with an ADF test that raises. *)
Definition be_adf_fails : Backend :=
  {| OLS_fit := @OLS_fit Stub.be;
     add_constant := @add_constant Stub.be;
     acorr_ljungbox := @acorr_ljungbox Stub.be;
     het_white := @het_white Stub.be;
     durbin_watson := @durbin_watson Stub.be;
     corrcoef := @corrcoef Stub.be;
     adfuller := fun _ _ => Raise (ValueError "sample size is too short");
     coint_johansen := @coint_johansen Stub.be;
     percentile_2_5_97_5 := @percentile_2_5_97_5 Stub.be;
     rng_state := @rng_state Stub.be;
     default_rng := @default_rng Stub.be;
     rng_integers := @rng_integers Stub.be;
     argsort := @argsort Stub.be;
     dt_dayofweek := @dt_dayofweek Stub.be;
     dt_is_month_end := @dt_is_month_end Stub.be;
     event_dummies := @event_dummies Stub.be |}.

(** A second generator with a state of its own shape, the seed and the
    number of draws made so far; seeded alike, it delivers the draws of
    the generator of [Stub.backend]. *)
Definition counting_integers (s : Z * nat) (low high : Z) : result (Z * (Z * nat)) :=
  if (low <? high)%Z
  then Ok ((low + (s.1 + Z.of_nat s.2) mod (high - low))%Z, (s.1, S s.2))
  else Raise (ValueError "low >= high").

(** The backend [Stub.be] with that generator in place of its own. *)
Definition be_counting : Backend :=
  {| OLS_fit := @OLS_fit Stub.be;
     add_constant := @add_constant Stub.be;
     acorr_ljungbox := @acorr_ljungbox Stub.be;
     het_white := @het_white Stub.be;
     durbin_watson := @durbin_watson Stub.be;
     corrcoef := @corrcoef Stub.be;
     adfuller := @adfuller Stub.be;
     coint_johansen := @coint_johansen Stub.be;
     percentile_2_5_97_5 := @percentile_2_5_97_5 Stub.be;
     rng_state := Z * nat;
     default_rng := fun seed => (seed, 0%nat);
     rng_integers := counting_integers;
     argsort := @argsort Stub.be;
     dt_dayofweek := @dt_dayofweek Stub.be;
     dt_is_month_end := @dt_is_month_end Stub.be;
     event_dummies := @event_dummies Stub.be |}.

(** The state of the generator of [Stub.backend] after as many draws. *)
Definition related (s1 : Z) (s2 : Z * nat) : Prop := s1 = (s2.1 + Z.of_nat s2.2)%Z.

(** The record of the ECM fitted on forty complete days by the backend
    whose coefficients all equal [-0.5]. *)
Definition fitted_forty : record :=
  {[ "phi" := VFloat (Num (-0.5)); "phi_se" := VFloat (Num 1); "phi_p" := VFloat (Num 0);
     "psi" := VFloat (Num (-0.5)); "psi_se" := VFloat (Num 1); "psi_p" := VFloat (Num 0);
     "n" := VInt 39; "bw" := VInt (ECM.ecm_bandwidth 39);
     "half_life_days" := VFloat (ECM.half_life_days (Num (-0.5))) ]}.

End Doubles.

(* ===================================================================== *)
(** * Vocabulary of the properties *)
(* ===================================================================== *)

(** Two estimator instances that hold the same frame and the same column
    selection; their [results] and [diagnostics] dictionaries may differ. *)
Definition same_inputs (e e' : Levels.ITSLevelsEstimator) : Prop :=
  Levels.data e = Levels.data e'
  /\ Levels.outcome e = Levels.outcome e'
  /\ Levels.treatment e = Levels.treatment e'.

(** A column of finite numbers with at least one row. *)
Definition finite_column (c : column) : Prop :=
  c <> [] /\ forallb isfinite c = true.

(** Number of rows a mask keeps. *)
Definition kept (mask : list bool) : nat :=
  length (List.filter (fun b : bool => b) mask).

(** The difference terms [estimate_ecm] puts in its formula for a panel. *)
Definition ecm_terms (df : DataFrame) : list string :=
  (if has_column df "A_t_clean" then ["d_A_t_clean"] else [])
  ++ (if has_column df "D_star" then ["d_D_star"] else []).

(** Two Python processes as far as the bootstrap goes: the numerical
    routines it calls return the same values in both. *)
Definition same_numerics (B1 B2 : Backend) : Prop :=
  @OLS_fit B1 = @OLS_fit B2
  /\ @add_constant B1 = @add_constant B2
  /\ @percentile_2_5_97_5 B1 = @percentile_2_5_97_5 B2.

(** Two generator objects, one per process, that deliver the same draws
    from related states on: [integers(low, high)] returns the same number
    (or raises the same exception) and leaves related states. *)
Definition same_draws (B1 B2 : Backend)
  (related : @rng_state B1 -> @rng_state B2 -> Prop) : Prop :=
  forall (s1 : @rng_state B1) (s2 : @rng_state B2) (low high : Z),
    related s1 s2 ->
    match @rng_integers B1 s1 low high, @rng_integers B2 s2 low high with
    | Ok (v1, s1'), Ok (v2, s2') => v1 = v2 /\ related s1' s2'
    | Raise e1, Raise e2 => e1 = e2
    | _, _ => False
    end.

(** Two calls that both return related values, both raise the same
    exception, or both fail to return. *)
Definition agree {A1 A2} (rel : A1 -> A2 -> Prop)
  (m1 : option (result A1)) (m2 : option (result A2)) : Prop :=
  match m1, m2 with
  | Some (Ok a1), Some (Ok a2) => rel a1 a2
  | Some (Raise e1), Some (Raise e2) => e1 = e2
  | None, None => True
  | _, _ => False
  end.

(* ===================================================================== *)
(** * Properties *)
(* ===================================================================== *)

(** ** Arithmetic of NumPy scalars *)

Lemma Rltb_true (x y : R) : x < y -> Rltb x y = true.
Proof. intros Hlt. unfold Rltb. destruct (Rlt_dec x y); [reflexivity | lra]. Qed.

Lemma Rltb_false (x y : R) : y <= x -> Rltb x y = false.
Proof. intros Hle. unfold Rltb. destruct (Rlt_dec x y); [lra | reflexivity]. Qed.

Lemma Rleb_true (x y : R) : x <= y -> Rleb x y = true.
Proof. intros Hle. unfold Rleb. destruct (Rle_dec x y); [reflexivity | lra]. Qed.

Lemma Rleb_false (x y : R) : y < x -> Rleb x y = false.
Proof. intros Hlt. unfold Rleb. destruct (Rle_dec x y); [lra | reflexivity]. Qed.

Lemma Reqb_true (x y : R) : x = y -> Reqb x y = true.
Proof. intros Heq. unfold Reqb. destruct (Req_dec_T x y); [reflexivity | contradiction]. Qed.

Lemma Reqb_false (x y : R) : x <> y -> Reqb x y = false.
Proof. intros Hne. unfold Reqb. destruct (Req_dec_T x y); [contradiction | reflexivity]. Qed.

Lemma Rleb_IZR (a b : Z) : Rleb (IZR a) (IZR b) = (a <=? b)%Z.
Proof.
  destruct (Z.leb_spec a b) as [Hle | Hlt].
  - apply Rleb_true, IZR_le, Hle.
  - apply Rleb_false, IZR_lt, Hlt.
Qed.

(** Close a goal between closed terms by evaluation. *)
Ltac evaluate :=
  lazymatch goal with
  | |- ?a = ?b =>
      first [ is_ground b; vm_cast_no_check (@eq_refl _ a)
            | vm_compute; reflexivity ]
  end.

(** Resolve the comparisons of real constants that block evaluation. *)
Ltac real_tests :=
  repeat first
    [ rewrite Rltb_true by lra
    | rewrite Rltb_false by lra
    | rewrite Rleb_true by lra
    | rewrite Rleb_false by lra
    | rewrite Reqb_true by lra
    | rewrite Reqb_false by lra ].

Lemma signed_inf_pos (x : R) : 0 < x -> signed_inf x = PInf.
Proof. intros Hx. unfold signed_inf. now real_tests. Qed.

Lemma signed_inf_neg (x : R) : x < 0 -> signed_inf x = NInf.
Proof. intros Hx. unfold signed_inf. now real_tests. Qed.

Lemma exp_tenth_zero : exp (0.10 * 0) = 1.
Proof. rewrite Rmult_0_r. apply exp_0. Qed.

(** ** Semi-elasticity and its delta-method standard error *)

(** C8.  At [beta = 0] the semi-elasticity [100 * (exp(0.10 * beta) - 1)] is
    exactly [0], and the delta-method standard error
    [10 * exp(0.10 * beta) * se] is exactly [10 * se], whatever the standard
    error [se] of the coefficient is. *)
Theorem semi_elasticity_at_zero (se : pyfloat) :
  semi_elasticity (Num 0) = Num 0
  /\ Levels._delta_method_se (Num 0) se = (Num 10 * se)%py.
Proof.
  unfold semi_elasticity, Levels._delta_method_se.
  cbn [fmul fexp fsub fadd fneg]. rewrite exp_tenth_zero. split.
  - f_equal. lra.
  - destruct se as [x | | |]; cbn [fmul]; try reflexivity.
    + f_equal. lra.
    + f_equal. lra.
    + do 2 f_equal. lra.
Qed.

(** ** ECM half-life *)

Lemma ln_half_neg : ln 0.5 < 0.
Proof. rewrite <- ln_1. apply ln_increasing; lra. Qed.

Lemma flog_half : flog (Num 0.5) = Num (ln 0.5).
Proof. unfold flog. now rewrite Rltb_true by lra. Qed.

(** C6, counterexample.  At [phi = 0] the guard [1 + phi > 0] holds, yet
    the quotient is [ln(0.5) / 0]: NumPy returns [-inf], which is not a
    finite half-life. *)
Lemma half_life_at_zero_adjustment :
  fgt (Num 1 + Num 0)%py (Num 0) = true
  /\ ECM.half_life_days (Num 0) = NInf
  /\ isfinite (ECM.half_life_days (Num 0)) = false.
Proof.
  assert (Hhl : ECM.half_life_days (Num 0) = NInf).
  { unfold ECM.half_life_days, fgt. cbn [isnan negb fadd flt andb].
    rewrite Rltb_true by lra. rewrite flog_half.
    unfold flog. rewrite Rltb_true by lra.
    replace (1 + 0) with 1 by lra. rewrite ln_1.
    cbn [fdiv]. rewrite Reqb_true by reflexivity.
    apply signed_inf_neg, ln_half_neg. }
  rewrite Hhl. repeat split.
  unfold fgt. cbn [fadd flt]. apply Rltb_true. lra.
Qed.

(** The half-life of a real adjustment speed: the formula where the
    logarithm of [1 + phi] is defined and nonzero, NaN where [1 + phi <= 0]. *)
Lemma half_life_days_real (phi : R) :
  (0 < 1 + phi -> phi <> 0 ->
     ECM.half_life_days (Num phi) = Num (ln 0.5 / ln (1 + phi)))
  /\ (1 + phi <= 0 -> ECM.half_life_days (Num phi) = NaN).
Proof.
  unfold ECM.half_life_days, fgt. cbn [isnan negb fadd flt andb]. split.
  - intros Hpos Hne. rewrite Rltb_true by lra. rewrite flog_half.
    unfold flog. rewrite Rltb_true by lra. cbn [fdiv].
    rewrite Reqb_false; [reflexivity |].
    apply ln_neq_0; lra.
  - intros Hle. now rewrite Rltb_false by lra.
Qed.

Lemma half_life_days_nan : ECM.half_life_days NaN = NaN.
Proof. reflexivity. Qed.

Lemma half_life_days_zero : ECM.half_life_days (Num 0) = NInf.
Proof.
  unfold ECM.half_life_days, fgt. cbn [isnan negb fadd flt andb].
  rewrite Rltb_true by lra. rewrite flog_half.
  unfold flog. rewrite Rltb_true by lra.
  replace (1 + 0) with 1 by lra. rewrite ln_1.
  cbn [fdiv]. rewrite Reqb_true by reflexivity.
  apply signed_inf_neg, ln_half_neg.
Qed.

Lemma half_life_days_not_nan (x : R) :
  0 < 1 + x -> isnan (ECM.half_life_days (Num x)) = false.
Proof.
  intros Hpos. unfold ECM.half_life_days, fgt. cbn [isnan negb fadd flt andb].
  rewrite Rltb_true by lra. rewrite flog_half.
  unfold flog. rewrite Rltb_true by lra. cbn [fdiv].
  unfold Reqb. destruct (Req_dec_T (ln (1 + x)) 0); [| reflexivity].
  now rewrite (signed_inf_neg _ ln_half_neg).
Qed.

Lemma half_life_days_inf :
  ECM.half_life_days PInf = Num 0 /\ ECM.half_life_days NInf = NaN.
Proof.
  unfold ECM.half_life_days, fgt. cbn [isnan negb fadd flt andb].
  rewrite flog_half. split; reflexivity.
Qed.

(** ** Koyck long-run multiplier *)

Lemma koyck_long_run_lt (rho short_run : R) :
  rho < 1 ->
  Levels.koyck_long_run (Num rho) (Num short_run)
  = (Num (short_run / (1 - rho)),
     semi_elasticity (Num (short_run / (1 - rho)))).
Proof.
  intros Hlt. unfold Levels.koyck_long_run. cbn [flt].
  rewrite Rltb_true by lra. cbn [fsub fadd fneg fdiv fst snd].
  rewrite Reqb_false by lra. reflexivity.
Qed.

Lemma koyck_long_run_ge (rho : R) (short_run : pyfloat) :
  1 <= rho -> Levels.koyck_long_run (Num rho) short_run = (NaN, NaN).
Proof.
  intros Hge. unfold Levels.koyck_long_run. cbn [flt].
  now rewrite Rltb_false by lra.
Qed.

Lemma koyck_long_run_nan (short_run : pyfloat) :
  Levels.koyck_long_run NaN short_run = (NaN, NaN).
Proof. reflexivity. Qed.

(** ** Dictionaries *)

Lemma getitem_dict_insert (m : record) (k : string) (r : record) :
  getitem_dict (<[k := VDict r]> m) k = Ok r.
Proof. unfold getitem_dict, getitem. now rewrite lookup_insert_eq. Qed.

Lemma bind_Ok {A B} (a : A) (f : A -> result B) : (Ok a ≫= f) = f a.
Proof. reflexivity. Qed.


(** ** Frames *)

Lemma has_column_lookup (df : DataFrame) (c : string) :
  has_column df c = true -> exists v : column, columns df !! c = Some v.
Proof. unfold has_column. intros Hc. now apply bool_decide_eq_true in Hc. Qed.

Lemma col_lookup (df : DataFrame) (c : string) (v : column) :
  columns df !! c = Some v -> col df c = Ok v.
Proof. intros Hv. unfold col, getitem. now rewrite Hv. Qed.

Lemma col_take_rows (mask : list bool) (df : DataFrame) (c : string) (v : column) :
  columns df !! c = Some v -> col (take_rows mask df) c = Ok (select mask v).
Proof.
  intros Hv. unfold col, getitem, take_rows. cbn [columns].
  now rewrite lookup_fmap, Hv.
Qed.

Lemma has_column_take_rows (mask : list bool) (df : DataFrame) (c : string) :
  has_column (take_rows mask df) c = has_column df c.
Proof.
  unfold has_column, take_rows. cbn [columns]. rewrite lookup_fmap.
  now destruct (columns df !! c).
Qed.

Lemma has_column_true (df : DataFrame) (c : string) :
  has_column df c = true <-> is_Some (columns df !! c).
Proof. unfold has_column. apply bool_decide_eq_true. Qed.

Lemma mapM_col_present (frame : DataFrame) (names : list string) :
  forallb (has_column frame) names = true ->
  exists cs : list column, mapM (col frame) names = Ok cs.
Proof.
  induction names as [| c names IH]; intros Hall; [now eexists |].
  cbn [forallb] in Hall. apply andb_prop in Hall as [Hc Hall].
  apply has_column_true in Hc as [v Hv]. destruct (IH Hall) as [cs Hcs].
  exists (v :: cs). cbn [mapM]. now rewrite (col_lookup _ _ _ Hv), bind_Ok, Hcs.
Qed.

Lemma dropna_subset_present (names : list string) (frame : DataFrame) :
  forallb (has_column frame) names = true ->
  exists use : DataFrame,
    dropna_subset names frame = Ok use
    /\ forall k : string, has_column use k = has_column frame k.
Proof.
  intros Hall. unfold dropna_subset.
  destruct (mapM_col_present frame names Hall) as [cs ->]. rewrite bind_Ok.
  eexists. split; [reflexivity |]. intros k. apply has_column_take_rows.
Qed.

Lemma variable_present (data : DataFrame) (c : string) :
  has_column data c = true -> exists v : column, variable data c = Ok v.
Proof.
  intros Hc. apply has_column_true in Hc as [v Hv]. exists v.
  unfold variable. now rewrite Hv.
Qed.

(** With every variable of the formula in the frame, patsy builds the
    design. *)
Lemma dmatrices_present (lhs : string) (rhs : list string) (data : DataFrame) :
  has_column data lhs = true -> forallb (has_column data) rhs = true ->
  exists d : design, dmatrices lhs rhs data = Ok d /\ d_names d = "Intercept" :: rhs.
Proof.
  intros Hl Hr. unfold dmatrices.
  destruct (variable_present data lhs Hl) as [y ->]. rewrite bind_Ok.
  assert (Hxs : exists xs, mapM (variable data) rhs = Ok xs).
  { induction rhs as [| c rhs IH]; [now eexists |].
    cbn [forallb] in Hr. apply andb_prop in Hr as [Hc Hr].
    destruct (variable_present data c Hc) as [v Hv]. destruct (IH Hr) as [xs Hxs].
    exists (v :: xs). cbn [mapM]. now rewrite Hv, bind_Ok, Hxs. }
  destruct Hxs as [xs ->]. rewrite bind_Ok. eexists. split; reflexivity.
Qed.

Lemma forallb_same {A} (f g : A -> bool) (l : list A) :
  (forall x, f x = g x) -> forallb f l = forallb g l.
Proof. intros Hfg. induction l as [| x l IH]; [reflexivity |]. cbn. now rewrite Hfg, IH. Qed.

Lemma series_get_at {V} (ns : list string) (vals : list V) (name : string)
    (dflt : V) (i : nat) :
  index_of name ns = Some i -> series_get ns vals name dflt = default dflt (vals !! i).
Proof.
  intros Hi. unfold series_get, loc. rewrite Hi. cbn. now destruct (vals !! i).
Qed.

Lemma series_get_absent {V} (ns : list string) (vals : list V) (name : string)
    (dflt : V) :
  index_of name ns = None -> series_get ns vals name dflt = dflt.
Proof. intros Hi. unfold series_get, loc. now rewrite Hi. Qed.

Lemma bool_decide_Some {A} (v : A) : bool_decide (is_Some (Some v)) = true.
Proof. apply bool_decide_eq_true_2. eauto. Qed.

Lemma bool_decide_None {A} : bool_decide (is_Some (@None A)) = false.
Proof. apply bool_decide_eq_false_2. now intros [? ?]. Qed.

Section LevelsProperties.
Context `{Backend}.
Import Levels.

(** What [estimate_koyck_lag] returns once the Koyck regression is fitted. *)
Lemma estimate_koyck_lag_record (self : ITSLevelsEstimator) (use_time_trend : bool)
    (y : column) (d : design) (m : NamedFit) (rho short_run : pyfloat) :
  col (data self) (outcome self) = Ok y ->
  dmatrices (outcome self) (koyck_rhs self use_time_trend)
    (dropna (set_column "log_base_fee_lag1" (shift 1 y) (data self))) = Ok d ->
  fit_design d (HAC (andrews_bandwidth (length (d_y d)))) = Ok m ->
  param m "log_base_fee_lag1" = Ok rho ->
  param m (treatment self) = Ok short_run ->
  (estimate_koyck_lag use_time_trend self).2
  = Ok {[ "model" := VModel m;
          "rho" := VFloat rho;
          "short_run_effect" := VFloat short_run;
          "long_run_effect" := VFloat (koyck_long_run rho short_run).1;
          "long_run_semi_elasticity" := VFloat (koyck_long_run rho short_run).2;
          "adjustment_speed" := VFloat (Num 1 - rho)%py;
          "n_obs" := VInt (Z.of_nat (length (d_y d))) ]}.
Proof.
  intros Hy Hd Hm Hrho Hsr.
  unfold estimate_koyck_lag. rewrite Hy.
  cbn [data outcome treatment with_data results].
  rewrite Hd, bind_Ok, Hm, bind_Ok, Hrho, bind_Ok, Hsr, bind_Ok.
  cbv zeta. cbn [snd results with_results]. now rewrite getitem_dict_insert.
Qed.

(** C5, as the code has it.  Whenever the Koyck regression itself is fitted
    (the design exists, the fit returns and carries the two coefficients),
    [estimate_koyck_lag] returns a record, without raising.  Its long-run
    effect is [short_run / (1 - rho)] and its long-run semi-elasticity the
    semi-elasticity of that quotient when [rho < 1]; otherwise ([rho >= 1]
    or [rho] NaN) both entries are NaN: the NaN of missing data, not a value
    of its own. *)
Theorem koyck_long_run_effect (self : ITSLevelsEstimator) (use_time_trend : bool)
    (y : column) (d : design) (m : NamedFit) (rho short_run : pyfloat) :
  col (data self) (outcome self) = Ok y ->
  dmatrices (outcome self) (koyck_rhs self use_time_trend)
    (dropna (set_column "log_base_fee_lag1" (shift 1 y) (data self))) = Ok d ->
  fit_design d (HAC (andrews_bandwidth (length (d_y d)))) = Ok m ->
  param m "log_base_fee_lag1" = Ok rho ->
  param m (treatment self) = Ok short_run ->
  exists r : record,
    (estimate_koyck_lag use_time_trend self).2 = Ok r
    /\ r !! "rho" = Some (VFloat rho)
    /\ r !! "short_run_effect" = Some (VFloat short_run)
    /\ r !! "long_run_effect"
       = Some (VFloat (if flt rho (Num 1)
                       then (short_run / (Num 1 - rho))%py else NaN))
    /\ r !! "long_run_semi_elasticity"
       = Some (VFloat (if flt rho (Num 1)
                       then semi_elasticity (short_run / (Num 1 - rho))%py else NaN)).
Proof.
  intros Hy Hd Hm Hrho Hsr.
  eexists. split; [eapply estimate_koyck_lag_record; eassumption |].
  repeat split; try reflexivity.
  - unfold koyck_long_run. destruct (flt rho (Num 1)); reflexivity.
  - unfold koyck_long_run. destruct (flt rho (Num 1)); reflexivity.
Qed.

(** ** Prais-Winsten with zero autocorrelation *)

Lemma prais_winsten_tail_zero (rest : column) (x0 : pyfloat) :
  isfinite x0 = true -> forallb isfinite rest = true ->
  zip_with (fun x_t x_prev => (x_t - Num 0 * x_prev)%py) rest (x0 :: rest) = rest.
Proof.
  revert x0. induction rest as [| a rest IH]; intros x0 Hx0 Hrest; [reflexivity |].
  cbn [forallb] in Hrest. apply andb_prop in Hrest as [Ha Hrest].
  cbn [zip_with]. rewrite (IH a Ha Hrest). f_equal.
  destruct a as [a | | |]; try discriminate.
  destruct x0 as [x0 | | |]; try discriminate.
  cbn. f_equal. lra.
Qed.

Lemma prais_winsten_zero (c : column) :
  finite_column c -> prais_winsten (Num 0) c = Ok c.
Proof.
  intros [Hne Hfin]. destruct c as [| x0 rest]; [contradiction |].
  cbn [forallb] in Hfin. apply andb_prop in Hfin as [Hx0 Hrest].
  unfold prais_winsten. rewrite (prais_winsten_tail_zero rest x0 Hx0 Hrest).
  do 2 f_equal. destruct x0 as [x0 | | |]; try discriminate.
  cbn [fmul fsub fadd fneg fsqrt].
  replace (1 + - (0 * 0)) with 1 by lra.
  rewrite Rltb_false by lra. rewrite sqrt_1. cbn [fmul]. f_equal. lra.
Qed.

Lemma prais_winsten_zero_design (X : list column) :
  Forall finite_column X -> mapM (prais_winsten (Num 0)) X = Ok X.
Proof.
  induction 1 as [| c X Hc _ IH]; [reflexivity |].
  cbn [mapM]. now rewrite (prais_winsten_zero c Hc), bind_Ok, IH.
Qed.

(** C7.  With [rho = 0] the Prais-Winsten step of [estimate_fgls] leaves a
    finite outcome vector and design matrix unchanged, so the OLS re-run on
    the transformed data is the original OLS fit: same coefficient vector,
    entry for entry. *)
Theorem fgls_zero_rho_is_ols (y : column) (X : list column) :
  finite_column y -> Forall finite_column X ->
  fgls_refit (Num 0) y X = OLS_fit y X NonRobust.
Proof.
  intros Hy HX. unfold fgls_refit.
  now rewrite (prais_winsten_zero y Hy), bind_Ok, (prais_winsten_zero_design X HX).
Qed.

(** ** What an operation reads and what it writes *)

Lemma run_diagnostics_results (m : NamedFit) (self : ITSLevelsEstimator) :
  results (_run_diagnostics m self).1 = results self
  /\ data (_run_diagnostics m self).1 = data self
  /\ outcome (_run_diagnostics m self).1 = outcome self
  /\ treatment (_run_diagnostics m self).1 = treatment self.
Proof.
  unfold _run_diagnostics.
  destruct (acorr_ljungbox _ _ ≫= _) as [[lb wt] | e]; repeat split.
Qed.

Lemma run_diagnostics_outcome (m : NamedFit) (self self' : ITSLevelsEstimator) :
  (_run_diagnostics m self).2 = (_run_diagnostics m self').2.
Proof.
  unfold _run_diagnostics.
  destruct (acorr_ljungbox _ _ ≫= _) as [[lb wt] | e]; reflexivity.
Qed.

Lemma estimate_main_spec_same (tt : bool) (e e' : ITSLevelsEstimator) :
  same_inputs e e' -> (estimate_main_spec tt e).2 = (estimate_main_spec tt e').2.
Proof.
  intros (Hd & Ho & Ht). unfold estimate_main_spec. rewrite Hd, Ho, Ht.
  destruct (dmatrices _ _ _ ≫= _) as [[[ols hac] me] | err]; [| reflexivity].
  cbv zeta.
  match goal with
  | |- (match _run_diagnostics ?m ?s1 with _ => _ end).2
       = (match _run_diagnostics ?m ?s2 with _ => _ end).2 =>
      pose proof (run_diagnostics_outcome m s1 s2) as Hout;
      pose proof (run_diagnostics_results m s1) as (Hr1 & _);
      pose proof (run_diagnostics_results m s2) as (Hr2 & _);
      destruct (_run_diagnostics m s1) as [s1' [[] | e1]];
      destruct (_run_diagnostics m s2) as [s2' [[] | e2]]
  end; cbn [fst snd] in *; try congruence.
  rewrite Hr1, Hr2. cbn [results with_results].
  now rewrite !getitem_dict_insert.
Qed.

Lemma estimate_main_spec_inputs (tt : bool) (e : ITSLevelsEstimator) :
  same_inputs (estimate_main_spec tt e).1 e.
Proof.
  unfold estimate_main_spec, same_inputs.
  destruct (dmatrices _ _ _ ≫= _) as [[[ols hac] me] | err]; [| easy].
  cbv zeta.
  match goal with
  | |- context [_run_diagnostics ?m ?s1] =>
      pose proof (run_diagnostics_results m s1) as (_ & Hd & Ho & Ht);
      destruct (_run_diagnostics m s1) as [s1' [[] | e1]]
  end; cbn [fst] in *; rewrite Hd, Ho, Ht; easy.
Qed.

Lemma estimate_fgls_same (e e' : ITSLevelsEstimator) :
  same_inputs e e' -> (estimate_fgls e).2 = (estimate_fgls e').2.
Proof.
  intros (Hd & Ho & Ht). unfold estimate_fgls. rewrite Hd, Ho, Ht.
  destruct (dmatrices _ _ _ ≫= _) as [r | err]; [| reflexivity].
  cbv zeta. cbn [snd results with_results]. now rewrite !getitem_dict_insert.
Qed.

Lemma estimate_fgls_inputs (e : ITSLevelsEstimator) :
  same_inputs (estimate_fgls e).1 e.
Proof.
  unfold estimate_fgls, same_inputs.
  destruct (dmatrices _ _ _ ≫= _) as [r | err]; easy.
Qed.

Lemma estimate_koyck_lag_same (tt : bool) (e e' : ITSLevelsEstimator) :
  same_inputs e e' -> (estimate_koyck_lag tt e).2 = (estimate_koyck_lag tt e').2.
Proof.
  intros (Hd & Ho & Ht). unfold estimate_koyck_lag, koyck_rhs. rewrite Hd, Ho, Ht.
  destruct (col _ _) as [y | err]; [| reflexivity].
  cbn [data outcome treatment with_data].
  destruct (dmatrices _ _ _ ≫= _) as [r | err]; [| reflexivity].
  cbv zeta. cbn [snd results with_results]. now rewrite !getitem_dict_insert.
Qed.

Lemma estimate_distributed_lags_same (lags : list Z) (e e' : ITSLevelsEstimator) :
  same_inputs e e' ->
  (estimate_distributed_lags lags e).2 = (estimate_distributed_lags lags e').2.
Proof.
  intros (Hd & Ho & Ht). unfold estimate_distributed_lags. rewrite Hd, Ho, Ht.
  destruct (add_lag_columns _ _ _) as [df [[] | err]]; [| reflexivity].
  cbn [data outcome treatment with_data].
  destruct (dmatrices _ _ _ ≫= _) as [r | err]; [| reflexivity].
  cbv zeta. cbn [snd results with_results]. now rewrite !getitem_dict_insert.
Qed.

Lemma estimate_differences_robustness_same (e e' : ITSLevelsEstimator) :
  same_inputs e e' ->
  (estimate_differences_robustness e).2 = (estimate_differences_robustness e').2.
Proof.
  intros (Hd & Ho & Ht).
  unfold estimate_differences_robustness, add_difference_columns.
  rewrite Hd, Ho, Ht.
  destruct (col _ _) as [y | err]; [| reflexivity].
  destruct (col _ _) as [a | err]; [| reflexivity].
  destruct (col _ _) as [ds | err]; [| reflexivity].
  cbn [data outcome treatment with_data].
  destruct (dmatrices _ _ _ ≫= _) as [r | err]; [| reflexivity].
  cbv zeta. cbn [snd results with_results]. now rewrite !getitem_dict_insert.
Qed.

(** C3, as the code has it.  The methods share the estimator's frame, so
    what a method returns is a function of that frame (and of the column
    selection), not of the panel alone: two instances holding the same
    frame return the same record from each of the five operations whatever
    their result dictionaries hold, and the two operations that add no
    column to the frame (main specification, FGLS) leave every later call
    unaffected. *)
Theorem operations_read_the_shared_frame (e e' : ITSLevelsEstimator)
    (use_time_trend : bool) (lags : list Z) :
  same_inputs e e' ->
  (estimate_main_spec use_time_trend e).2 = (estimate_main_spec use_time_trend e').2
  /\ (estimate_distributed_lags lags e).2 = (estimate_distributed_lags lags e').2
  /\ (estimate_koyck_lag use_time_trend e).2 = (estimate_koyck_lag use_time_trend e').2
  /\ (estimate_fgls e).2 = (estimate_fgls e').2
  /\ (estimate_differences_robustness e).2 = (estimate_differences_robustness e').2
  /\ same_inputs (estimate_main_spec use_time_trend e).1 e
  /\ same_inputs (estimate_fgls e).1 e.
Proof.
  intros Hsame. repeat split.
  - now apply estimate_main_spec_same.
  - now apply estimate_distributed_lags_same.
  - now apply estimate_koyck_lag_same.
  - now apply estimate_fgls_same.
  - now apply estimate_differences_robustness_same.
  - apply estimate_main_spec_inputs.
  - apply estimate_main_spec_inputs.
  - apply estimate_main_spec_inputs.
  - apply estimate_fgls_inputs.
  - apply estimate_fgls_inputs.
  - apply estimate_fgls_inputs.
Qed.

(** The semi-elasticity entries of the record [estimate_main_spec]
    returns are the two transforms of its coefficient and standard error. *)
Lemma estimate_main_spec_semi_elasticity (e e1 : ITSLevelsEstimator)
    (use_time_trend : bool) (r : record) :
  estimate_main_spec use_time_trend e = (e1, Ok r) ->
  exists beta se : pyfloat,
    r !! "beta" = Some (VFloat beta)
    /\ r !! "se" = Some (VFloat se)
    /\ r !! "semi_elasticity" = Some (VFloat (semi_elasticity beta))
    /\ r !! "semi_se" = Some (VFloat (_delta_method_se beta se)).
Proof.
  unfold estimate_main_spec. intros Hmain.
  destruct (dmatrices _ _ _ ≫= _) as [[[ols hac] me] | err] eqn:Hfit;
    [| discriminate].
  cbv zeta in Hmain.
  destruct (_run_diagnostics _ _) as [s1 [[] | err]] eqn:Hdiag; [| discriminate].
  pose proof (run_diagnostics_results ols
                (with_results e
                   (<["main_effect" := VDict me]>
                      (<["main_hac" := VModel hac]>
                         (<["main_ols" := VModel ols]> (results e))))))
    as (Hres & _).
  rewrite Hdiag in Hres. cbn [fst results with_results] in Hres.
  injection Hmain as _ Hr. rewrite Hres, getitem_dict_insert in Hr.
  injection Hr as <-.
  destruct (dmatrices _ _ _) as [d | ?]; [| discriminate].
  rewrite bind_Ok in Hfit.
  repeat (match type of Hfit with
          | (?c ≫= _) = _ => destruct c; [rewrite bind_Ok in Hfit | discriminate]
          end).
  injection Hfit as _ _ <-.
  do 2 eexists. repeat split; reflexivity.
Qed.

(** ** Residual diagnostics *)

Lemma diagnostics_distributed_lags (lags : list Z) (e : ITSLevelsEstimator) :
  diagnostics (estimate_distributed_lags lags e).1 = diagnostics e.
Proof.
  unfold estimate_distributed_lags.
  destruct (add_lag_columns _ _ _) as [df [[] | err]]; [| reflexivity].
  destruct (dmatrices _ _ _ ≫= _) as [r | err]; reflexivity.
Qed.

Lemma diagnostics_koyck_lag (tt : bool) (e : ITSLevelsEstimator) :
  diagnostics (estimate_koyck_lag tt e).1 = diagnostics e.
Proof.
  unfold estimate_koyck_lag.
  destruct (col _ _) as [y | err]; [| reflexivity].
  destruct (dmatrices _ _ _ ≫= _) as [r | err]; reflexivity.
Qed.

Lemma diagnostics_differences (e : ITSLevelsEstimator) :
  diagnostics (estimate_differences_robustness e).1 = diagnostics e.
Proof.
  unfold estimate_differences_robustness.
  destruct (add_difference_columns e) as [df [[] | err]]; [| reflexivity].
  destruct (dmatrices _ _ _ ≫= _) as [r | err]; reflexivity.
Qed.

Lemma diagnostics_fgls (e : ITSLevelsEstimator) :
  diagnostics (estimate_fgls e).1 = diagnostics e.
Proof.
  unfold estimate_fgls.
  destruct (dmatrices _ _ _ ≫= _) as [r | err]; reflexivity.
Qed.

(** The three diagnostics as [_run_diagnostics] stores them. *)
Lemma run_diagnostics_stores (m : NamedFit) (self self' : ITSLevelsEstimator) :
  _run_diagnostics m self = (self', Ok tt) ->
  exists (lb : list pyfloat * list pyfloat) (wt : pyfloat * pyfloat),
    acorr_ljungbox (resid (fit m)) 10 = Ok lb
    /\ het_white (resid (fit m)) (exog (fit m)) = Ok wt
    /\ diagnostics self' !! "ljung_box"
       = Some (VDict {[ "statistic" := VFloats lb.1;
                        "pvalue" := VFloats lb.2;
                        "significant" := VBool (any_below lb.2 (Num 0.05)) ]})
    /\ diagnostics self' !! "white_test"
       = Some (VDict {[ "statistic" := VFloat wt.1;
                        "pvalue" := VFloat wt.2;
                        "significant" := VBool (flt wt.2 (Num 0.05)) ]})
    /\ diagnostics self' !! "durbin_watson"
       = Some (VFloat (durbin_watson (resid (fit m))))
    /\ results self' = results self.
Proof.
  unfold _run_diagnostics.
  destruct (acorr_ljungbox _ _) as [lb | err] eqn:Hlb; [| discriminate].
  rewrite bind_Ok.
  destruct (het_white _ _) as [wt | err] eqn:Hwt; [| discriminate].
  rewrite bind_Ok. intros [= <-].
  exists lb, wt. cbn [diagnostics with_diagnostics results].
  repeat split; now simplify_map_eq.
Qed.

Lemma lags_only_fit (B' : Backend) (lags : list Z) (e : ITSLevelsEstimator) :
  @OLS_fit B' = @OLS_fit H ->
  @estimate_distributed_lags B' lags e = @estimate_distributed_lags H lags e.
Proof.
  intros Hfit. unfold estimate_distributed_lags, fit_design. now rewrite Hfit.
Qed.

Lemma koyck_only_fit (B' : Backend) (tt : bool) (e : ITSLevelsEstimator) :
  @OLS_fit B' = @OLS_fit H ->
  @estimate_koyck_lag B' tt e = @estimate_koyck_lag H tt e.
Proof.
  intros Hfit. unfold estimate_koyck_lag, fit_design. now rewrite Hfit.
Qed.

Lemma differences_only_fit (B' : Backend) (e : ITSLevelsEstimator) :
  @OLS_fit B' = @OLS_fit H ->
  @estimate_differences_robustness B' e = @estimate_differences_robustness H e.
Proof.
  intros Hfit. unfold estimate_differences_robustness, fit_design. now rewrite Hfit.
Qed.

Lemma distributed_lags_keys (lags : list Z) (e : ITSLevelsEstimator) (r : record) :
  (estimate_distributed_lags lags e).2 = Ok r ->
  dom r = list_to_set ["model"; "contemporaneous"; "lags"; "long_run_effect";
                       "long_run_semi_elasticity"; "n_obs"].
Proof.
  unfold estimate_distributed_lags.
  destruct (add_lag_columns _ _ _) as [df [[] | err]]; [| discriminate].
  destruct (dmatrices _ _ _) as [d | ?]; [| discriminate]. rewrite bind_Ok.
  cbv zeta.
  repeat (match goal with
          | |- context [?c ≫= _] => destruct c; [rewrite bind_Ok | discriminate]
          end).
  cbn [snd results with_results]. rewrite getitem_dict_insert.
  intros [= <-]. rewrite !dom_insert_L, dom_singleton_L. cbn [list_to_set foldr]. set_solver.
Qed.

Lemma koyck_keys (tt : bool) (e : ITSLevelsEstimator) (r : record) :
  (estimate_koyck_lag tt e).2 = Ok r ->
  dom r = list_to_set ["model"; "rho"; "short_run_effect"; "long_run_effect";
                       "long_run_semi_elasticity"; "adjustment_speed"; "n_obs"].
Proof.
  unfold estimate_koyck_lag.
  destruct (col _ _) as [y | err]; [| discriminate].
  destruct (dmatrices _ _ _) as [d | ?]; [| discriminate]. rewrite bind_Ok.
  cbv zeta.
  repeat (match goal with
          | |- context [?c ≫= _] => destruct c; [rewrite bind_Ok | discriminate]
          end).
  cbn [snd results with_results]. rewrite getitem_dict_insert.
  intros [= <-]. rewrite !dom_insert_L, dom_singleton_L. cbn [list_to_set foldr].
  set_solver.
Qed.

Lemma differences_keys (e : ITSLevelsEstimator) (r : record) :
  (estimate_differences_robustness e).2 = Ok r ->
  dom r = list_to_set ["model"; "beta"; "se"; "translation_box"; "n_obs"].
Proof.
  unfold estimate_differences_robustness.
  destruct (add_difference_columns e) as [df [[] | err]]; [| discriminate].
  destruct (dmatrices _ _ _) as [d | ?]; [| discriminate]. rewrite bind_Ok.
  cbv zeta.
  repeat (match goal with
          | |- context [?c ≫= _] => destruct c; [rewrite bind_Ok | discriminate]
          end).
  cbn [snd results with_results]. rewrite getitem_dict_insert.
  intros [= <-]. rewrite !dom_insert_L, dom_singleton_L. cbn [list_to_set foldr].
  set_solver.
Qed.

Lemma fgls_only_fit_and_durbin_watson (B' : Backend) (e : ITSLevelsEstimator) :
  @OLS_fit B' = @OLS_fit H -> @corrcoef B' = @corrcoef H ->
  @durbin_watson B' = @durbin_watson H ->
  @estimate_fgls B' e = @estimate_fgls H e.
Proof.
  intros Hfit Hcorr Hdw.
  unfold estimate_fgls, fgls_refit, fit_design. now rewrite Hfit, Hcorr, Hdw.
Qed.

(** C4, as the code has it.  Only [estimate_main_spec] runs the three
    residual diagnostics, on the OLS residuals, and it stores them in the
    estimator's [diagnostics] dictionary, not in the record it returns;
    [estimate_fgls] attaches the Durbin-Watson statistic of the transformed
    residuals to its record and nothing else.  The distributed-lag, Koyck
    and first-difference operations compute no residual diagnostic: the
    records they return hold the listed entries and no others, the
    [diagnostics] dictionary is as it was, and what they do is the same
    whatever the three diagnostic routines are (for [estimate_fgls]:
    whatever the Ljung-Box and White routines are). *)
Theorem diagnostics_of_the_operations (e : ITSLevelsEstimator)
    (use_time_trend : bool) (lags : list Z) :
  returns (estimate_main_spec use_time_trend e).2 = true ->
  returns (estimate_fgls e).2 = true ->
  (exists (r1 : record) (m : NamedFit) (lb : list pyfloat * list pyfloat)
          (wt : pyfloat * pyfloat),
      (estimate_main_spec use_time_trend e).2 = Ok r1
      /\ results (estimate_main_spec use_time_trend e).1 !! "main_ols" = Some (VModel m)
      /\ acorr_ljungbox (resid (fit m)) 10 = Ok lb
      /\ het_white (resid (fit m)) (exog (fit m)) = Ok wt
      /\ diagnostics (estimate_main_spec use_time_trend e).1 !! "ljung_box"
         = Some (VDict {[ "statistic" := VFloats lb.1;
                          "pvalue" := VFloats lb.2;
                          "significant" := VBool (any_below lb.2 (Num 0.05)) ]})
      /\ diagnostics (estimate_main_spec use_time_trend e).1 !! "white_test"
         = Some (VDict {[ "statistic" := VFloat wt.1;
                          "pvalue" := VFloat wt.2;
                          "significant" := VBool (flt wt.2 (Num 0.05)) ]})
      /\ diagnostics (estimate_main_spec use_time_trend e).1 !! "durbin_watson"
         = Some (VFloat (durbin_watson (resid (fit m))))
      /\ r1 !! "ljung_box" = None
      /\ r1 !! "white_test" = None
      /\ r1 !! "durbin_watson" = None)
  /\ (exists (r2 : record) (m : Fit),
        (estimate_fgls e).2 = Ok r2
        /\ r2 !! "model" = Some (VArrayModel m)
        /\ r2 !! "durbin_watson" = Some (VFloat (durbin_watson (resid m)))
        /\ r2 !! "ljung_box" = None
        /\ r2 !! "white_test" = None
        /\ diagnostics (estimate_fgls e).1 = diagnostics e)
  /\ ((forall r : record,
         (estimate_distributed_lags lags e).2 = Ok r ->
         dom r = list_to_set ["model"; "contemporaneous"; "lags"; "long_run_effect";
                              "long_run_semi_elasticity"; "n_obs"])
      /\ diagnostics (estimate_distributed_lags lags e).1 = diagnostics e)
  /\ ((forall r : record,
         (estimate_koyck_lag use_time_trend e).2 = Ok r ->
         dom r = list_to_set ["model"; "rho"; "short_run_effect"; "long_run_effect";
                              "long_run_semi_elasticity"; "adjustment_speed"; "n_obs"])
      /\ diagnostics (estimate_koyck_lag use_time_trend e).1 = diagnostics e)
  /\ ((forall r : record,
         (estimate_differences_robustness e).2 = Ok r ->
         dom r = list_to_set ["model"; "beta"; "se"; "translation_box"; "n_obs"])
      /\ diagnostics (estimate_differences_robustness e).1 = diagnostics e)
  /\ (forall B' : Backend,
        @OLS_fit B' = @OLS_fit H ->
        @estimate_distributed_lags B' lags e = @estimate_distributed_lags H lags e
        /\ @estimate_koyck_lag B' use_time_trend e = @estimate_koyck_lag H use_time_trend e
        /\ @estimate_differences_robustness B' e = @estimate_differences_robustness H e)
  /\ (forall B' : Backend,
        @OLS_fit B' = @OLS_fit H -> @corrcoef B' = @corrcoef H ->
        @durbin_watson B' = @durbin_watson H ->
        @estimate_fgls B' e = @estimate_fgls H e).
Proof.
  intros Hmain Hfgls. split; [| split; [| split; [| split; [| split; [| split]]]]].
  - unfold estimate_main_spec in Hmain |- *.
    destruct (dmatrices _ _ _ ≫= _) as [[[ols hac] me] | err] eqn:Hfit;
      [| discriminate].
    cbv zeta in Hmain |- *.
    destruct (_run_diagnostics _ _) as [s1 [[] | err]] eqn:Hdiag; [| discriminate].
    destruct (run_diagnostics_stores _ _ _ Hdiag)
      as (lb & wt & Hlb & Hwt & Hk1 & Hk2 & Hk3 & Hres).
    cbn [fst snd]. rewrite Hres. cbn [results with_results].
    rewrite getitem_dict_insert.
    exists me, ols, lb, wt. split; [reflexivity |].
    repeat split; try assumption.
    + now simplify_map_eq.
    + revert Hfit. clear. intros Hfit.
      destruct (dmatrices _ _ _) as [d | ?]; [| discriminate].
      rewrite bind_Ok in Hfit.
      repeat (match type of Hfit with
              | (?c ≫= _) = _ => destruct c; [rewrite bind_Ok in Hfit | discriminate]
              end).
      now injection Hfit as _ _ <-.
    + revert Hfit. clear. intros Hfit.
      destruct (dmatrices _ _ _) as [d | ?]; [| discriminate].
      rewrite bind_Ok in Hfit.
      repeat (match type of Hfit with
              | (?c ≫= _) = _ => destruct c; [rewrite bind_Ok in Hfit | discriminate]
              end).
      now injection Hfit as _ _ <-.
    + revert Hfit. clear. intros Hfit.
      destruct (dmatrices _ _ _) as [d | ?]; [| discriminate].
      rewrite bind_Ok in Hfit.
      repeat (match type of Hfit with
              | (?c ≫= _) = _ => destruct c; [rewrite bind_Ok in Hfit | discriminate]
              end).
      now injection Hfit as _ _ <-.
  - pose proof (diagnostics_fgls e) as Hdg.
    unfold estimate_fgls in Hfgls, Hdg |- *.
    destruct (dmatrices _ _ _ ≫= _) as [r | err] eqn:Hfit; [| discriminate].
    cbv zeta in Hdg |- *. cbn [fst snd results with_results] in Hdg |- *.
    rewrite getitem_dict_insert.
    destruct (dmatrices _ _ _) as [d | ?]; [| discriminate].
    rewrite bind_Ok in Hfit.
    repeat (match type of Hfit with
            | (?c ≫= _) = _ => destruct c eqn:?; [rewrite bind_Ok in Hfit | discriminate]
            end).
    injection Hfit as <-.
    eexists _, _. split; [reflexivity |]. repeat split; try reflexivity.
  - split; [intros r; apply distributed_lags_keys | apply diagnostics_distributed_lags].
  - split; [intros r; apply koyck_keys | apply diagnostics_koyck_lag].
  - split; [intros r; apply differences_keys | apply diagnostics_differences].
  - intros B' Hfit. split; [| split].
    + now apply lags_only_fit.
    + now apply koyck_only_fit.
    + now apply differences_only_fit.
  - intros B'. apply fgls_only_fit_and_durbin_watson.
Qed.

End LevelsProperties.

Section ECMProperties.
Context `{Backend}.
Import ECM.

(** ** The cointegration gate *)

Lemma ecm_stage_not_finite (df : DataFrame) (eg_p : pyfloat) (residuals : Series) :
  isfinite eg_p = false -> ecm_stage df eg_p residuals = Ok ecm_not_estimated.
Proof. intros Hp. unfold ecm_stage. now rewrite Hp. Qed.

Lemma ecm_stage_not_rejected (df : DataFrame) (p : R) (residuals : Series) :
  0.05 <= p -> ecm_stage df (Num p) residuals = Ok ecm_not_estimated.
Proof.
  intros Hp. unfold ecm_stage. cbn [isfinite flt andb]. now rewrite Rltb_false.
Qed.

Lemma ecm_stage_cointegrated (df : DataFrame) (p : R) (residuals : Series) :
  p < 0.05 ->
  ecm_stage df (Num p) residuals = estimate_ecm df "log_base_fee" x_full residuals [].
Proof.
  intros Hp. unfold ecm_stage. cbn [isfinite flt andb]. now rewrite Rltb_true.
Qed.

Lemma estimate_ecm_short (df : DataFrame) (y : string) (xvars : list string)
    (residuals : Series) (events : list string)
    (frame : DataFrame) (terms controls : list string) (use : DataFrame) :
  ecm_frame df residuals events = Ok (frame, terms, controls) ->
  dropna_subset ("d_log_base_fee" :: "ECT_lag1" :: terms) frame = Ok use ->
  (len use < 30)%nat ->
  estimate_ecm df y xvars residuals events = Ok (ecm_short_sample (len use)).
Proof.
  intros Hframe Huse Hlen. unfold estimate_ecm.
  rewrite Hframe, bind_Ok. cbn beta iota. rewrite Huse, bind_Ok.
  now destruct (Nat.ltb_spec (len use) 30); [| lia].
Qed.

Lemma estimate_ecm_fitted (df : DataFrame) (y : string) (xvars : list string)
    (residuals : Series) (events : list string)
    (frame : DataFrame) (terms controls : list string) (use : DataFrame)
    (d : design) (res : Fit) :
  ecm_frame df residuals events = Ok (frame, terms, controls) ->
  dropna_subset ("d_log_base_fee" :: "ECT_lag1" :: terms) frame = Ok use ->
  (30 <= len use)%nat ->
  dmatrices "d_log_base_fee"
    ("ECT_lag1" :: terms ++ "d_log_base_fee_lag1" :: controls) use = Ok d ->
  OLS_fit (d_y d) (d_X d) (HAC (ecm_bandwidth (len use))) = Ok res ->
  estimate_ecm df y xvars residuals events = Ok (ecm_fitted d res (len use)).
Proof.
  intros Hframe Huse Hlen Hd Hres. unfold estimate_ecm.
  rewrite Hframe, bind_Ok. cbn beta iota. rewrite Huse, bind_Ok.
  destruct (Nat.ltb_spec (len use) 30); [lia |].
  now rewrite Hd, bind_Ok, Hres, bind_Ok.
Qed.

(** Every record [estimate_ecm] returns is of one of the two shapes. *)
Lemma estimate_ecm_shapes (df : DataFrame) (y : string) (xvars : list string)
    (residuals : Series) (events : list string) (r : record) :
  estimate_ecm df y xvars residuals events = Ok r ->
  (exists n : nat, (n < 30)%nat /\ r = ecm_short_sample n)
  \/ (exists (d : design) (res : Fit) (n : nat),
        (30 <= n)%nat /\ r = ecm_fitted d res n).
Proof.
  unfold estimate_ecm.
  destruct (ecm_frame _ _ _) as [[[frame terms] controls] | err]; [| discriminate].
  rewrite bind_Ok. cbn beta iota.
  destruct (dropna_subset _ _) as [use | err]; [| discriminate].
  rewrite bind_Ok.
  destruct (Nat.ltb_spec (len use) 30) as [Hlt | Hge].
  - intros [= <-]. left. now exists (len use).
  - destruct (dmatrices _ _ _) as [d | err]; [| discriminate]. rewrite bind_Ok.
    destruct (OLS_fit _ _ _) as [res | err]; [| discriminate]. rewrite bind_Ok.
    intros [= <-]. right. now exists d, res, (len use).
Qed.

Lemma ecm_frame_cases (df : DataFrame) (residuals : Series) :
  (has_column df "d_log_base_fee" = false -> has_column df "log_base_fee" = false ->
     ecm_frame df residuals [] = Raise (KeyError "log_base_fee"))
  /\ (has_column df "d_log_base_fee" || has_column df "log_base_fee" = true ->
      exists frame : DataFrame,
        ecm_frame df residuals []
        = Ok (frame, ecm_terms df,
              List.filter (has_column df) ["is_weekend"; "is_month_end"])
        /\ forallb (has_column frame)
             ("d_log_base_fee" :: "ECT_lag1" :: ecm_terms df
              ++ "d_log_base_fee_lag1"
                 :: List.filter (has_column df) ["is_weekend"; "is_month_end"])
           = true).
Proof.
  unfold ecm_frame, ecm_terms, col, getitem, has_column, set_column, reset_index.
  destruct (columns df !! "A_t_clean") as [a |] eqn:HA;
  destruct (columns df !! "D_star") as [ds |] eqn:HD;
  destruct (columns df !! "d_log_base_fee") as [dy |] eqn:HY;
  destruct (columns df !! "log_base_fee") as [ly |] eqn:HL.
  all: repeat first
         [ progress cbn [columns index app List.filter forallb orb andb mbind result_bind]
         | rewrite lookup_insert_eq
         | rewrite lookup_insert_ne by done
         | rewrite HA | rewrite HD | rewrite HY | rewrite HL
         | rewrite bool_decide_Some | rewrite (@bool_decide_None column) ].
  all: (split; [intros H1 H2 | intros H1]); try discriminate; try reflexivity.
  all: eexists; split; [reflexivity |].
  all: repeat first
         [ progress cbn [columns index app List.filter forallb orb andb]
         | rewrite lookup_insert_eq
         | rewrite lookup_insert_ne by done
         | rewrite HA | rewrite HD | rewrite HY | rewrite HL
         | rewrite bool_decide_Some | rewrite (@bool_decide_None column) ].
  all: destruct (columns df !! "is_weekend") as [we |] eqn:HW;
       destruct (columns df !! "is_month_end") as [me |] eqn:HM.
  all: repeat first
         [ progress cbn [columns index app List.filter forallb orb andb]
         | rewrite lookup_insert_eq
         | rewrite lookup_insert_ne by done
         | rewrite HW | rewrite HM
         | rewrite bool_decide_Some | rewrite (@bool_decide_None column) ].
  all: reflexivity.
Qed.

(** Where the coefficient of [d_A_t_clean] sits in the ECM design. *)
Lemma index_of_psi (df : DataFrame) :
  index_of "d_A_t_clean"
    ("Intercept" :: "ECT_lag1" :: ecm_terms df
     ++ "d_log_base_fee_lag1" :: List.filter (has_column df) ["is_weekend"; "is_month_end"])
  = if has_column df "A_t_clean" then Some 2%nat else None.
Proof.
  unfold ecm_terms. cbn [List.filter].
  destruct (has_column df "A_t_clean"), (has_column df "D_star"),
    (has_column df "is_weekend"), (has_column df "is_month_end"); reflexivity.
Qed.

(** C2, as the code has it.  The gate returns the "not estimated" record
    (all parameters NaN, [n = 0]) whenever the Engle-Granger p-value is not
    finite or is at least 0.05.  Whenever it is below 0.05 the result is
    that of [estimate_ecm]: the all-NaN short-sample record when fewer than
    30 rows are complete in the fee change, the lagged error-correction
    term and the difference terms; otherwise the HAC fit of the whole
    formula on the rows patsy keeps of those, and, if that fit returns, the
    fitted record: [phi] and [psi] with their standard errors and p-values
    as the fit reports them for [ECT_lag1] and [d_A_t_clean] (NaN for a
    coefficient the fit does not have), the row count of the guard, the
    bandwidth and the half-life of [phi].  An exception of the fit leaves
    the gate, as does the [KeyError] of a panel without a fee column. *)
Theorem cointegration_gate (df : DataFrame) (residuals : Series) :
  (forall eg_p : pyfloat, isfinite eg_p = false ->
     ecm_stage df eg_p residuals = Ok ecm_not_estimated)
  /\ (forall p : R, 0.05 <= p ->
        ecm_stage df (Num p) residuals = Ok ecm_not_estimated)
  /\ (forall p : R, p < 0.05 ->
        (has_column df "d_log_base_fee" = false -> has_column df "log_base_fee" = false ->
           ecm_stage df (Num p) residuals = Raise (KeyError "log_base_fee"))
        /\ (has_column df "d_log_base_fee" || has_column df "log_base_fee" = true ->
            exists (frame use : DataFrame) (d : design),
              let terms := ecm_terms df in
              let controls := List.filter (has_column df) ["is_weekend"; "is_month_end"] in
              let bw := Z.min 7 (Z.max 1 (andrews_bandwidth (len use))) in
              ecm_frame df residuals [] = Ok (frame, terms, controls)
              /\ dropna_subset ("d_log_base_fee" :: "ECT_lag1" :: terms) frame = Ok use
              /\ dmatrices "d_log_base_fee"
                   ("ECT_lag1" :: terms ++ "d_log_base_fee_lag1" :: controls) use = Ok d
              /\ ((len use < 30)%nat ->
                  ecm_stage df (Num p) residuals = Ok (ecm_short_sample (len use)))
              /\ ((30 <= len use)%nat ->
                  (forall err : exn,
                     OLS_fit (d_y d) (d_X d) (HAC bw) = Raise err ->
                     ecm_stage df (Num p) residuals = Raise err)
                  /\ (forall res : Fit,
                        OLS_fit (d_y d) (d_X d) (HAC bw) = Ok res ->
                        exists (r : record) (phi : pyfloat),
                          ecm_stage df (Num p) residuals = Ok r
                          /\ phi = default NaN (params res !! 1%nat)
                          /\ r !! "phi" = Some (VFloat phi)
                          /\ r !! "phi_se" = Some (VFloat (default NaN (bse res !! 1%nat)))
                          /\ r !! "phi_p"
                             = Some (VFloat (default NaN (pvalues res !! 1%nat)))
                          /\ r !! "psi"
                             = Some (VFloat (if has_column df "A_t_clean"
                                             then default NaN (params res !! 2%nat)
                                             else NaN))
                          /\ r !! "psi_se"
                             = Some (VFloat (if has_column df "A_t_clean"
                                             then default NaN (bse res !! 2%nat)
                                             else NaN))
                          /\ r !! "psi_p"
                             = Some (VFloat (if has_column df "A_t_clean"
                                             then default NaN (pvalues res !! 2%nat)
                                             else NaN))
                          /\ r !! "n" = Some (VInt (Z.of_nat (len use)))
                          /\ r !! "bw" = Some (VInt bw)
                          /\ r !! "half_life_days" = Some (VFloat (half_life_days phi)))))).
Proof.
  split; [| split].
  - intros eg_p. apply ecm_stage_not_finite.
  - intros p. apply ecm_stage_not_rejected.
  - intros p Hp. rewrite (ecm_stage_cointegrated df p residuals Hp).
    destruct (ecm_frame_cases df residuals) as [Hmiss Hframe]. split.
    + intros Hy Hl. unfold estimate_ecm. now rewrite (Hmiss Hy Hl).
    + intros Hcols. destruct (Hframe Hcols) as (frame & Hfr & Hall).
      set (terms := ecm_terms df) in *.
      set (controls := List.filter (has_column df) ["is_weekend"; "is_month_end"]) in *.
      assert (Hguard : forallb (has_column frame) ("d_log_base_fee" :: "ECT_lag1" :: terms)
                       = true).
      { cbn [forallb] in Hall |- *. apply andb_prop in Hall as [-> Hall].
        apply andb_prop in Hall as [-> Hall]. cbn [andb].
        rewrite forallb_app in Hall. now apply andb_prop in Hall as [-> _]. }
      destruct (dropna_subset_present _ frame Hguard) as (use & Huse & Hsame).
      assert (Hform : forallb (has_column use)
                        ("ECT_lag1" :: terms ++ "d_log_base_fee_lag1" :: controls) = true).
      { rewrite (forallb_same _ _ _ Hsame).
        cbn [forallb] in Hall |- *. now apply andb_prop in Hall as [_ ->]. }
      assert (Hlhs : has_column use "d_log_base_fee" = true).
      { rewrite Hsame. cbn [forallb] in Hall. now apply andb_prop in Hall as [-> _]. }
      destruct (dmatrices_present "d_log_base_fee" _ use Hlhs Hform) as (d & Hd & Hnames).
      exists frame, use, d. cbv zeta.
      split; [exact Hfr | split; [exact Huse | split; [exact Hd |]]].
      split.
      * intros Hlen. eapply estimate_ecm_short; eassumption.
      * intros Hlen. split.
        -- intros err Herr. fold (ecm_bandwidth (len use)) in Herr. unfold estimate_ecm.
           rewrite Hfr, bind_Ok. cbn beta iota. rewrite Huse, bind_Ok.
           destruct (Nat.ltb_spec (len use) 30); [lia |].
           now rewrite Hd, bind_Ok, Herr.
        -- intros res Hres. fold (ecm_bandwidth (len use)) in Hres.
           rewrite (estimate_ecm_fitted df _ _ residuals [] frame terms controls use d res
                      Hfr Huse Hlen Hd Hres).
           eexists _, _. split; [reflexivity |]. split; [reflexivity |].
           unfold ecm_fitted, ecm_bandwidth. rewrite Hnames.
           rewrite !(series_get_at _ _ "ECT_lag1" NaN 1) by reflexivity.
           pose proof (index_of_psi df) as Hpsi. fold terms controls in Hpsi.
           destruct (has_column df "A_t_clean").
           ++ rewrite !(series_get_at _ _ "d_A_t_clean" NaN 2 Hpsi).
              repeat split; now simplify_map_eq.
           ++ rewrite !(series_get_absent _ _ "d_A_t_clean" NaN Hpsi).
              repeat split; now simplify_map_eq.
Qed.

(** ** Half-life of a fitted ECM *)

(** C6, as the code has it.  The half-life an ECM record reports is NaN
    exactly when the guard fails: [phi] is NaN (sample too short) or
    [1 + phi <= 0].  When [1 + phi > 0] it is the quotient
    [ln(0.5) / ln(1 + phi)], computed with no guard on the denominator: a
    finite number for [|phi| >= 2^-52] (so that the double [1 + phi] is not
    [1]) and [-inf], not a finite value, at [phi = 0]. *)
Theorem half_life_of_ecm_fit (df : DataFrame) (y : string) (xvars : list string)
    (residuals : Series) (events : list string) (r : record) :
  estimate_ecm df y xvars residuals events = Ok r ->
  exists phi hl : pyfloat,
    r !! "phi" = Some (VFloat phi)
    /\ r !! "half_life_days" = Some (VFloat hl)
    /\ (forall x : R, phi = Num x -> 0 < 1 + x -> / 2 ^ 52 <= Rabs x ->
          hl = Num (ln 0.5 / ln (1 + x)))
    /\ (phi = Num 0 -> hl = NInf)
    /\ (forall x : R, phi = Num x -> 0 < 1 + x -> isnan hl = false)
    /\ (forall x : R, phi = Num x -> 1 + x <= 0 -> hl = NaN)
    /\ (phi = PInf -> hl = Num 0)
    /\ (phi = NInf -> hl = NaN)
    /\ (phi = NaN -> hl = NaN).
Proof.
  intros Hr.
  assert (Hshape : exists phi : pyfloat,
             r !! "phi" = Some (VFloat phi)
             /\ r !! "half_life_days" = Some (VFloat (half_life_days phi))).
  { destruct (estimate_ecm_shapes _ _ _ _ _ _ Hr)
      as [(n & _ & ->) | (d & res & n & _ & ->)].
    - exists NaN. split; reflexivity.
    - eexists. split; reflexivity. }
  destruct Hshape as (phi & Hphi & Hhl).
  exists phi, (half_life_days phi).
  split; [exact Hphi | split; [exact Hhl |]].
  split; [| split; [| split; [| split; [| split; [| split]]]]].
  - intros x -> Hpos Habs. apply half_life_days_real; [exact Hpos |].
    intros ->. rewrite Rabs_R0 in Habs.
    assert (0 < / 2 ^ 52) by (apply Rinv_0_lt_compat, pow_lt; lra). lra.
  - intros ->. apply half_life_days_zero.
  - intros x -> Hpos. now apply half_life_days_not_nan.
  - intros x -> Hle. now apply half_life_days_real.
  - intros ->. apply half_life_days_inf.
  - intros ->. apply half_life_days_inf.
  - now intros ->.
Qed.

(** ** Insufficient data *)

Lemma johansen_tests_short (df : DataFrame) (series : list string)
    (det_order k_ar_diff : Z) (sub : DataFrame) :
  dropna_subset series df = Ok sub -> (len sub < 50)%nat ->
  johansen_tests df series det_order k_ar_diff = Ok [].
Proof.
  intros Hsub Hlen. unfold johansen_tests. rewrite Hsub, bind_Ok.
  now destruct (Nat.ltb_spec (len sub) 50); [| lia].
Qed.

Lemma save_latex_johansen_empty : save_latex_johansen [] = Ok [].
Proof. reflexivity. Qed.

(** The short-sample record has no ["bw"] entry, and the table writer
    indexes it. *)
Lemma save_latex_ecm_short_sample (n : nat) :
  ecm_short_sample n !! "bw" = None
  /\ save_latex_ecm (ecm_short_sample n) = Raise (KeyError "bw").
Proof. split; evaluate. Qed.

Lemma save_latex_ecm_not_estimated : returns (save_latex_ecm ecm_not_estimated) = true.
Proof. evaluate. Qed.

End ECMProperties.

Section LPProperties.
Context `{Backend}.
Import LP.

(** ** Frames of horizon rows *)

Lemma select_map_filter {A B} (p : A -> bool) (f : A -> B) (l : list A) :
  select (map p l) (map f l) = map f (List.filter p l).
Proof.
  induction l as [| a l IH]; [reflexivity |].
  cbn [map select List.filter]. destruct (p a); cbn [map]; now rewrite IH.
Qed.

Lemma summary_frame_columns (rows : list HorizonResult) :
  rows <> [] ->
  columns (summary_frame rows) !! "h" = Some (map (fun r => Num (IZR (hr_h r))) rows)
  /\ columns (summary_frame rows) !! "beta" = Some (map hr_beta rows)
  /\ columns (summary_frame rows) !! "se" = Some (map hr_se rows)
  /\ columns (summary_frame rows) !! "ci_low_hac" = Some (map hr_ci_low_hac rows)
  /\ columns (summary_frame rows) !! "ci_high_hac" = Some (map hr_ci_high_hac rows)
  /\ columns (summary_frame rows) !! "se_hac" = None.
Proof.
  intros Hne. destruct rows as [| r rows]; [contradiction |].
  unfold summary_frame. cbn [columns].
  destruct (existsb _ _); repeat split; reflexivity.
Qed.

(** What [compute_cumulative] reports as [beta_cum] for horizon [H]: the
    sum of the point estimates of all rows with [h <= H]. *)
Lemma cumulative_row_beta_cum (rows : list HorizonResult) (outcome : string) (hz : Z) :
  rows <> [] ->
  exists row : record,
    cumulative_row (summary_frame rows) outcome hz = Ok row
    /\ beta_cum_of row = Some (pd_sum (map hr_beta (rows_upto hz rows))).
Proof.
  intros Hne.
  destruct (summary_frame_columns rows Hne) as (Hh & Hb & Hse & Hlo & Hhi & Hsehac).
  unfold cumulative_row, upto_horizon.
  rewrite (col_lookup _ "h" _ Hh), bind_Ok, bind_Ok.
  set (mask := map _ (map _ rows)).
  rewrite (col_take_rows mask _ "beta" _ Hb), bind_Ok.
  assert (Hsum : select mask (map hr_beta rows) = map hr_beta (rows_upto hz rows)).
  { unfold mask, rows_upto. rewrite map_map. apply select_map_filter. }
  rewrite Hsum. cbv zeta.
  rewrite !has_column_take_rows.
  replace (has_column (summary_frame rows) "se_hac") with false
    by (unfold has_column; now rewrite Hsehac).
  cbn match.
  rewrite (col_take_rows mask _ "se" _ Hse), !bind_Ok.
  destruct (String.eqb outcome "log_base_fee").
  - match goal with
    | |- context [if ?c then _ else _] => destruct c eqn:Hmbb
    end.
    + apply andb_prop in Hmbb as [Hmbb _]. apply andb_prop in Hmbb as [Hl Hu].
      destruct (has_column_lookup _ _ Hl) as [lo Hlo'].
      destruct (has_column_lookup _ _ Hu) as [hi Hhi'].
      rewrite (col_take_rows mask _ _ _ Hlo'), bind_Ok.
      rewrite (col_take_rows mask _ _ _ Hhi'), !bind_Ok. eexists. split; reflexivity.
    + rewrite (col_take_rows mask _ "ci_low_hac" _ Hlo), bind_Ok.
      rewrite (col_take_rows mask _ "ci_high_hac" _ Hhi), !bind_Ok.
      eexists. split; reflexivity.
  - eexists. split; reflexivity.
Qed.

Lemma compute_cumulative_beta_cum (rows : list HorizonResult) (outcome : string)
    (horizons : list Z) :
  rows <> [] ->
  exists cum : list record,
    compute_cumulative (summary_frame rows) horizons outcome = Ok cum
    /\ Forall2 (fun hz row =>
                  beta_cum_of row = Some (pd_sum (map hr_beta (rows_upto hz rows))))
         horizons cum.
Proof.
  intros Hne. unfold compute_cumulative.
  induction horizons as [| hz horizons (cum & Hcum & Hall)].
  - exists []. split; [reflexivity | constructor].
  - destruct (cumulative_row_beta_cum rows outcome hz Hne) as (row & Hrow & Hbeta).
    exists (row :: cum). cbn [mapM]. rewrite Hrow, bind_Ok, Hcum, bind_Ok.
    split; [reflexivity | now constructor].
Qed.

(** ** Rows of a sweep *)

Lemma horizon_regression_h (df : DataFrame) (h : Z) (bw : option Z)
    (outcome : string) (extra : list string) (res : HorizonResult) :
  horizon_regression df h bw outcome extra = Ok res -> hr_h res = h.
Proof.
  unfold horizon_regression. intros Hres.
  destruct (horizon_frame _ _ _ _) as [[y_h frame] | err]; [| discriminate].
  rewrite bind_Ok in Hres.
  repeat match type of Hres with
         | (?c ≫= _) = Ok _ =>
             destruct c; [rewrite bind_Ok in Hres | discriminate]
         end.
  now injection Hres as <-.
Qed.

Lemma horizon_step_row (df_prep : DataFrame) (hac_base : Z) (with_mbb : bool)
    (outcome : string) (extra : list string) (h : Z) (r : HorizonResult) :
  horizon_step df_prep hac_base with_mbb outcome extra h = Some (Ok r) ->
  hr_h r = h
  /\ exists res : HorizonResult,
       horizon_regression df_prep h (Some hac_base) outcome extra = Ok res
       /\ hr_beta r = hr_beta res.
Proof.
  unfold horizon_step.
  destruct (horizon_regression _ _ _ _ _) as [res | err] eqn:Hres; [| discriminate].
  pose proof (horizon_regression_h _ _ _ _ _ _ Hres) as Hh.
  destruct (with_mbb && _).
  - destruct (moving_block_bootstrap_irf _ _ _ _ _) as [[ci | err] |];
      try discriminate.
    intros [= <-]. split; [exact Hh | now exists res].
  - intros [= <-]. split; [exact Hh | now exists res].
Qed.

Lemma horizon_sweep_rows (step : Z -> option (result HorizonResult))
    (hs : list Z) (rows : list HorizonResult) :
  horizon_sweep step hs = Some (Ok rows) ->
  Forall2 (fun h r => step h = Some (Ok r)) hs rows.
Proof.
  revert rows. induction hs as [| h hs IH]; intros rows; cbn [horizon_sweep].
  - intros [= <-]. constructor.
  - destruct (step h) as [[r | err] |] eqn:Hstep; try discriminate.
    destruct (horizon_sweep step hs) as [[rows' | err] |]; try discriminate.
    intros [= <-]. constructor; [exact Hstep | now apply IH].
Qed.

Lemma fle_IZR (a b : Z) : fle (Num (IZR a)) (Num (IZR b)) = (a <=? b)%Z.
Proof. apply Rleb_IZR. Qed.

(** On rows numbered [k, k+1, ...] the rows with [h <= hz] are a prefix. *)
Lemma rows_upto_take (hz : Z) (rows : list HorizonResult) (k n : nat) :
  map hr_h rows = map Z.of_nat (seq k n) ->
  rows_upto hz rows = take (Z.to_nat (hz + 1 - Z.of_nat k)) rows.
Proof.
  revert k n. induction rows as [| r rows IH]; intros k n Hnum.
  - now rewrite take_nil.
  - destruct n as [| n]; [discriminate |].
    cbn [map seq] in Hnum. injection Hnum as Hr Hrows.
    unfold rows_upto in *. cbn [List.filter]. rewrite fle_IZR, Hr.
    rewrite (IH (S k) n Hrows).
    destruct (Z.leb_spec (Z.of_nat k) hz) as [Hle | Hgt].
    + replace (Z.to_nat (hz + 1 - Z.of_nat k))
        with (S (Z.to_nat (hz + 1 - Z.of_nat (S k)))) by lia.
      reflexivity.
    + replace (Z.to_nat (hz + 1 - Z.of_nat k)) with 0%nat by lia.
      replace (Z.to_nat (hz + 1 - Z.of_nat (S k))) with 0%nat by lia.
      reflexivity.
Qed.

(** C1, as the code has it.  For a summary produced by the per-horizon fits
    of [compute_irfs] (rows [h = 0 .. H_max], each carrying the point
    estimate of [horizon_regression] at its horizon), [compute_cumulative]
    returns one row per requested horizon [hz], and its [beta_cum] is the sum
    of the point estimates of all horizons [0 .. hz] (missing estimates
    skipped): for the horizon set (1, 7) these are [beta_0 + beta_1] and
    [beta_0 + ... + beta_7]. *)
Theorem cumulative_effect_sums_all_horizons (df : DataFrame) (hmax : Z)
    (with_mbb : bool) (outcome : string) (use_event_controls : bool)
    (rows : list HorizonResult) (horizons : list Z) :
  (0 <= hmax)%Z ->
  compute_irfs df hmax with_mbb outcome use_event_controls = Some (Ok rows) ->
  map hr_h rows = horizons_upto hmax
  /\ (exists (df_prep : DataFrame) (hac_base : Z) (extra : list string),
        prepare_frame df = Ok df_prep
        /\ Forall2 (fun h r =>
                      exists res : HorizonResult,
                        horizon_regression df_prep h (Some hac_base) outcome extra = Ok res
                        /\ hr_beta r = hr_beta res)
             (horizons_upto hmax) rows)
  /\ exists cum : list record,
       compute_cumulative (summary_frame rows) horizons outcome = Ok cum
       /\ Forall2 (fun hz row =>
                     beta_cum_of row
                     = Some (pd_sum (map hr_beta (take (Z.to_nat (hz + 1)) rows))))
            horizons cum.
Proof.
  intros Hmax Hirf. unfold compute_irfs in Hirf.
  destruct (prepare_frame df) as [df_prep | err] eqn:Hprep; [| discriminate].
  destruct (horizon_regression df_prep 0 None outcome _) as [tmp | err];
    [| discriminate].
  apply horizon_sweep_rows in Hirf.
  assert (Hnum : map hr_h rows = horizons_upto hmax).
  { revert Hirf. generalize (horizons_upto hmax). intros hs Hall.
    induction Hall as [| h r hs rows Hstep _ IH]; [reflexivity |].
    cbn [map]. apply horizon_step_row in Hstep as [-> _]. now rewrite IH. }
  assert (Hne : rows <> []).
  { intros ->. unfold horizons_upto in Hnum.
    replace (Z.to_nat (hmax + 1)) with (S (Z.to_nat hmax)) in Hnum by lia.
    discriminate. }
  split; [exact Hnum | split].
  - eexists df_prep, (hr_bandwidth tmp), _. split; [reflexivity |].
    eapply Forall2_impl; [exact Hirf |].
    intros h r Hstep. apply horizon_step_row in Hstep as [_ Hres]. exact Hres.
  - destruct (compute_cumulative_beta_cum rows outcome horizons Hne)
      as (cum & Hcum & Hall).
    exists cum. split; [exact Hcum |].
    eapply Forall2_impl; [exact Hall |].
    intros hz row0 Hrow. cbn beta in Hrow.
    rewrite (rows_upto_take hz rows 0 (Z.to_nat (hmax + 1)) Hnum) in Hrow.
    now replace (hz + 1 - Z.of_nat 0)%Z with (hz + 1)%Z in Hrow by lia.
Qed.

(** ** Termination of the bootstrap *)

Lemma draw_indices_finishes (fuel n_eff : nat) (block_len : Z) (rng : rng_state)
    (indices : list Z) :
  (1 <= block_len)%Z -> (n_eff <= length indices + fuel)%nat ->
  exists out, draw_indices fuel n_eff block_len rng indices = Some out.
Proof.
  intros Hlen. revert rng indices.
  induction fuel as [| fuel IH]; intros rng indices Hfuel.
  - cbn [draw_indices]. destruct (Nat.ltb_spec (length indices) n_eff); [lia |].
    now eexists.
  - cbn [draw_indices]. destruct (Nat.ltb_spec (length indices) n_eff).
    + destruct (rng_integers _ _ _) as [[start rng'] | err]; [| now eexists].
      apply IH. rewrite length_app. unfold block_idx.
      rewrite length_map, length_seq. lia.
    + now eexists.
Qed.

Lemma bootstrap_loop_finishes (B n_eff : nat) (block_len : Z) (y_h : column)
    (frame : list (string * column)) (rng : rng_state) :
  (1 <= block_len)%Z ->
  exists out, bootstrap_loop B n_eff block_len y_h frame rng = Some out.
Proof.
  intros Hlen. revert rng. induction B as [| B IH]; intros rng; cbn [bootstrap_loop].
  - now eexists.
  - destruct (draw_indices_finishes n_eff n_eff block_len rng [] Hlen) as [out ->];
      [cbn; lia |].
    destruct out as [[indices rng'] | err]; [| now eexists].
    destruct (replication_beta _ _ _); [| now eexists].
    destruct (IH rng') as [out' ->]. destruct out'; now eexists.
Qed.

Lemma default_block_len_pos (n : nat) : (1 <= default_block_len n)%Z.
Proof. unfold default_block_len. lia. Qed.

Lemma bootstrap_loop_length (B n_eff : nat) (block_len : Z) (y_h : column)
    (frame : list (string * column)) (rng : rng_state) (betas : list pyfloat) :
  bootstrap_loop B n_eff block_len y_h frame rng = Some (Ok betas) ->
  length betas = B.
Proof.
  revert rng betas. induction B as [| B IH]; intros rng betas; cbn [bootstrap_loop].
  - now intros [= <-].
  - destruct (draw_indices _ _ _ _ _) as [[[indices rng'] | err] |]; try discriminate.
    destruct (replication_beta _ _ _) as [beta_b | err]; [| discriminate].
    destruct (bootstrap_loop B _ _ _ _ rng') as [[betas' | err] |] eqn:Hloop;
      try discriminate.
    intros [= <-]. cbn [length]. f_equal. now apply (IH rng').
Qed.

End LPProperties.

(** ** Two runs of the bootstrap *)

Section BootstrapRuns.
Variables B1 B2 : Backend.
Variable related : @rng_state B1 -> @rng_state B2 -> Prop.
Hypothesis Hnum : same_numerics B1 B2.
Hypothesis Hdraws : same_draws B1 B2 related.
Import LP.

Lemma draw_indices_agree (fuel n_eff : nat) (block_len : Z)
    (s1 : @rng_state B1) (s2 : @rng_state B2) (indices : list Z) :
  related s1 s2 ->
  agree (fun a1 a2 => a1.1 = a2.1 /\ related a1.2 a2.2)
    (@draw_indices B1 fuel n_eff block_len s1 indices)
    (@draw_indices B2 fuel n_eff block_len s2 indices).
Proof.
  revert s1 s2 indices. induction fuel as [| fuel IH]; intros s1 s2 indices Hrel;
    cbn [draw_indices]; destruct (length indices <? n_eff)%nat; cbn [agree];
    try done.
  pose proof (Hdraws s1 s2 0%Z (Z.of_nat n_eff - block_len + 1)%Z Hrel) as Hstep.
  destruct (@rng_integers B1 _ _ _) as [[v1 s1'] | e1],
           (@rng_integers B2 _ _ _) as [[v2 s2'] | e2]; try done.
  destruct Hstep as [<- Hrel']. now apply IH.
Qed.

Lemma replication_beta_agree (y_h : column) (frame : list (string * column))
    (indices : list Z) :
  @replication_beta B1 y_h frame indices = @replication_beta B2 y_h frame indices.
Proof.
  destruct Hnum as (Hfit & Hconst & _).
  unfold replication_beta. now rewrite Hfit, Hconst.
Qed.

Lemma bootstrap_loop_agree (B n_eff : nat) (block_len : Z) (y_h : column)
    (frame : list (string * column)) (s1 : @rng_state B1) (s2 : @rng_state B2) :
  related s1 s2 ->
  agree eq (@bootstrap_loop B1 B n_eff block_len y_h frame s1)
           (@bootstrap_loop B2 B n_eff block_len y_h frame s2).
Proof.
  revert s1 s2. induction B as [| B IH]; intros s1 s2 Hrel; cbn [bootstrap_loop];
    [reflexivity |].
  pose proof (draw_indices_agree n_eff n_eff block_len s1 s2 [] Hrel) as Hidx.
  destruct (@draw_indices B1 _ _ _ _ _) as [[[i1 s1'] | e1] |],
           (@draw_indices B2 _ _ _ _ _) as [[[i2 s2'] | e2] |]; cbn [agree] in Hidx;
    try done.
  cbn [fst snd] in Hidx. destruct Hidx as [<- Hrel'].
  rewrite replication_beta_agree.
  destruct (@replication_beta B2 _ _ _) as [beta | e]; [| reflexivity].
  specialize (IH s1' s2' Hrel').
  destruct (@bootstrap_loop B1 _ _ _ _ _ _) as [[b1 | e1] |],
           (@bootstrap_loop B2 _ _ _ _ _ _) as [[b2 | e2] |]; cbn [agree] in IH |- *;
    try done.
  now subst.
Qed.

End BootstrapRuns.

Section BootstrapClaim.
Import LP.

(** C10.  Two runs of the moving-block bootstrap, each in a process of its
    own, on the same frame with the same horizon, replication count, block
    length and seed: when the numerical routines agree between the two
    processes and the two generators, seeded alike, deliver the same draws,
    the runs return the same percentile bounds (or raise the same
    exception, or both fail to return).  With the default block length, or
    any block length of at least one, a run does return; and what it
    returns as bounds are the 2.5 and 97.5 percentiles of the replication
    coefficients, or the NaN pair when fewer than [max(30, B/2)] of the [B]
    replications gave one. *)
Theorem bootstrap_runs_agree (B1 B2 : Backend)
    (related : @rng_state B1 -> @rng_state B2 -> Prop)
    (df : DataFrame) (h : Z) (B : nat) (block_len : option Z) (random_state : Z) :
  same_numerics B1 B2 ->
  same_draws B1 B2 related ->
  related (@default_rng B1 random_state) (@default_rng B2 random_state) ->
  @moving_block_bootstrap_irf B1 df h B block_len random_state
  = @moving_block_bootstrap_irf B2 df h B block_len random_state
  /\ ((1 <= default 1%Z block_len)%Z ->
      exists out, @moving_block_bootstrap_irf B1 df h B block_len random_state = Some out)
  /\ (forall bounds : pyfloat * pyfloat,
        @moving_block_bootstrap_irf B1 df h B block_len random_state = Some (Ok bounds) ->
        exists (y_h : column) (frame : list (string * column)) (betas : list pyfloat),
          horizon_frame df h "log_base_fee" base_cols = Ok (y_h, frame)
          /\ @bootstrap_loop B1 B (length y_h)
               (default (default_block_len (len df)) block_len) y_h frame
               (@default_rng B1 random_state) = Some (Ok betas)
          /\ length betas = B
          /\ bounds
             = (if (length (List.filter (fun b => negb (isnan b)) betas)
                    <? Nat.max 30 (B / 2))%nat
                then (NaN, NaN)
                else @percentile_2_5_97_5 B1 (List.filter (fun b => negb (isnan b)) betas))).
Proof.
  intros Hnum Hdraws Hseed. split; [| split].
  - unfold moving_block_bootstrap_irf.
    destruct (horizon_frame _ _ _ _) as [[y_h frame] | e]; [| reflexivity].
    pose proof (bootstrap_loop_agree B1 B2 related Hnum Hdraws B (length y_h)
                  (default (default_block_len (len df)) block_len) y_h frame _ _ Hseed)
      as Hloop.
    destruct (@bootstrap_loop B1 _ _ _ _ _ _) as [[b1 | e1] |],
             (@bootstrap_loop B2 _ _ _ _ _ _) as [[b2 | e2] |]; cbn [agree] in Hloop;
      try done; subst; [| reflexivity].
    destruct Hnum as (_ & _ & ->). reflexivity.
  - intros Hlen. unfold moving_block_bootstrap_irf.
    destruct (horizon_frame _ _ _ _) as [[y_h base_frame] | err]; [| now eexists].
    match goal with
    | |- context [bootstrap_loop B ?n ?bl ?y ?f ?r] =>
        destruct (bootstrap_loop_finishes (H := B1) B n bl y f r) as [out ->]
    end.
    + destruct block_len as [b |]; [exact Hlen | apply default_block_len_pos].
    + destruct out as [betas | err]; [| now eexists].
      destruct (_ <? _)%nat; now eexists.
  - intros bounds. unfold moving_block_bootstrap_irf.
    destruct (horizon_frame _ _ _ _) as [[y_h frame] | e]; [| discriminate].
    destruct (@bootstrap_loop B1 _ _ _ _ _ _) as [[betas | e1] |] eqn:Hloop;
      try discriminate.
    intros Hb. exists y_h, frame, betas. split; [reflexivity |].
    split; [exact Hloop |]. split.
    + exact (bootstrap_loop_length (H := B1) _ _ _ _ _ _ _ Hloop).
    + destruct (_ <? _)%nat; now injection Hb as <-.
Qed.

End BootstrapClaim.

(** ** The levels engine on a concrete panel *)

(** C5, witness: a five-day panel whose fitted persistence is [0.5]. *)
Lemma koyck_long_run_effect_witness :
  exists r : record,
    (Levels.estimate_koyck_lag (H := Stub.backend (Num 0.5) (Num 0) (Num 0.01))
       false (Stub.estimator 5)).2 = Ok r
    /\ r !! "rho" = Some (VFloat (Num 0.5))
    /\ r !! "short_run_effect" = Some (VFloat (Num 0.5))
    /\ r !! "long_run_effect"
       = Some (VFloat (if flt (Num 0.5) (Num 1)
                       then (Num 0.5 / (Num 1 - Num 0.5))%py else NaN))
    /\ r !! "long_run_semi_elasticity"
       = Some (VFloat (if flt (Num 0.5) (Num 1)
                       then semi_elasticity (Num 0.5 / (Num 1 - Num 0.5))%py else NaN)).
Proof.
  eapply (koyck_long_run_effect (H := Stub.backend (Num 0.5) (Num 0) (Num 0.01))
            (Stub.estimator 5) false); evaluate.
Defined.

(** C5, counterexample.  With a fitted persistence of exactly [1] the
    operation returns, and what it reports as the long-run effect and as
    its semi-elasticity is NaN itself: the value that marks a missing cell
    of the panel, not a sentinel distinct from it. *)
Lemma koyck_unit_persistence_reports_nan :
  exists r : record,
    (Levels.estimate_koyck_lag (H := Stub.backend (Num 1) (Num 0) (Num 0.01))
       false (Stub.estimator 5)).2 = Ok r
    /\ r !! "rho" = Some (VFloat (Num 1))
    /\ r !! "long_run_effect" = Some (VFloat NaN)
    /\ r !! "long_run_semi_elasticity" = Some (VFloat NaN)
    /\ isnan NaN = true.
Proof.
  eexists. split.
  - eapply (estimate_koyck_lag_record
              (H := Stub.backend (Num 1) (Num 0) (Num 0.01))
              (Stub.estimator 5) false); evaluate.
  - rewrite koyck_long_run_ge by lra. repeat split; reflexivity.
Qed.

(** C7, witness: two observations, an intercept and one regressor. *)
Lemma fgls_zero_rho_is_ols_witness :
  Levels.fgls_refit (H := Stub.backend (Num 0.5) (Num 0) (Num 0.01)) (Num 0)
    [Num 1; Num 2] [[Num 1; Num 1]; [Num 0; Num 1]]
  = OLS_fit (Backend := Stub.backend (Num 0.5) (Num 0) (Num 0.01))
      [Num 1; Num 2] [[Num 1; Num 1]; [Num 0; Num 1]] NonRobust.
Proof.
  apply (fgls_zero_rho_is_ols (H := Stub.backend (Num 0.5) (Num 0) (Num 0.01))).
  - split; [discriminate | reflexivity].
  - repeat constructor; discriminate.
Defined.

(** C3, witness: the five-day estimator before and after
    [estimate_main_spec], which has filled the [results] dictionary. *)
Lemma operations_read_the_shared_frame_witness :
  (Levels.estimate_main_spec (H := Stub.be) false Stub.after_main_spec).2
  = (Levels.estimate_main_spec (H := Stub.be) false (Stub.estimator 5)).2
  /\ (Levels.estimate_distributed_lags (H := Stub.be) [1; 7]%Z Stub.after_main_spec).2
     = (Levels.estimate_distributed_lags (H := Stub.be) [1; 7]%Z (Stub.estimator 5)).2
  /\ (Levels.estimate_koyck_lag (H := Stub.be) false Stub.after_main_spec).2
     = (Levels.estimate_koyck_lag (H := Stub.be) false (Stub.estimator 5)).2
  /\ (Levels.estimate_fgls (H := Stub.be) Stub.after_main_spec).2
     = (Levels.estimate_fgls (H := Stub.be) (Stub.estimator 5)).2
  /\ (Levels.estimate_differences_robustness (H := Stub.be) Stub.after_main_spec).2
     = (Levels.estimate_differences_robustness (H := Stub.be) (Stub.estimator 5)).2
  /\ same_inputs
       (Levels.estimate_main_spec (H := Stub.be) false Stub.after_main_spec).1
       Stub.after_main_spec
  /\ same_inputs (Levels.estimate_fgls (H := Stub.be) Stub.after_main_spec).1
       Stub.after_main_spec.
Proof.
  apply (operations_read_the_shared_frame (H := Stub.be)
           Stub.after_main_spec (Stub.estimator 5) false [1; 7]%Z).
  repeat split; evaluate.
Defined.

(** C3, counterexample.  On a complete ten-day panel [estimate_koyck_lag]
    uses nine observations when called first, and three when
    [estimate_distributed_lags] ran before it on the same instance: the lag
    columns that call left in the frame make [dropna()] discard seven
    rows. *)
Lemma koyck_depends_on_earlier_calls :
  Stub.returned (Levels.estimate_koyck_lag (H := Stub.be) false (Stub.estimator 10)).2
    !! "n_obs" = Some (VInt 9)
  /\ Stub.returned
       (Levels.estimate_koyck_lag (H := Stub.be) false Stub.after_distributed_lags).2
       !! "n_obs" = Some (VInt 3).
Proof. split; evaluate. Qed.

(** C4, witness: main specification and FGLS on sixty days of the daily
    panel. *)
Lemma diagnostics_of_the_operations_witness :
  (exists (r1 : record) (m : NamedFit) (lb : list pyfloat * list pyfloat)
          (wt : pyfloat * pyfloat),
      (Levels.estimate_main_spec (H := Stub.be) false (Daily.estimator 60)).2 = Ok r1
      /\ Levels.results
           (Levels.estimate_main_spec (H := Stub.be) false (Daily.estimator 60)).1
           !! "main_ols" = Some (VModel m)
      /\ acorr_ljungbox (Backend := Stub.be) (resid (fit m)) 10 = Ok lb
      /\ het_white (Backend := Stub.be) (resid (fit m)) (exog (fit m)) = Ok wt
      /\ Levels.diagnostics
           (Levels.estimate_main_spec (H := Stub.be) false (Daily.estimator 60)).1
           !! "ljung_box"
         = Some (VDict {[ "statistic" := VFloats lb.1;
                          "pvalue" := VFloats lb.2;
                          "significant" := VBool (Levels.any_below lb.2 (Num 0.05)) ]})
      /\ Levels.diagnostics
           (Levels.estimate_main_spec (H := Stub.be) false (Daily.estimator 60)).1
           !! "white_test"
         = Some (VDict {[ "statistic" := VFloat wt.1;
                          "pvalue" := VFloat wt.2;
                          "significant" := VBool (flt wt.2 (Num 0.05)) ]})
      /\ Levels.diagnostics
           (Levels.estimate_main_spec (H := Stub.be) false (Daily.estimator 60)).1
           !! "durbin_watson"
         = Some (VFloat (durbin_watson (Backend := Stub.be) (resid (fit m))))
      /\ r1 !! "ljung_box" = None
      /\ r1 !! "white_test" = None
      /\ r1 !! "durbin_watson" = None)
  /\ (exists (r2 : record) (m : Fit),
        (Levels.estimate_fgls (H := Stub.be) (Daily.estimator 60)).2 = Ok r2
        /\ r2 !! "model" = Some (VArrayModel m)
        /\ r2 !! "durbin_watson"
           = Some (VFloat (durbin_watson (Backend := Stub.be) (resid m)))
        /\ r2 !! "ljung_box" = None
        /\ r2 !! "white_test" = None
        /\ Levels.diagnostics (Levels.estimate_fgls (H := Stub.be) (Daily.estimator 60)).1
           = Levels.diagnostics (Daily.estimator 60))
  /\ ((forall r : record,
         (Levels.estimate_distributed_lags (H := Stub.be) [1; 7]%Z (Daily.estimator 60)).2
         = Ok r ->
         dom r = list_to_set ["model"; "contemporaneous"; "lags"; "long_run_effect";
                              "long_run_semi_elasticity"; "n_obs"])
      /\ Levels.diagnostics
           (Levels.estimate_distributed_lags (H := Stub.be) [1; 7]%Z (Daily.estimator 60)).1
         = Levels.diagnostics (Daily.estimator 60))
  /\ ((forall r : record,
         (Levels.estimate_koyck_lag (H := Stub.be) false (Daily.estimator 60)).2 = Ok r ->
         dom r = list_to_set ["model"; "rho"; "short_run_effect"; "long_run_effect";
                              "long_run_semi_elasticity"; "adjustment_speed"; "n_obs"])
      /\ Levels.diagnostics
           (Levels.estimate_koyck_lag (H := Stub.be) false (Daily.estimator 60)).1
         = Levels.diagnostics (Daily.estimator 60))
  /\ ((forall r : record,
         (Levels.estimate_differences_robustness (H := Stub.be) (Daily.estimator 60)).2
         = Ok r ->
         dom r = list_to_set ["model"; "beta"; "se"; "translation_box"; "n_obs"])
      /\ Levels.diagnostics
           (Levels.estimate_differences_robustness (H := Stub.be) (Daily.estimator 60)).1
         = Levels.diagnostics (Daily.estimator 60))
  /\ (forall B' : Backend,
        @OLS_fit B' = @OLS_fit Stub.be ->
        @Levels.estimate_distributed_lags B' [1; 7]%Z (Daily.estimator 60)
        = Levels.estimate_distributed_lags (H := Stub.be) [1; 7]%Z (Daily.estimator 60)
        /\ @Levels.estimate_koyck_lag B' false (Daily.estimator 60)
           = Levels.estimate_koyck_lag (H := Stub.be) false (Daily.estimator 60)
        /\ @Levels.estimate_differences_robustness B' (Daily.estimator 60)
           = Levels.estimate_differences_robustness (H := Stub.be) (Daily.estimator 60))
  /\ (forall B' : Backend,
        @OLS_fit B' = @OLS_fit Stub.be -> @corrcoef B' = @corrcoef Stub.be ->
        @durbin_watson B' = @durbin_watson Stub.be ->
        @Levels.estimate_fgls B' (Daily.estimator 60)
        = Levels.estimate_fgls (H := Stub.be) (Daily.estimator 60)).
Proof.
  apply (diagnostics_of_the_operations (H := Stub.be) (Daily.estimator 60) false [1; 7]%Z);
    evaluate.
Defined.

(** The three other operations on the same sixty days: each returns, and
    none of the three diagnostics is in what it returns. *)
Example other_operations_on_sixty_days :
  returns (Levels.estimate_distributed_lags (H := Stub.be) [1; 7]%Z (Daily.estimator 60)).2
  = true
  /\ returns (Levels.estimate_koyck_lag (H := Stub.be) false (Daily.estimator 60)).2 = true
  /\ returns (Levels.estimate_differences_robustness (H := Stub.be) (Daily.estimator 60)).2
     = true.
Proof. repeat split; evaluate. Qed.

(** C4, counterexample.  [estimate_distributed_lags] returns a record of
    six entries, none of them a residual diagnostic, and leaves the
    estimator's [diagnostics] dictionary empty: no Ljung-Box, White or
    Durbin-Watson statistic was computed for this fit. *)
Lemma distributed_lags_runs_no_diagnostics :
  size (Stub.returned
          (Levels.estimate_distributed_lags (H := Stub.be) [1; 7]%Z (Stub.estimator 10)).2)
  = 6%nat
  /\ Stub.returned
       (Levels.estimate_distributed_lags (H := Stub.be) [1; 7]%Z (Stub.estimator 10)).2
       !! "n_obs" = Some (VInt 3)
  /\ Stub.returned
       (Levels.estimate_distributed_lags (H := Stub.be) [1; 7]%Z (Stub.estimator 10)).2
       !! "ljung_box" = None
  /\ Stub.returned
       (Levels.estimate_distributed_lags (H := Stub.be) [1; 7]%Z (Stub.estimator 10)).2
       !! "white_test" = None
  /\ Stub.returned
       (Levels.estimate_distributed_lags (H := Stub.be) [1; 7]%Z (Stub.estimator 10)).2
       !! "durbin_watson" = None
  /\ Levels.diagnostics Stub.after_distributed_lags = ∅.
Proof. repeat split; evaluate. Qed.

(** ** The ECM component on concrete panels *)

(** C2, counterexample.  Sixty days with the demand factor missing on every
    second day and an Engle-Granger p-value of [0.01]: cointegration is
    detected, yet no row has a defined demand-factor difference, and the gate
    returns the all-NaN short-sample record, not a fitted ECM. *)
Lemma cointegrated_short_panel_is_not_fitted :
  ECM.ecm_stage (H := Stub.be) (Stub.gappy_panel 30) (Num 0.01) (Stub.gappy_residuals 30)
  = Ok (ECM.ecm_short_sample 0)
  /\ ECM.ecm_short_sample 0 !! "phi" = Some (VFloat NaN)
  /\ ECM.ecm_short_sample 0 !! "psi" = Some (VFloat NaN).
Proof.
  split; [| split; evaluate].
  rewrite ecm_stage_cointegrated by lra. evaluate.
Qed.

(** The gate on forty complete days: the fitted branch. *)
Example cointegrated_long_panel_is_fitted :
  Stub.returned
    (ECM.ecm_stage (H := Stub.be_adjusting) (Stub.panel 40) (Num 0.01)
       (Stub.residuals 40)) !! "phi" = Some (VFloat (Num (-0.5)))
  /\ Stub.returned
       (ECM.ecm_stage (H := Stub.be_adjusting) (Stub.panel 40) (Num 0.01)
          (Stub.residuals 40)) !! "psi" = Some (VFloat (Num (-0.5)))
  /\ Stub.returned
       (ECM.ecm_stage (H := Stub.be_adjusting) (Stub.panel 40) (Num 0.01)
          (Stub.residuals 40)) !! "n" = Some (VInt 39).
Proof.
  rewrite ecm_stage_cointegrated by lra. repeat split; evaluate.
Qed.

(** The gate on ninety-nine days with the fee missing on every third day
    and an Engle-Granger p-value of [0.01]: thirty-three rows pass the
    guard, none of them has a lagged fee change, and the exception of the
    fit on the empty design leaves [estimate_ecm]. *)
Example cointegrated_panel_with_fee_gaps_raises :
  (len <$> (ECM.ecm_frame (Gaps.fee_gap_panel 33) (Gaps.fee_gap_residuals 33) []
            ≫= fun '(frame, terms, _) =>
                 dropna_subset ("d_log_base_fee" :: "ECT_lag1" :: terms) frame))
  = Ok 33%nat
  /\ ECM.ecm_stage (H := Stub.be) (Gaps.fee_gap_panel 33) (Num 0.01)
       (Gaps.fee_gap_residuals 33)
     = Raise (ValueError "zero-size array to reduction operation").
Proof.
  split; [evaluate |].
  rewrite ecm_stage_cointegrated by lra. evaluate.
Qed.

(** The half-life reported on forty days with a fitted [phi = -0.5]. *)
Example half_life_of_long_panel :
  Stub.returned
    (ECM.estimate_ecm (H := Stub.be_adjusting) (Stub.panel 40) "log_base_fee"
       ECM.x_full (Stub.residuals 40) []) !! "half_life_days"
  = Some (VFloat (Num (ln 0.5 / ln (1 + -0.5)))).
Proof.
  rewrite <- (proj1 (half_life_days_real (-0.5))) by lra. evaluate.
Qed.

(** C6, witness: forty complete days with a fitted adjustment speed of
    [-0.5]. *)
Lemma half_life_of_ecm_fit_witness :
  ECM.estimate_ecm (H := Stub.be_adjusting) (Stub.panel 40) "log_base_fee" ECM.x_full
    (Stub.residuals 40) [] = Ok Doubles.fitted_forty
  /\ exists phi hl : pyfloat,
       Doubles.fitted_forty !! "phi" = Some (VFloat phi)
       /\ Doubles.fitted_forty !! "half_life_days" = Some (VFloat hl)
       /\ (forall x : R, phi = Num x -> 0 < 1 + x -> / 2 ^ 52 <= Rabs x ->
             hl = Num (ln 0.5 / ln (1 + x)))
       /\ (phi = Num 0 -> hl = NInf)
       /\ (forall x : R, phi = Num x -> 0 < 1 + x -> isnan hl = false)
       /\ (forall x : R, phi = Num x -> 1 + x <= 0 -> hl = NaN)
       /\ (phi = PInf -> hl = Num 0)
       /\ (phi = NInf -> hl = NaN)
       /\ (phi = NaN -> hl = NaN).
Proof.
  assert (Hfit : ECM.estimate_ecm (H := Stub.be_adjusting) (Stub.panel 40) "log_base_fee"
                   ECM.x_full (Stub.residuals 40) [] = Ok Doubles.fitted_forty) by evaluate.
  split; [exact Hfit |].
  exact (half_life_of_ecm_fit (H := Stub.be_adjusting) (Stub.panel 40) "log_base_fee"
           ECM.x_full (Stub.residuals 40) [] Doubles.fitted_forty Hfit).
Defined.

(** C9, the failing run.  Sixty days with the demand factor missing on
    every second day (thirty complete rows, none usable for the ECM), on
    which the Engle-Granger test detects cointegration: [johansen_tests]
    returns the empty frame and [estimate_ecm] the short-sample record, but
    that record has no ["bw"] entry and [save_latex_ecm] raises [KeyError] on
    it; nothing in [main] catches the exception. *)
Theorem short_ecm_sample_aborts_the_batch :
  ECM.johansen_tests (H := Stub.be) (Stub.gappy_panel 30)
    ["log_base_fee"; "A_t_clean"; "D_star"] 1 1 = Ok []
  /\ ECM.ecm_stage (H := Stub.be) (Stub.gappy_panel 30) (Num 0.01)
       (Stub.gappy_residuals 30)
     = Ok (ECM.ecm_short_sample 0)
  /\ ECM.main (H := Stub.be) (Stub.gappy_panel 30) = Raise (KeyError "bw").
Proof.
  assert (Hjoh : ECM.johansen_tests (H := Stub.be) (Stub.gappy_panel 30)
                   ["log_base_fee"; "A_t_clean"; "D_star"] 1 1 = Ok [])
    by evaluate.
  assert (Hecm : ECM.ecm_stage (H := Stub.be) (Stub.gappy_panel 30) (Num 0.01)
                   (Stub.gappy_residuals 30) = Ok (ECM.ecm_short_sample 0)).
  { rewrite ecm_stage_cointegrated by lra. evaluate. }
  assert (Heg : ECM.engle_granger (H := Stub.be) (Stub.gappy_panel 30)
                  "log_base_fee" ECM.x_full
                = Ok (Num (-5), Num 0.01, Stub.gappy_residuals 30))
    by evaluate.
  repeat split; try assumption.
  unfold ECM.main. rewrite Heg, bind_Ok. cbn beta iota.
  rewrite Hjoh, bind_Ok, Hecm, bind_Ok.
  rewrite save_latex_johansen_empty, bind_Ok.
  now rewrite (proj2 (save_latex_ecm_short_sample 0)).
Qed.

(** On the same panel without cointegration the default record, which has
    a ["bw"] entry, goes through the table writer and the batch completes. *)
Example batch_without_cointegration_completes :
  returns (ECM.main (H := Stub.be_no_cointegration) (Stub.gappy_panel 30)) = true.
Proof.
  assert (Heg : ECM.engle_granger (H := Stub.be_no_cointegration) (Stub.gappy_panel 30)
                  "log_base_fee" ECM.x_full
                = Ok (Num (-5), Num 0.5, Stub.gappy_residuals 30))
    by evaluate.
  assert (Hjoh : ECM.johansen_tests (H := Stub.be_no_cointegration) (Stub.gappy_panel 30)
                   ["log_base_fee"; "A_t_clean"; "D_star"] 1 1 = Ok [])
    by evaluate.
  unfold ECM.main. rewrite Heg, bind_Ok. cbn beta iota.
  rewrite Hjoh, bind_Ok, ecm_stage_not_rejected, bind_Ok by lra.
  rewrite save_latex_johansen_empty, bind_Ok.
  pose proof save_latex_ecm_not_estimated as Htab.
  destruct (ECM.save_latex_ecm ECM.ecm_not_estimated); [reflexivity | discriminate].
Qed.

(** ** Local projections on concrete panels *)

(** C1, witness: horizons 0 and 1 on the five-day panel, cumulated over the
    horizon set (1, 7). *)
Lemma cumulative_effect_sums_all_horizons_witness :
  map LP.hr_h
    (Stub.swept (LP.compute_irfs (H := Stub.be) (Stub.panel 5) 1 false "log_base_fee" false))
  = LP.horizons_upto 1
  /\ (exists (df_prep : DataFrame) (hac_base : Z) (extra : list string),
        LP.prepare_frame (H := Stub.be) (Stub.panel 5) = Ok df_prep
        /\ Forall2 (fun h r =>
                      exists res : LP.HorizonResult,
                        LP.horizon_regression (H := Stub.be) df_prep h (Some hac_base)
                          "log_base_fee" extra = Ok res
                        /\ LP.hr_beta r = LP.hr_beta res)
             (LP.horizons_upto 1)
             (Stub.swept
                (LP.compute_irfs (H := Stub.be) (Stub.panel 5) 1 false "log_base_fee" false)))
  /\ exists cum : list record,
       LP.compute_cumulative
         (LP.summary_frame
            (Stub.swept
               (LP.compute_irfs (H := Stub.be) (Stub.panel 5) 1 false "log_base_fee" false)))
         [1; 7]%Z "log_base_fee" = Ok cum
       /\ Forall2 (fun hz row =>
                     LP.beta_cum_of row
                     = Some (pd_sum
                               (map LP.hr_beta
                                  (take (Z.to_nat (hz + 1))
                                     (Stub.swept
                                        (LP.compute_irfs (H := Stub.be) (Stub.panel 5) 1
                                           false "log_base_fee" false))))))
            [1; 7]%Z cum.
Proof.
  apply (cumulative_effect_sums_all_horizons (H := Stub.be) (Stub.panel 5) 1 false
           "log_base_fee" false _ [1; 7]%Z); [lia | evaluate].
Defined.

(** C1, counterexample.  Horizons 0 to 7 with point estimates 1 to 8: over
    the horizon set (1, 7) the cumulative table reports [beta_cum = 3] (for
    H = 1) and [beta_cum = 36] (for H = 7), while the h = 1 and h = 7 point
    estimates sum to 10. *)
Lemma cumulative_effect_is_not_a_two_horizon_sum :
  exists cum : list record,
    LP.compute_cumulative (LP.summary_frame Stub.rows8) [1; 7]%Z "log_base_fee" = Ok cum
    /\ map LP.beta_cum_of cum = [Some (Num 3); Some (Num 36)]
    /\ LP.hr_beta <$> Stub.rows8 !! 1%nat = Some (Num 2)
    /\ LP.hr_beta <$> Stub.rows8 !! 7%nat = Some (Num 8)
    /\ (Num 2 + Num 8)%py = Num 10
    /\ Num 3 <> Num 10 /\ Num 36 <> Num 10.
Proof.
  destruct (compute_cumulative_beta_cum Stub.rows8 "log_base_fee" [1; 7]%Z)
    as (cum & Hcum & Hall); [discriminate |].
  exists cum. split; [exact Hcum |].
  apply Forall2_cons_inv_l in Hall as (r1 & cum1 & H1 & Hall & ->).
  apply Forall2_cons_inv_l in Hall as (r7 & cum7 & H7 & Hall & ->).
  apply Forall2_nil_inv_l in Hall as ->.
  rewrite (rows_upto_take _ Stub.rows8 0 8 eq_refl) in H1.
  rewrite (rows_upto_take _ Stub.rows8 0 8 eq_refl) in H7.
  cbn [map]. rewrite H1, H7.
  assert (Hsum1 : pd_sum (map LP.hr_beta (take (Z.to_nat (1 + 1 - Z.of_nat 0)) Stub.rows8))
                  = Num 3).
  { change (Z.to_nat (1 + 1 - Z.of_nat 0)) with 2%nat.
    unfold pd_sum, Stub.rows8, Stub.row. simpl. f_equal. lra. }
  assert (Hsum7 : pd_sum (map LP.hr_beta (take (Z.to_nat (7 + 1 - Z.of_nat 0)) Stub.rows8))
                  = Num 36).
  { change (Z.to_nat (7 + 1 - Z.of_nat 0)) with 8%nat.
    unfold pd_sum, Stub.rows8, Stub.row. simpl. f_equal. lra. }
  rewrite Hsum1, Hsum7.
  repeat split; try reflexivity.
  - cbn. f_equal. lra.
  - intros [=]. lra.
  - intros [=]. lra.
Qed.

Lemma counting_same_draws : same_draws Stub.be Doubles.be_counting Doubles.related.
Proof.
  intros s1 [seed k] low high Hrel. unfold Doubles.related in Hrel. cbn [fst snd] in Hrel.
  subst s1. cbn [rng_integers Stub.be Stub.backend Doubles.be_counting].
  unfold Stub.stub_integers, Doubles.counting_integers. cbn [fst snd].
  destruct (low <? high)%Z; [| reflexivity].
  split; [reflexivity |]. unfold Doubles.related. cbn [fst snd]. lia.
Qed.

(** C10, witness: thirty replications at horizon 1 on the eight-day frame,
    once with the generator of [Stub.be] and once with the counting
    generator, both seeded with 42. *)
Lemma bootstrap_runs_agree_witness :
  LP.moving_block_bootstrap_irf (H := Stub.be) (Prepared.frame 8) 1 30 None 42
  = LP.moving_block_bootstrap_irf (H := Doubles.be_counting) (Prepared.frame 8) 1 30 None 42
  /\ ((1 <= default 1%Z None)%Z ->
      exists out,
        LP.moving_block_bootstrap_irf (H := Stub.be) (Prepared.frame 8) 1 30 None 42
        = Some out)
  /\ (forall bounds : pyfloat * pyfloat,
        LP.moving_block_bootstrap_irf (H := Stub.be) (Prepared.frame 8) 1 30 None 42
        = Some (Ok bounds) ->
        exists (y_h : column) (frame : list (string * column)) (betas : list pyfloat),
          LP.horizon_frame (Prepared.frame 8) 1 "log_base_fee" LP.base_cols
          = Ok (y_h, frame)
          /\ LP.bootstrap_loop (H := Stub.be) 30 (length y_h)
               (default (LP.default_block_len (len (Prepared.frame 8))) None) y_h frame
               (default_rng (Backend := Stub.be) 42) = Some (Ok betas)
          /\ length betas = 30%nat
          /\ bounds
             = (if (length (List.filter (fun b => negb (isnan b)) betas)
                    <? Nat.max 30 (30 / 2))%nat
                then (NaN, NaN)
                else percentile_2_5_97_5 (Backend := Stub.be)
                       (List.filter (fun b => negb (isnan b)) betas))).
Proof.
  apply (bootstrap_runs_agree Stub.be Doubles.be_counting Doubles.related
           (Prepared.frame 8) 1 30 None 42).
  - repeat split.
  - exact counting_same_draws.
  - reflexivity.
Defined.

(** The bounds of that run, with the generator of [Stub.be] and a block
    length of two. *)
Example bootstrap_on_eight_days :
  LP.moving_block_bootstrap_irf (H := Stub.be) (Prepared.frame 8) 1 30 (Some 2%Z) 42
  = Some (Ok (Num 0.5, Num 0.5))
  /\ LP.moving_block_bootstrap_irf (H := Doubles.be_counting) (Prepared.frame 8) 1 30 (Some 2%Z) 42
     = Some (Ok (Num 0.5, Num 0.5)).
Proof. split; evaluate. Qed.

(* ===================================================================== *)
(** * Further properties of the three modules *)
(* ===================================================================== *)

(** ** Bandwidth, semi-elasticity, long-run multiplier and half-life as functions *)

Lemma Int_part_le (x y : R) : x <= y -> (Int_part x <= Int_part y)%Z.
Proof.
  intros Hxy.
  destruct (base_Int_part x) as [Hx _]. destruct (base_Int_part y) as [_ Hy].
  assert (Hlt : IZR (Int_part x) < IZR (Int_part y + 1)) by (rewrite plus_IZR; lra).
  apply lt_IZR in Hlt. lia.
Qed.

Lemma Int_part_nonneg (x : R) : 0 <= x -> (0 <= Int_part x)%Z.
Proof.
  intros Hx. destruct (base_Int_part x) as [_ Hy].
  assert (Hlt : IZR (-1) < IZR (Int_part x)) by lra.
  apply lt_IZR in Hlt. lia.
Qed.

Lemma trunc_nonneg (x : R) : 0 <= x -> trunc x = Int_part x.
Proof. intros Hx. unfold trunc. now rewrite Rltb_false. Qed.

Lemma pow_pos_nonneg (x y : R) : 0 <= pow_pos x y.
Proof.
  unfold pow_pos, Reqb. destruct (Req_dec_T x 0); [lra |].
  unfold Rpower. left. apply exp_pos.
Qed.

Lemma pow_pos_le (x x' y : R) : 0 <= y -> 0 <= x <= x' -> pow_pos x y <= pow_pos x' y.
Proof.
  intros Hy [Hx Hxx']. unfold pow_pos, Reqb.
  destruct (Req_dec_T x 0) as [-> | Hx0], (Req_dec_T x' 0) as [-> | Hx'0]; try lra.
  - left. apply exp_pos.
  - apply Rle_Rpower_l; [exact Hy | lra].
Qed.

Lemma andrews_scale_nonneg (n : nat) : 0 <= 4 * pow_pos (INR n / 100) (2 / 9).
Proof. pose proof (pow_pos_nonneg (INR n / 100) (2 / 9)). lra. Qed.

(** X1.  The automatic HAC bandwidth [int(4 * (n/100) ** (2/9))] is never
    negative and never decreases when the sample grows. *)
Theorem andrews_bandwidth_monotone (n m : nat) :
  (n <= m)%nat ->
  (0 <= andrews_bandwidth n <= andrews_bandwidth m)%Z.
Proof.
  intros Hnm. unfold andrews_bandwidth.
  rewrite !trunc_nonneg by apply andrews_scale_nonneg.
  split; [apply Int_part_nonneg, andrews_scale_nonneg |].
  apply Int_part_le.
  assert (Hle : pow_pos (INR n / 100) (2 / 9) <= pow_pos (INR m / 100) (2 / 9)).
  { apply pow_pos_le; [lra |].
    pose proof (pos_INR n). apply le_INR in Hnm. lra. }
  lra.
Qed.

Lemma andrews_bandwidth_monotone_witness :
  (0 <= andrews_bandwidth 30 <= andrews_bandwidth 1000)%Z.
Proof. apply (andrews_bandwidth_monotone 30 1000). lia. Defined.

Lemma semi_elasticity_real (b : R) :
  semi_elasticity (Num b) = Num ((exp (0.10 * b) - 1) * 100).
Proof. reflexivity. Qed.

(** X2.  On real coefficients the semi-elasticity
    [100 * (exp(0.10 * beta) - 1)] is never below -100 and never has the
    sign opposite to the coefficient's. *)
Theorem semi_elasticity_bound_and_sign (b : R) :
  fle (Num (-100)) (semi_elasticity (Num b)) = true
  /\ (0 <= b -> fle (Num 0) (semi_elasticity (Num b)) = true)
  /\ (b <= 0 -> fle (semi_elasticity (Num b)) (Num 0) = true).
Proof.
  rewrite semi_elasticity_real. cbn [fle].
  pose proof (exp_pos (0.10 * b)) as Hpos.
  split; [apply Rleb_true; lra | split].
  - intros Hb. apply Rleb_true.
    destruct (Req_dec b 0) as [-> | Hne].
    + rewrite exp_tenth_zero. lra.
    + assert (exp 0 < exp (0.10 * b)) by (apply exp_increasing; lra).
      rewrite exp_0 in *. lra.
  - intros Hb. apply Rleb_true.
    destruct (Req_dec b 0) as [-> | Hne].
    + rewrite exp_tenth_zero. lra.
    + assert (exp (0.10 * b) < exp 0) by (apply exp_increasing; lra).
      rewrite exp_0 in *. lra.
Qed.

(** X3.  With a persistence coefficient in [0, 1) the Koyck long-run
    effect [short_run / (1 - rho)] has the sign of the short-run effect and
    is at least as large in absolute value; with a negative persistence
    coefficient it is smaller in absolute value. *)
Theorem koyck_long_run_amplifies (rho short_run : R) :
  rho < 1 ->
  exists long_run : R,
    (Levels.koyck_long_run (Num rho) (Num short_run)).1 = Num long_run
    /\ 0 <= short_run * long_run
    /\ (0 <= rho -> Rabs short_run <= Rabs long_run)
    /\ (rho < 0 -> Rabs long_run <= Rabs short_run).
Proof.
  intros Hrho. exists (short_run / (1 - rho)).
  rewrite koyck_long_run_lt by exact Hrho. cbn [fst].
  assert (Hinv : 0 < / (1 - rho)) by (apply Rinv_0_lt_compat; lra).
  split; [reflexivity |].
  assert (Habs : Rabs (short_run / (1 - rho)) = Rabs short_run * / (1 - rho)).
  { unfold Rdiv. rewrite Rabs_mult, (Rabs_pos_eq (/ (1 - rho))) by lra. reflexivity. }
  pose proof (Rabs_pos short_run) as Hsr.
  repeat split.
  - unfold Rdiv. replace (short_run * (short_run * / (1 - rho)))
      with (short_run * short_run * / (1 - rho)) by lra.
    apply Rmult_le_pos; [apply Rle_0_sqr | lra].
  - intros H0. rewrite Habs.
    assert (1 <= / (1 - rho)).
    { rewrite <- Rinv_1 at 1. apply Rinv_le_contravar; lra. }
    nra.
  - intros H0. rewrite Habs.
    assert (/ (1 - rho) <= 1).
    { rewrite <- Rinv_1 at 2. apply Rinv_le_contravar; lra. }
    nra.
Qed.

Lemma koyck_long_run_amplifies_witness :
  exists long_run : R,
    (Levels.koyck_long_run (Num 0.5) (Num (-2))).1 = Num long_run
    /\ 0 <= -2 * long_run
    /\ (0 <= 0.5 -> Rabs (-2) <= Rabs long_run)
    /\ (0.5 < 0 -> Rabs long_run <= Rabs (-2)).
Proof. apply (koyck_long_run_amplifies 0.5 (-2)). lra. Defined.

(** X4.  For an adjustment coefficient in (-1, 0) the reported half-life is
    a positive number of days; for a positive coefficient (no error
    correction) the same formula is applied and the reported half-life is a
    negative number, not a missing value.  Stated for [|phi| >= 2^-52]:
    closer to zero the double [1 + phi] can be [1] and the quotient
    [-inf]. *)
Theorem half_life_sign (phi : R) :
  -1 < phi -> / 2 ^ 52 <= Rabs phi ->
  exists days : R,
    ECM.half_life_days (Num phi) = Num days
    /\ (phi < 0 -> 0 < days)
    /\ (0 < phi -> days < 0).
Proof.
  intros Hlo Habs.
  assert (Hne : phi <> 0).
  { intros ->. rewrite Rabs_R0 in Habs. lra. }
  exists (ln 0.5 / ln (1 + phi)).
  destruct (half_life_days_real phi) as [Hreal _].
  split; [apply Hreal; [lra | exact Hne] |].
  pose proof ln_half_neg as Hhalf.
  split; intros Hphi.
  - assert (Hln : ln (1 + phi) < 0) by (rewrite <- ln_1; apply ln_increasing; lra).
    replace (ln 0.5 / ln (1 + phi)) with ((- ln 0.5) * / (- ln (1 + phi))).
    + apply Rmult_lt_0_compat; [lra |]. apply Rinv_0_lt_compat. lra.
    + field. lra.
  - assert (Hln : 0 < ln (1 + phi)) by (rewrite <- ln_1; apply ln_increasing; lra).
    assert (Hinv : 0 < / ln (1 + phi)) by now apply Rinv_0_lt_compat.
    unfold Rdiv. nra.
Qed.

Lemma half_life_sign_witness :
  exists days : R,
    ECM.half_life_days (Num (-0.5)) = Num days
    /\ (-0.5 < 0 -> 0 < days)
    /\ (0 < -0.5 -> days < 0).
Proof.
  apply (half_life_sign (-0.5)); [lra |]. rewrite Rabs_left by lra. lra.
Defined.

Section LevelsFurther.
Context `{Backend}.
Import Levels.

(** ** The Prais-Winsten step on its own *)

(** X5.  The Prais-Winsten step of [estimate_fgls] keeps every row of a
    column.  When the estimated autocorrelation exceeds one in absolute
    value, [sqrt(1 - rho**2)] is NaN and so is the first transformed row;
    when it is exactly one in absolute value, a finite first row becomes
    zero. *)
Theorem prais_winsten_first_row (rho : R) (c t : column) :
  prais_winsten (Num rho) c = Ok t ->
  length t = length c
  /\ (1 < rho * rho -> head t = Some NaN)
  /\ (rho * rho = 1 -> forall x : R, head c = Some (Num x) -> head t = Some (Num 0)).
Proof.
  destruct c as [| x0 rest]; [discriminate |].
  unfold prais_winsten. intros [= <-]. repeat split.
  - cbn [length]. f_equal. rewrite length_zip_with. cbn [length]. lia.
  - intros Hrho. cbn [head fmul fsub fadd fneg fsqrt].
    rewrite Rltb_true by lra. reflexivity.
  - intros Hrho x [= ->]. cbn [head fmul fsub fadd fneg fsqrt].
    rewrite Rltb_false by lra. cbn [fmul].
    replace (1 + - (rho * rho)) with 0 by lra. rewrite sqrt_0.
    do 2 f_equal. lra.
Qed.

(** ** Entries of the result dictionary *)

Lemma lookup_insert_other (m : record) (k k' : string) (v : pyval) :
  k <> k' -> <[k' := v]> m !! k = m !! k.
Proof. intros Hne. apply lookup_insert_ne. congruence. Qed.

(** X6.  An operation overwrites only its own entries of [self.results]:
    the main specification writes ["main_ols"], ["main_hac"] and
    ["main_effect"], every other operation the single entry named after it;
    whatever else the dictionary holds is still there after the call,
    whether the call returns or raises. *)
Theorem operations_keep_other_results (e : ITSLevelsEstimator) (k : string)
    (use_time_trend : bool) (lags : list Z) :
  (k <> "main_ols" /\ k <> "main_hac" /\ k <> "main_effect" ->
     results (estimate_main_spec use_time_trend e).1 !! k = results e !! k)
  /\ (k <> "distributed_lags" ->
        results (estimate_distributed_lags lags e).1 !! k = results e !! k)
  /\ (k <> "koyck" ->
        results (estimate_koyck_lag use_time_trend e).1 !! k = results e !! k)
  /\ (k <> "fgls" -> results (estimate_fgls e).1 !! k = results e !! k)
  /\ (k <> "differences" ->
        results (estimate_differences_robustness e).1 !! k = results e !! k).
Proof.
  repeat split.
  - intros (Hols & Hhac & Heff). unfold estimate_main_spec.
    destruct (dmatrices _ _ _ ≫= _) as [[[ols hac] me] | err]; [| reflexivity].
    cbv zeta.
    match goal with
    | |- context [_run_diagnostics ?m ?s1] =>
        pose proof (run_diagnostics_results m s1) as (Hr & _);
        destruct (_run_diagnostics m s1) as [s1' [[] | e1]]
    end; cbn [fst] in *; rewrite Hr; cbn [results with_results];
      now rewrite !lookup_insert_other.
  - intros Hk. unfold estimate_distributed_lags.
    destruct (add_lag_columns _ _ _) as [df [[] | err]]; [| reflexivity].
    cbn [data outcome treatment with_data].
    destruct (dmatrices _ _ _ ≫= _) as [r | err]; [| reflexivity].
    cbv zeta. cbn [fst results with_results with_data].
    now rewrite lookup_insert_other.
  - intros Hk. unfold estimate_koyck_lag.
    destruct (col _ _) as [y | err]; [| reflexivity].
    cbn [data outcome treatment with_data].
    destruct (dmatrices _ _ _ ≫= _) as [r | err]; [| reflexivity].
    cbv zeta. cbn [fst results with_results with_data].
    now rewrite lookup_insert_other.
  - intros Hk. unfold estimate_fgls.
    destruct (dmatrices _ _ _ ≫= _) as [r | err]; [| reflexivity].
    cbv zeta. cbn [fst results with_results].
    now rewrite lookup_insert_other.
  - intros Hk. unfold estimate_differences_robustness.
    destruct (add_difference_columns _) as [df [[] | err]]; [| reflexivity].
    cbn [data outcome treatment with_data].
    destruct (dmatrices _ _ _ ≫= _) as [r | err]; [| reflexivity].
    cbv zeta. cbn [fst results with_results with_data].
    now rewrite lookup_insert_other.
Qed.

End LevelsFurther.

Lemma prais_winsten_first_row_witness :
  length [NaN; Num 1] = length [Num 1; Num 3]
  /\ (1 < 2 * 2 -> head [NaN; Num 1] = Some NaN)
  /\ (2 * 2 = 1 -> forall x : R, head [Num 1; Num 3] = Some (Num x) ->
        head [NaN; Num 1] = Some (Num 0)).
Proof.
  apply (prais_winsten_first_row 2 [Num 1; Num 3] [NaN; Num 1]).
  unfold Levels.prais_winsten. cbn [fmul fsub fadd fneg fsqrt zip_with].
  rewrite Rltb_true by lra. cbn [fmul]. do 4 f_equal. lra.
Defined.

Section ECMFurther.
Context `{Backend}.
Import ECM ECMReport.

(** ** Records of the ECM and the two tables written from them *)

Lemma ecm_bandwidth_range (n : nat) : (1 <= ecm_bandwidth n <= 7)%Z.
Proof. unfold ecm_bandwidth. lia. Qed.

Lemma save_latex_ecm_fitted (d : design) (res : Fit) (n : nat) :
  returns (save_latex_ecm (ecm_fitted d res n)) = true
  /\ returns (save_latex_ecm_compact_plain (ecm_fitted d res n)) = true.
Proof.
  unfold ecm_fitted.
  generalize (series_get (d_names d) (params res) "ECT_lag1" NaN)
             (series_get (d_names d) (bse res) "ECT_lag1" NaN)
             (series_get (d_names d) (pvalues res) "ECT_lag1" NaN)
             (series_get (d_names d) (params res) "d_A_t_clean" NaN)
             (series_get (d_names d) (bse res) "d_A_t_clean" NaN)
             (series_get (d_names d) (pvalues res) "d_A_t_clean" NaN).
  intros phi phi_se phi_p psi psi_se psi_p. cbv zeta.
  generalize (ecm_bandwidth n) (half_life_days phi). intros bw hl.
  split; [reflexivity |].
  destruct phi, psi; reflexivity.
Qed.

(** X7.  Every record [estimate_ecm] returns can be written by the compact
    table; the full table can be written exactly for the fitted records, on
    at least 30 rows, whose bandwidth entry lies between 1 and 7, and raises
    [KeyError] on every short-sample record. *)
Theorem ecm_record_tables (df : DataFrame) (y : string) (xvars : list string)
    (residuals : Series) (events : list string) (r : record) :
  estimate_ecm df y xvars residuals events = Ok r ->
  returns (save_latex_ecm_compact_plain r) = true
  /\ exists n : nat,
       r !! "n" = Some (VInt (Z.of_nat n))
       /\ ((n < 30)%nat ->
             r !! "bw" = None /\ save_latex_ecm r = Raise (KeyError "bw"))
       /\ ((30 <= n)%nat ->
             returns (save_latex_ecm r) = true
             /\ exists bw : Z, r !! "bw" = Some (VInt bw) /\ (1 <= bw <= 7)%Z).
Proof.
  intros Hr.
  destruct (estimate_ecm_shapes _ _ _ _ _ _ Hr)
    as [(n & Hn & ->) | (d & res & n & Hn & ->)].
  - split; [reflexivity |]. exists n. split; [reflexivity | split].
    + intros _. apply save_latex_ecm_short_sample.
    + lia.
  - split; [apply save_latex_ecm_fitted |]. exists n.
    split; [reflexivity | split]; [lia |].
    intros _. split; [apply save_latex_ecm_fitted |].
    exists (ecm_bandwidth n). split; [reflexivity | apply ecm_bandwidth_range].
Qed.

(** X8.  Where the full table writes ['N/A'] for a half-life that is not
    finite, the compact table prints whatever the record holds as soon as
    the adjustment coefficient is finite: [-inf] at [phi = 0] and [nan] at
    [phi <= -1]. *)
Theorem compact_table_half_life (d : design) (res : Fit) (n : nat) (phi : R) :
  series_get (d_names d) (params res) "ECT_lag1" NaN = Num phi ->
  cp_half_life <$> save_latex_ecm_compact_plain (ecm_fitted d res n)
  = Ok (Number (VFloat (half_life_days (Num phi))))
  /\ hl_str <$> save_latex_ecm (ecm_fitted d res n)
     = Ok (if isfinite (half_life_days (Num phi))
           then Number (VFloat (half_life_days (Num phi))) else NA)
  /\ (phi = 0 -> half_life_days (Num phi) = NInf)
  /\ (phi <= -1 -> half_life_days (Num phi) = NaN).
Proof.
  intros Hphi. unfold ecm_fitted. rewrite Hphi.
  split; [| split; [| split]].
  - generalize (half_life_days (Num phi))
               (series_get (d_names d) (bse res) "ECT_lag1" NaN)
               (series_get (d_names d) (pvalues res) "ECT_lag1" NaN)
               (series_get (d_names d) (params res) "d_A_t_clean" NaN)
               (series_get (d_names d) (bse res) "d_A_t_clean" NaN)
               (series_get (d_names d) (pvalues res) "d_A_t_clean" NaN)
               (ecm_bandwidth n).
    intros hl phi_se phi_p psi psi_se psi_p bw. destruct psi; reflexivity.
  - generalize (half_life_days (Num phi))
               (series_get (d_names d) (bse res) "ECT_lag1" NaN)
               (series_get (d_names d) (pvalues res) "ECT_lag1" NaN)
               (series_get (d_names d) (params res) "d_A_t_clean" NaN)
               (series_get (d_names d) (bse res) "d_A_t_clean" NaN)
               (series_get (d_names d) (pvalues res) "d_A_t_clean" NaN)
               (ecm_bandwidth n).
    intros hl phi_se phi_p psi psi_se psi_p bw. reflexivity.
  - intros ->. apply half_life_days_zero.
  - intros Hle. apply half_life_days_real. lra.
Qed.

(** ** Johansen rows *)

Lemma mapM_col_take_rows (mask : list bool) (df : DataFrame) (names : list string)
    (cs : list column) :
  mapM (col df) names = Ok cs ->
  mapM (col (take_rows mask df)) names = Ok (map (select mask) cs).
Proof.
  revert cs. induction names as [| c names IH]; intros cs; cbn [mapM].
  - now intros [= <-].
  - destruct (col df c) as [v | err] eqn:Hv; [| discriminate].
    unfold col, getitem in Hv.
    destruct (columns df !! c) as [v' |] eqn:Hv'; [| discriminate].
    injection Hv as ->.
    rewrite bind_Ok. destruct (mapM (col df) names) as [vs | err]; [| discriminate].
    rewrite bind_Ok. intros Hcs. injection Hcs as <-.
    now rewrite (col_take_rows mask df c v Hv'), bind_Ok, (IH vs eq_refl), bind_Ok.
Qed.

Lemma johansen_rank_rows_length (joh : Johansen) (r : nat) (rows : list record) :
  johansen_rank_rows joh r = Ok rows -> length rows = 2%nat.
Proof.
  unfold johansen_rank_rows.
  repeat match goal with
         | |- (?c ≫= _) = Ok _ -> _ =>
             destruct c; [rewrite bind_Ok | discriminate]
         end.
  now intros [= <-].
Qed.

Lemma johansen_rank_rows_at (joh : Johansen) (r : nat) (t m : pyfloat)
    (ct cm : pyfloat * pyfloat * pyfloat) :
  lr1 joh !! r = Some t -> cvt joh !! r = Some ct ->
  lr2 joh !! r = Some m -> cvm joh !! r = Some cm ->
  johansen_rank_rows joh r
  = Ok [ johansen_row "trace" ("r<=" +:+ pretty r) t ct;
         johansen_row "max-eig" ("r=" +:+ pretty r) m cm ].
Proof.
  intros Ht Hct Hm Hcm. unfold johansen_rank_rows, array_at.
  now rewrite Ht, bind_Ok, Hct, bind_Ok, Hm, bind_Ok, Hcm, bind_Ok.
Qed.

Lemma johansen_rank_rows_short (joh : Johansen) (r : nat) :
  (length (lr1 joh) <= r \/ length (cvt joh) <= r
   \/ length (lr2 joh) <= r \/ length (cvm joh) <= r)%nat ->
  exists e : exn, johansen_rank_rows joh r = Raise e.
Proof.
  intros Hshort. unfold johansen_rank_rows, array_at.
  destruct (lr1 joh !! r) eqn:H1; [rewrite bind_Ok | now eexists].
  destruct (cvt joh !! r) eqn:H2; [rewrite bind_Ok | now eexists].
  destruct (lr2 joh !! r) eqn:H3; [rewrite bind_Ok | now eexists].
  destruct (cvm joh !! r) eqn:H4; [rewrite bind_Ok | now eexists].
  apply lookup_lt_Some in H1, H2, H3, H4. lia.
Qed.

(** X9.  Once the requested series are found in the panel,
    [johansen_tests] always returns.  It returns the empty frame when fewer
    than 50 complete rows remain, when the Johansen routine raises and when
    its output has no entry for rank 0 or rank 1; otherwise it returns
    exactly four rows: trace and max-eigenvalue statistics with their
    critical values, for rank 0 and then for rank 1. *)
Theorem johansen_rows_all_or_none (df : DataFrame) (series : list string)
    (det_order k_ar_diff : Z) :
  forallb (has_column df) series = true ->
  exists (sub : DataFrame) (X : list column) (rows : list record),
    dropna_subset series df = Ok sub
    /\ mapM (col sub) series = Ok X
    /\ johansen_tests df series det_order k_ar_diff = Ok rows
    /\ (rows = [] \/ length rows = 4%nat)
    /\ ((len sub < 50)%nat -> rows = [])
    /\ (forall e : exn, coint_johansen X det_order k_ar_diff = Raise e -> rows = [])
    /\ (forall joh : Johansen,
          (50 <= len sub)%nat ->
          coint_johansen X det_order k_ar_diff = Ok joh ->
          (forall (t0 t1 m0 m1 : pyfloat) (ct0 ct1 cm0 cm1 : pyfloat * pyfloat * pyfloat),
              lr1 joh !! 0%nat = Some t0 -> cvt joh !! 0%nat = Some ct0 ->
              lr2 joh !! 0%nat = Some m0 -> cvm joh !! 0%nat = Some cm0 ->
              lr1 joh !! 1%nat = Some t1 -> cvt joh !! 1%nat = Some ct1 ->
              lr2 joh !! 1%nat = Some m1 -> cvm joh !! 1%nat = Some cm1 ->
              rows = [ johansen_row "trace" "r<=0" t0 ct0;
                       johansen_row "max-eig" "r=0" m0 cm0;
                       johansen_row "trace" "r<=1" t1 ct1;
                       johansen_row "max-eig" "r=1" m1 cm1 ])
          /\ ((length (lr1 joh) < 2 \/ length (cvt joh) < 2
               \/ length (lr2 joh) < 2 \/ length (cvm joh) < 2)%nat -> rows = [])).
Proof.
  intros Hall. unfold johansen_tests.
  destruct (mapM_col_present df series Hall) as [cs Hcs].
  assert (Hsub : dropna_subset series df
                 = Ok (take_rows (complete_rows (len df) cs) df)).
  { unfold dropna_subset. now rewrite Hcs, bind_Ok. }
  rewrite Hsub, bind_Ok. set (sub := take_rows _ df).
  pose proof (mapM_col_take_rows (complete_rows (len df) cs) df series cs Hcs) as HX.
  fold sub in HX. set (X := map _ cs) in HX.
  exists sub, X. 
  destruct (Nat.ltb_spec (len sub) 50) as [Hlt | Hge].
  - exists []. repeat split; auto; lia.
  - rewrite HX, bind_Ok. eexists. split; [reflexivity |]. split; [reflexivity |].
    split; [reflexivity |]. split; [| split; [| split]].
    + destruct (coint_johansen X det_order k_ar_diff) as [joh | err]; [| now left].
      rewrite bind_Ok.
      destruct (johansen_rank_rows joh 0) as [rows0 | err] eqn:H0; [| now left].
      rewrite bind_Ok.
      destruct (johansen_rank_rows joh 1) as [rows1 | err] eqn:H1; [| now left].
      rewrite bind_Ok. right. cbn [try_except]. rewrite length_app.
      now rewrite (johansen_rank_rows_length _ _ _ H0), (johansen_rank_rows_length _ _ _ H1).
    + lia.
    + intros e Hjoh. now rewrite Hjoh.
    + intros joh _ Hjoh. rewrite Hjoh, bind_Ok. split.
      * intros t0 t1 m0 m1 ct0 ct1 cm0 cm1 Ht0 Hct0 Hm0 Hcm0 Ht1 Hct1 Hm1 Hcm1.
        rewrite (johansen_rank_rows_at joh 0 _ _ _ _ Ht0 Hct0 Hm0 Hcm0), bind_Ok.
        rewrite (johansen_rank_rows_at joh 1 _ _ _ _ Ht1 Hct1 Hm1 Hcm1), bind_Ok.
        reflexivity.
      * intros Hshort.
        destruct (johansen_rank_rows joh 0) as [rows0 | err] eqn:H0; [| reflexivity].
        rewrite bind_Ok.
        destruct (johansen_rank_rows_short joh 1) as [e ->]; [lia | reflexivity].
Qed.

(** ** Engle-Granger and the gate *)

(** X10.  The Engle-Granger step reports a missing statistic and a missing
    p-value, not an exception, both when no row of the long-run regression
    is complete and when the ADF test on the residuals raises; with a
    missing p-value the gate of [main] retains the not-estimated record. *)
Theorem engle_granger_missing_p_value (df : DataFrame) (y : string)
    (xvars : list string) :
  forallb (has_column df) (y :: xvars) = true ->
  exists sel : DataFrame,
    select_columns (y :: xvars) df = Ok sel
    /\ (len (dropna sel) = 0%nat ->
        engle_granger df y xvars = Ok (NaN, NaN, {| s_index := []; s_values := [] |}))
    /\ (len (dropna sel) <> 0%nat ->
        forall (d : design) (model : Fit) (e : exn),
          dmatrices y xvars (dropna sel) = Ok d ->
          OLS_fit (d_y d) (d_X d) NonRobust = Ok model ->
          adfuller (resid model) "c" = Raise e ->
          engle_granger df y xvars
          = Ok (NaN, NaN, {| s_index := d_index d; s_values := resid model |}))
    /\ (forall (panel : DataFrame) (res : Series),
          ecm_stage panel NaN res = Ok ecm_not_estimated).
Proof.
  intros Hall. destruct (mapM_col_present df (y :: xvars) Hall) as [cs Hcs].
  unfold engle_granger, select_columns. rewrite Hcs, !bind_Ok.
  eexists. split; [reflexivity |]. cbv zeta. split; [| split].
  - intros ->. reflexivity.
  - intros Hlen d model e Hd Hfit Hadf.
    destruct (Nat.eqb_spec (len (dropna {| index := index df;
                                           columns := list_to_map (zip (y :: xvars) cs) |})) 0)
      as [Hz | _]; [contradiction |].
    rewrite Hd, bind_Ok, Hfit, bind_Ok. cbn [s_values]. now rewrite Hadf.
  - intros panel res. now apply ecm_stage_not_finite.
Qed.

End ECMFurther.

Section ECTFurther.
Context `{Backend}.
Import ECM.

(** ** Alignment of the error-correction term *)

Lemma shift_one (c : column) : shift 1 c = take (length c) (NaN :: c).
Proof. reflexivity. Qed.

Lemma shift_one_lookup (c : column) (i : nat) :
  (i < length c)%nat ->
  shift 1 c !! i = Some (match i with O => NaN | S j => default NaN (c !! j) end).
Proof.
  intros Hi. rewrite shift_one, lookup_take_lt by exact Hi.
  destruct i as [| j]; [reflexivity |]. cbn [lookup list_lookup].
  destruct (lookup_lt_is_Some_2 c j) as [x Hx]; [lia |].
  change (c !! j = Some (default NaN (c !! j))). now rewrite Hx.
Qed.

Lemma shift_one_length (c : column) : length (shift 1 c) = length c.
Proof. rewrite shift_one, length_take. cbn [length]. lia. Qed.

(** X11.  The error-correction term of [estimate_ecm] is aligned by row
    label, not by position: in the frame the ECM is fitted on, [ECT] at row
    [i] is the long-run residual labelled [i] (missing where the long-run
    regression dropped that row), and [ECT_lag1] at row [i] is [ECT] at row
    [i - 1], missing at the first row. *)
Theorem error_correction_term_alignment (df : DataFrame) (residuals : Series)
    (events : list string) (frame : DataFrame) (terms controls : list string) :
  ecm_frame df residuals events = Ok (frame, terms, controls) ->
  exists ect lag : column,
    columns frame !! "ECT" = Some ect
    /\ columns frame !! "ECT_lag1" = Some lag
    /\ ect = map (series_at (s_index residuals) (s_values residuals)) (seq 0 (len df))
    /\ length lag = len df
    /\ forall i : nat, (i < len df)%nat ->
         lag !! i
         = Some (match i with
                 | O => NaN
                 | S j => series_at (s_index residuals) (s_values residuals) j
                 end).
Proof.
  unfold ecm_frame. cbv zeta.
  set (ect := map (series_at (s_index residuals) (s_values residuals)) (seq 0 (len df))).
  assert (Hlen : length ect = len df) by (unfold ect; now rewrite length_map, length_seq).
  intros Hframe.
  exists ect, (shift 1 ect).
  assert (Hcols : columns frame !! "ECT" = Some ect
                  /\ columns frame !! "ECT_lag1" = Some (shift 1 ect)).
  { revert Hframe. cbn [reset_index reindex s_values index columns set_column].
    fold ect.
    destruct (_ !! "A_t_clean") as [a |]; cbn [set_column columns index];
      (destruct (_ !! "D_star") as [dstar |]; cbn [set_column columns index]);
      (match goal with
       | |- context [if has_column ?f "d_log_base_fee" then _ else _] =>
           destruct (has_column f "d_log_base_fee")
       end);
      try (destruct (col _ "log_base_fee") as [y0 | err];
           [rewrite bind_Ok | discriminate]);
      rewrite ?bind_Ok;
      (destruct (col _ "d_log_base_fee") as [dy | err];
       [rewrite bind_Ok | discriminate]);
      intros [= <- _ _]; cbn [set_column columns];
      split; repeat (rewrite lookup_insert_ne by done); now rewrite lookup_insert_eq. }
  destruct Hcols as [Hect Hlag].
  split; [exact Hect | split; [exact Hlag | split; [reflexivity | split]]].
  - now rewrite shift_one_length.
  - intros i Hi. rewrite shift_one_lookup by lia.
    destruct i as [| j]; [reflexivity |]. f_equal.
    unfold ect. rewrite list_lookup_fmap, lookup_seq_lt by lia. reflexivity.
Qed.

End ECTFurther.

Section LPFurther.
Context `{Backend}.
Import LP.

(** ** Replications of the bootstrap *)

(** X12.  A call of the moving-block bootstrap with fewer than 30
    replications cannot report an interval: whenever it returns, both bounds
    are NaN. *)
Theorem bootstrap_below_thirty_replications (df : DataFrame) (h : Z) (B : nat)
    (block_len : option Z) (random_state : Z) (ci : pyfloat * pyfloat) :
  (B < 30)%nat ->
  moving_block_bootstrap_irf df h B block_len random_state = Some (Ok ci) ->
  ci = (NaN, NaN).
Proof.
  intros HB. unfold moving_block_bootstrap_irf.
  destruct (horizon_frame _ _ _ _) as [[y_h base_frame] | err]; [| discriminate].
  destruct (bootstrap_loop _ _ _ _ _ _) as [[betas | err] |] eqn:Hloop;
    try discriminate.
  apply bootstrap_loop_length in Hloop.
  pose proof (List.filter_length_le (fun b => negb (isnan b)) betas) as Hfilter.
  match goal with
  | |- context [(?a <? ?b)%nat] => destruct (Nat.ltb_spec a b) as [Hlt | Hge]
  end.
  - now intros [= <-].
  - exfalso. lia.
Qed.

(** ** Block indices *)

Lemma block_idx_range (start block_len lo hi : Z) :
  (lo <= start)%Z -> (start + block_len <= hi)%Z ->
  Forall (fun i => lo <= i < hi)%Z (block_idx start block_len).
Proof.
  intros Hlo Hhi. unfold block_idx. apply List.Forall_forall. intros i Hi.
  apply in_map_iff in Hi as (k & <- & Hk). apply in_seq in Hk. lia.
Qed.

Lemma draw_indices_range (fuel n_eff : nat) (block_len : Z) (rng rng' : rng_state)
    (indices out : list Z) :
  (forall s lo hi v s', rng_integers s lo hi = Ok (v, s') -> (lo <= v < hi)%Z) ->
  Forall (fun i => 0 <= i < Z.of_nat n_eff)%Z indices ->
  draw_indices fuel n_eff block_len rng indices = Some (Ok (out, rng')) ->
  (n_eff <= length out)%nat /\ Forall (fun i => 0 <= i < Z.of_nat n_eff)%Z out.
Proof.
  intros Hrng. revert rng indices.
  induction fuel as [| fuel IH]; intros rng indices Hind; cbn [draw_indices];
    destruct (Nat.ltb_spec (length indices) n_eff) as [Hlt | Hge];
    try discriminate; try (intros [= <- <-]; now split).
  destruct (rng_integers _ _ _) as [[start rng1] | err] eqn:Hdraw; [| discriminate].
  apply Hrng in Hdraw. apply IH.
  apply Forall_app_2; [exact Hind |].
  apply block_idx_range; lia.
Qed.

Lemma mapM_iloc_in_range {A} (l : list A) (idx : list Z) :
  Forall (fun i => 0 <= i < Z.of_nat (length l))%Z idx ->
  exists out : list A, mapM (iloc l) idx = Ok out /\ length out = length idx.
Proof.
  induction 1 as [| i idx Hi _ (out & Hout & Hlen)].
  - now exists [].
  - destruct (lookup_lt_is_Some_2 l (Z.to_nat i)) as [x Hx]; [lia |].
    assert (Hix : iloc l i = Ok x).
    { unfold iloc, array_at. cbv zeta.
      assert (Hneg : (i <? 0)%Z = false) by (apply Z.ltb_ge; lia).
      rewrite Hneg. cbn match. now rewrite Hneg, Hx. }
    exists (x :: out). cbn [mapM].
    rewrite Hix, bind_Ok, Hout, bind_Ok. split; [reflexivity |].
    cbn [length]. now rewrite Hlen.
Qed.

(** X13.  With a generator that respects its bounds, the indices one
    replication draws are positions of existing rows, at least as many as
    the sample has, so the resampled outcome has exactly the length of the
    original and resampling never raises. *)
Theorem resample_has_the_original_length (fuel : nat) (block_len : Z)
    (rng rng' : rng_state) (y_h : column) (indices : list Z) :
  (forall s lo hi v s', rng_integers s lo hi = Ok (v, s') -> (lo <= v < hi)%Z) ->
  draw_indices fuel (length y_h) block_len rng [] = Some (Ok (indices, rng')) ->
  Forall (fun i => 0 <= i < Z.of_nat (length y_h))%Z indices
  /\ exists yb : column,
       mapM (iloc y_h) (take (length y_h) indices) = Ok yb
       /\ length yb = length y_h.
Proof.
  intros Hrng Hdraw.
  destruct (draw_indices_range _ _ _ _ _ _ _ Hrng (Forall_nil_2 _) Hdraw)
    as [Hlen Hall].
  split; [exact Hall |].
  destruct (mapM_iloc_in_range y_h (take (length y_h) indices)) as (yb & Hyb & Hlenb).
  - now apply Forall_take.
  - exists yb. split; [exact Hyb |]. rewrite Hlenb, length_take. lia.
Qed.

(** X14.  When the usable sample is not empty but shorter than the block
    length (with the default block length: fewer than five usable rows), the
    first draw asks the generator for a start in an empty range and the
    bootstrap raises [ValueError]; it does not fall back to NaN bounds. *)
Theorem bootstrap_short_sample_raises (df : DataFrame) (h : Z) (B : nat)
    (block_len : option Z) (random_state : Z) (y_h : column)
    (frame : list (string * column)) :
  (forall s lo hi, (hi <= lo)%Z -> exists msg, rng_integers s lo hi = Raise (ValueError msg)) ->
  horizon_frame df h "log_base_fee" base_cols = Ok (y_h, frame) ->
  (0 < length y_h)%nat ->
  (Z.of_nat (length y_h) < default (default_block_len (len df)) block_len)%Z ->
  (0 < B)%nat ->
  exists msg,
    moving_block_bootstrap_irf df h B block_len random_state
    = Some (Raise (ValueError msg)).
Proof.
  intros Hrng Hframe Hpos Hshort HB. unfold moving_block_bootstrap_irf.
  rewrite Hframe. destruct B as [| B]; [lia |]. cbn [bootstrap_loop].
  destruct (length y_h) as [| n] eqn:Hn; [lia |]. cbn [draw_indices].
  change (length (@nil Z) <? S n)%nat with true. cbn match.
  match goal with
  | |- context [rng_integers ?s ?lo ?hi] =>
      destruct (Hrng s lo hi) as [msg ->]; [lia |]
  end.
  now exists msg.
Qed.

End LPFurther.

Section SweepFurther.
Context `{Backend}.
Import LP.

(** ** Sweeps without horizons and horizons without rows *)

Lemma compute_cumulative_empty_summary (hz : Z) (hs : list Z) (outcome : string) :
  compute_cumulative (summary_frame []) (hz :: hs) outcome = Raise (KeyError "h").
Proof. reflexivity. Qed.

(** X15.  A sweep over a negative maximal horizon returns an empty summary,
    and [compute_cumulative] raises [KeyError] on that summary for any
    non-empty set of horizons: the empty frame has no ["h"] column. *)
Theorem empty_sweep_has_no_cumulative_table (df : DataFrame) (hmax : Z)
    (with_mbb : bool) (outcome : string) (use_event_controls : bool)
    (rows : list HorizonResult) :
  (hmax < 0)%Z ->
  compute_irfs df hmax with_mbb outcome use_event_controls = Some (Ok rows) ->
  rows = []
  /\ forall (hz : Z) (hs : list Z),
       compute_cumulative (summary_frame rows) (hz :: hs) outcome
       = Raise (KeyError "h").
Proof.
  intros Hneg. unfold compute_irfs.
  destruct (prepare_frame df) as [df_prep | err]; [| discriminate].
  destruct (horizon_regression _ _ _ _ _) as [tmp | err]; [| discriminate].
  unfold horizons_upto. replace (Z.to_nat (hmax + 1)) with 0%nat by lia.
  cbn [seq map horizon_sweep]. intros [= <-].
  split; [reflexivity |]. intros hz hs. apply compute_cumulative_empty_summary.
Qed.

Lemma semi_elasticity_zero : semi_elasticity (Num 0) = Num 0.
Proof.
  unfold semi_elasticity. cbn [fmul fexp fsub fadd fneg].
  rewrite exp_tenth_zero. f_equal. lra.
Qed.

Lemma select_none {A} (mask : list bool) (l : list A) :
  Forall (fun b => b = false) mask -> select mask l = [].
Proof.
  intros Hmask. revert l. induction Hmask as [| b mask -> _ IH]; intros l.
  - now destruct l.
  - destruct l as [| x l]; [reflexivity |]. cbn [select]. apply IH.
Qed.

(** X16.  For a requested horizon below every estimated horizon the
    cumulative table does not report a missing effect: the row holds a
    cumulative coefficient of exactly zero, a semi-elasticity of zero and
    zero-width intervals. *)
Theorem cumulative_row_before_first_horizon (rows : list HorizonResult) (hz : Z) :
  rows <> [] ->
  Forall (fun r => hz < hr_h r)%Z rows ->
  cumulative_row (summary_frame rows) "log_base_fee" hz
  = Ok {[ "H" := VInt hz;
          "beta_cum" := VFloat (Num 0);
          "semi_elasticity_10pp" := VFloat (Num 0);
          "semi_ci_low_delta" := VFloat (Num 0);
          "semi_ci_high_delta" := VFloat (Num 0);
          "semi_ci_low_cons" := VFloat (Num 0);
          "semi_ci_high_cons" := VFloat (Num 0) ]}.
Proof.
  intros Hne Hall.
  destruct (summary_frame_columns rows Hne) as (Hh & Hb & Hse & Hlo & Hhi & Hsehac).
  unfold cumulative_row, upto_horizon.
  rewrite (col_lookup _ "h" _ Hh), bind_Ok, bind_Ok.
  set (mask := map _ (map _ rows)).
  assert (Hmask : Forall (fun b => b = false) mask).
  { unfold mask. clear -Hall. induction Hall as [| r rows Hr _ IH]; cbn [map].
    - constructor.
    - constructor; [| exact IH]. rewrite fle_IZR. now apply Z.leb_gt. }
  assert (Hsel : forall c : column, select mask c = [])
    by (intros c; now apply select_none).
  rewrite (col_take_rows mask _ "beta" _ Hb), bind_Ok, Hsel. cbv zeta.
  rewrite !has_column_take_rows.
  replace (has_column (summary_frame rows) "se_hac") with false
    by (unfold has_column; now rewrite Hsehac).
  cbn match. cbn [String.eqb Ascii.eqb Bool.eqb].
  rewrite (col_take_rows mask _ "se" _ Hse), !bind_Ok, Hsel.
  assert (Hsum : pd_sum [] = Num 0) by reflexivity.
  assert (Hsqrt : fsqrt (nansum (map square [])) = Num 0).
  { cbn [map]. unfold nansum. rewrite Hsum. unfold fsqrt.
    rewrite Rltb_false by lra. now rewrite sqrt_0. }
  rewrite Hsqrt, Hsum.
  assert (Hlow : (Num 0 - Num 1.96 * Num 0)%py = Num 0)
    by (cbn [fmul fsub fadd fneg]; f_equal; lra).
  assert (Hhigh : (Num 0 + Num 1.96 * Num 0)%py = Num 0)
    by (cbn [fmul fadd]; f_equal; lra).
  rewrite Hlow, Hhigh, semi_elasticity_zero.
  match goal with
  | |- context [if ?c then _ else _] => destruct c eqn:Hmbb
  end.
  - apply andb_prop in Hmbb as [Hmbb _]. apply andb_prop in Hmbb as [Hl Hu].
    destruct (has_column_lookup _ _ Hl) as [lo Hlo'].
    destruct (has_column_lookup _ _ Hu) as [hi Hhi'].
    rewrite (col_take_rows mask _ _ _ Hlo'), bind_Ok.
    rewrite (col_take_rows mask _ _ _ Hhi'), !bind_Ok, !Hsel, Hsum.
    cbn [fst snd]. now rewrite semi_elasticity_zero.
  - rewrite (col_take_rows mask _ "ci_low_hac" _ Hlo), bind_Ok.
    rewrite (col_take_rows mask _ "ci_high_hac" _ Hhi), !bind_Ok, !Hsel, Hsum.
    cbn [fst snd]. now rewrite semi_elasticity_zero.
Qed.

(** ** Bandwidths of a sweep *)

Lemma horizon_regression_bandwidth (df : DataFrame) (h : Z) (bw : option Z)
    (outcome : string) (extra : list string) (res : HorizonResult) :
  horizon_regression df h bw outcome extra = Ok res ->
  hr_h res = h
  /\ hr_bandwidth res
     = Z.min (default (andrews_bandwidth (hr_n res)) bw + Z.max h 1)
         (Z.of_nat (hr_n res) - 1)
  /\ exists (y_h : column) (frame : list (string * column)),
       horizon_frame df h outcome (base_cols ++ List.filter (has_column df) extra)
       = Ok (y_h, frame)
       /\ hr_n res = length y_h.
Proof.
  unfold horizon_regression. intros Hres.
  destruct (horizon_frame _ _ _ _) as [[y_h frame] | err]; [| discriminate].
  rewrite bind_Ok in Hres.
  repeat match type of Hres with
         | (?c ≫= _) = Ok _ =>
             destruct c; [rewrite bind_Ok in Hres | discriminate]
         end.
  injection Hres as <-. cbn [hr_h hr_bandwidth hr_n].
  split; [reflexivity | split; [reflexivity |]]. now exists y_h, frame.
Qed.



End SweepFurther.

Section ArmaFurther.
Context `{Backend} `{ArimaBackend}.
Import ArmaGrid.

(** ** Order of the grid rows *)

Lemma asc_before_irrefl (a : pyfloat) : asc_before a a = false.
Proof.
  destruct a as [x | | |]; try reflexivity. cbn. apply Rltb_false. lra.
Qed.

Lemma desc_before_irrefl (a : pyfloat) : desc_before a a = false.
Proof.
  destruct a as [x | | |]; try reflexivity. cbn. apply Rltb_false. lra.
Qed.

Ltac order_cases :=
  repeat match goal with
         | a : pyfloat |- _ => destruct a
         end;
  cbn [asc_before desc_before flt]; unfold Rltb;
  repeat match goal with
         | |- context [Rlt_dec ?x ?y] => destruct (Rlt_dec x y)
         end;
  intros; try reflexivity; try discriminate; try (exfalso; lra).

Lemma asc_before_asym (a b : pyfloat) :
  asc_before a b = true -> asc_before b a = false.
Proof. order_cases. Qed.

Lemma desc_before_asym (a b : pyfloat) :
  desc_before a b = true -> desc_before b a = false.
Proof. order_cases. Qed.

Lemma asc_before_negtrans (a b c : pyfloat) :
  asc_before a b = false -> asc_before b c = false -> asc_before a c = false.
Proof. order_cases. Qed.

Lemma desc_before_negtrans (a b c : pyfloat) :
  desc_before a b = false -> desc_before b c = false -> desc_before a c = false.
Proof. order_cases. Qed.

Lemma asc_before_trans (a b c : pyfloat) :
  asc_before a b = true -> asc_before b c = true -> asc_before a c = true.
Proof. order_cases. Qed.

Lemma row_before_irrefl (r : GridRow) : row_before r r = false.
Proof.
  unfold row_before. now rewrite asc_before_irrefl, desc_before_irrefl.
Qed.

Lemma row_before_asym (r1 r2 : GridRow) :
  row_before r1 r2 = true -> row_before r2 r1 = false.
Proof.
  unfold row_before.
  destruct (asc_before (g_aic r1) (g_aic r2)) eqn:H12,
           (asc_before (g_aic r2) (g_aic r1)) eqn:H21; cbn; try reflexivity.
  - apply asc_before_asym in H12. congruence.
  - discriminate.
  - intros Hlb. now apply desc_before_asym.
Qed.

Lemma row_before_negtrans (r1 r2 r3 : GridRow) :
  row_before r1 r2 = false -> row_before r2 r3 = false -> row_before r1 r3 = false.
Proof.
  unfold row_before.
  destruct (asc_before (g_aic r1) (g_aic r2)) eqn:H12; [discriminate |].
  destruct (asc_before (g_aic r2) (g_aic r3)) eqn:H23; [discriminate |].
  rewrite (asc_before_negtrans _ _ _ H12 H23). cbn [orb].
  destruct (asc_before (g_aic r2) (g_aic r1)) eqn:H21; cbn [negb andb].
  - intros _ _.
    destruct (asc_before (g_aic r3) (g_aic r1)) eqn:H31; [reflexivity |].
    now rewrite (asc_before_negtrans _ _ _ H23 H31) in H21.
  - destruct (asc_before (g_aic r3) (g_aic r2)) eqn:H32; cbn [negb andb].
    + intros _ _.
      destruct (asc_before (g_aic r3) (g_aic r1)) eqn:H31; [reflexivity |].
      now rewrite (asc_before_negtrans _ _ _ H31 H12) in H32.
    + intros Hlb12 Hlb23.
      rewrite (desc_before_negtrans _ _ _ Hlb12 Hlb23). apply andb_false_r.
Qed.

(** The head of the sorted grid is one of its rows, and no row sorts
    strictly before it. *)
Lemma sorted_head_minimal (r : GridRow) (rows : list GridRow) :
  exists (best : GridRow) (rest : list GridRow),
    foldr insert_row [] (r :: rows) = best :: rest
    /\ In best (r :: rows)
    /\ Forall (fun x => row_before x best = false) (r :: rows).
Proof.
  revert r. induction rows as [| r' rows IH]; intros r.
  - exists r, []. repeat split; [now left |].
    constructor; [apply row_before_irrefl | constructor].
  - destruct (IH r') as (b & rest & Hsort & Hin & Hmin).
    cbn [foldr] in *. rewrite Hsort. cbn [insert_row].
    destruct (row_before b r) eqn:Hbr.
    + exists b, (insert_row r rest). repeat split; [now right |].
      constructor; [now apply row_before_asym | exact Hmin].
    + exists r, (b :: rest). repeat split; [now left |].
      constructor; [apply row_before_irrefl |].
      eapply Forall_impl; [exact Hmin |]. intros x Hx. cbn beta in *.
      now apply (row_before_negtrans x b r).
Qed.

Lemma estimate_arma_grid_returned (max_p max_q lb_lags : Z)
    (self self' : Levels.ITSLevelsEstimator) (grid : list GridRow) (best : GridRow) :
  estimate_arma_grid max_p max_q lb_lags self = (self', Ok (grid, best)) ->
  exists (d : design) (rest : list GridRow),
    dmatrices (Levels.outcome self)
      (Levels.treatment self
         :: ["D_star"; "regime_merge"; "regime_dencun"; "is_weekend"; "is_month_end"])
      (Levels.data self) = Ok d
    /\ grid = grid_rows (d_y d) (tail (d_X d)) max_p max_q lb_lags
    /\ grid <> []
    /\ foldr insert_row [] grid = best :: rest
    /\ self' = Levels.with_results self
                 (<["arma_best" := VDict (to_dict best)]>
                    (<["arma_grid" := VList (map (fun r => VDict (row_dict r)) grid)]>
                       (Levels.results self))).
Proof.
  unfold estimate_arma_grid.
  destruct (dmatrices _ _ _) as [d | err]; [| discriminate].
  intros Hret. rewrite bind_Ok in Hret. cbv zeta in Hret.
  destruct (grid_rows (d_y d) (tail (d_X d)) max_p max_q lb_lags)
    as [| r rows'] eqn:Hrows; [cbn in Hret; congruence |].
  unfold sort_values in Hret. rewrite bind_Ok in Hret.
  destruct (sorted_head_minimal r rows') as (b & rest & Hsort & _ & _).
  rewrite Hsort in Hret. cbn in Hret. injection Hret as <- <- <-.
  exists d, rest. rewrite Hrows.
  split; [reflexivity | split; [reflexivity | split; [discriminate |]]].
  split; [exact Hsort | reflexivity].
Qed.

(** X18.  The order [estimate_arma_grid] selects is a row of the grid that
    no other row beats: none has a smaller AIC, and none with the same AIC
    has a larger Ljung-Box p-value at the last lag.  A fit that raised,
    whose row carries an infinite AIC, is therefore never selected when
    some order has a finite AIC.  The selected row is stored under
    ["arma_best"]. *)
Theorem arma_grid_selects_minimum (max_p max_q lb_lags : Z)
    (self self' : Levels.ITSLevelsEstimator) (grid : list GridRow) (best : GridRow) :
  estimate_arma_grid max_p max_q lb_lags self = (self', Ok (grid, best)) ->
  In best grid
  /\ Forall (fun r => row_before r best = false) grid
  /\ (forall r : GridRow, In r grid -> isfinite (g_aic r) = true ->
        flt (g_aic best) PInf = true)
  /\ Levels.results self' !! "arma_best" = Some (VDict (to_dict best)).
Proof.
  intros Hgrid.
  destruct (estimate_arma_grid_returned _ _ _ _ _ _ _ Hgrid)
    as (d & rest & _ & _ & Hne & Hsort & ->).
  destruct grid as [| r rows]; [contradiction |].
  destruct (sorted_head_minimal r rows) as (b & rest' & Hsort' & Hin & Hmin).
  rewrite Hsort in Hsort'. injection Hsort' as <- <-.
  split; [exact Hin | split; [exact Hmin | split]].
  - intros x Hx Hfin. rewrite List.Forall_forall in Hmin.
    specialize (Hmin x Hx). unfold row_before in Hmin.
    apply orb_false_elim in Hmin as [Haic _].
    destruct (g_aic x) as [a | | |]; try discriminate.
    destruct (g_aic best) as [c | | |]; try reflexivity; discriminate.
  - cbn [Levels.results Levels.with_results]. apply lookup_insert_eq.
Qed.

End ArmaFurther.

Section ArmaGridShape.
Context `{Backend} `{ArimaBackend}.
Import ArmaGrid.

(** ** Rows of the grid *)


Lemma grid_cell_failed (y : column) (X : list column) (lb_lags : Z) (p q : nat)
    (e : exn) :
  ARIMA_fit y X p q = Raise e ->
  grid_cell y X lb_lags p q = failed_row p q (length y).
Proof. intros Hfit. unfold grid_cell. now rewrite Hfit. Qed.





(** X20.  With both maximal orders at zero or below the grid is empty, and
    [estimate_arma_grid] raises [KeyError] when it sorts the empty frame;
    the estimator is left as it was. *)
Theorem arma_grid_without_orders (max_p max_q lb_lags : Z)
    (self : Levels.ITSLevelsEstimator) (d : design) :
  (max_p <= 0)%Z -> (max_q <= 0)%Z ->
  dmatrices (Levels.outcome self)
    (Levels.treatment self
       :: ["D_star"; "regime_merge"; "regime_dencun"; "is_weekend"; "is_month_end"])
    (Levels.data self) = Ok d ->
  estimate_arma_grid max_p max_q lb_lags self = (self, Raise (KeyError "aic")).
Proof.
  intros Hp Hq Hd. unfold estimate_arma_grid. rewrite Hd, bind_Ok. cbv zeta.
  assert (Hrows : grid_rows (d_y d) (tail (d_X d)) max_p max_q lb_lags = []).
  { unfold grid_rows, orders_upto.
    destruct (Z.to_nat (max_p + 1)) as [| [| n]] eqn:Hn; [reflexivity | | lia].
    destruct (Z.to_nat (max_q + 1)) as [| [| m]] eqn:Hm; [reflexivity | reflexivity | lia]. }
  now rewrite Hrows.
Qed.

Lemma insert_row_all_tied (r : GridRow) (sorted : list GridRow) :
  Forall (fun x => row_before x r = false) sorted ->
  insert_row r sorted = r :: sorted.
Proof.
  intros Hall. destruct sorted as [| x sorted]; [reflexivity |].
  apply Forall_cons_1 in Hall as [Hx _]. cbn [insert_row]. now rewrite Hx.
Qed.

Lemma sort_all_tied (rows : list GridRow) :
  Forall (fun r => g_aic r = PInf /\ g_lb_p_at_maxlag r = NaN) rows ->
  foldr insert_row [] rows = rows.
Proof.
  induction 1 as [| r rows [Haic Hlb] Hall IH]; [reflexivity |].
  cbn [foldr]. rewrite IH. apply insert_row_all_tied.
  eapply Forall_impl; [exact Hall |]. intros x [Hxaic Hxlb].
  unfold row_before. now rewrite Haic, Hxaic, Hlb, Hxlb.
Qed.

(** X21.  When no order can be fitted the grid search still returns: every
    row holds an infinite AIC and a missing coefficient, and the order it
    reports as selected is the first one tried, with a missing
    coefficient. *)
Theorem arma_grid_when_every_fit_fails (max_p max_q lb_lags : Z)
    (self self' : Levels.ITSLevelsEstimator) (grid : list GridRow) (best : GridRow) :
  (forall y X p q, exists e, ARIMA_fit y X p q = Raise e) ->
  estimate_arma_grid max_p max_q lb_lags self = (self', Ok (grid, best)) ->
  head grid = Some best
  /\ g_beta best = NaN
  /\ g_aic best = PInf
  /\ Forall (fun r => g_aic r = PInf /\ g_beta r = NaN) grid.
Proof.
  intros Hfail Hgrid.
  destruct (estimate_arma_grid_returned _ _ _ _ _ _ _ Hgrid)
    as (d & rest & _ & Hrows & Hne & Hsort & _).
  assert (Hall : Forall (fun r => g_aic r = PInf /\ g_lb_p_at_maxlag r = NaN
                                  /\ g_beta r = NaN) grid).
  { rewrite Hrows. apply Forall_forall. intros r Hr. unfold grid_rows in Hr.
    apply list_elem_of_bind in Hr as (p & Hr & _).
    apply list_elem_of_bind in Hr as (q & Hr & _).
    destruct (Nat.eqb p 0 && Nat.eqb q 0); [now apply elem_of_nil in Hr |].
    apply list_elem_of_singleton in Hr as ->.
    destruct (Hfail (d_y d) (tail (d_X d)) p q) as [e Hfit].
    now rewrite (grid_cell_failed _ _ _ _ _ _ Hfit). }
  rewrite sort_all_tied in Hsort
    by (eapply Forall_impl; [exact Hall |]; now intros r (? & ? & ?)).
  rewrite Hsort in *. apply Forall_cons_1 in Hall as [(Haic & _ & Hbeta) Hall].
  repeat split; try assumption.
  constructor; [now split |].
  eapply Forall_impl; [exact Hall |]. now intros r (? & ? & ?).
Qed.

End ArmaGridShape.

Section ReportFurther.
Context `{Backend}.
Import LevelsReport.

(** ** The summary written by [save_results] *)

(** What one entry of the summary becomes once [key] has been visited. *)
Lemma save_entry_lookup (results summary out : record) (key k : string) :
  save_entry results summary key = Ok out ->
  out !! k
  = if String.eqb k key
    then match results !! key with
         | Some (VDict d) =>
             if bool_decide (d = ∅) then summary !! k
             else Some (VDict (delete "model" d))
         | _ => summary !! k
         end
    else summary !! k.
Proof.
  unfold save_entry. destruct (String.eqb_spec k key) as [-> | Hne].
  - destruct (results !! key) as [[| | | | | | | | | d] |]; try discriminate;
      try (now intros [= <-]).
    destruct (bool_decide (d = ∅)); [now intros [= <-] |].
    destruct (bool_decide (is_Some (d !! "model"))) eqn:Hmodel;
      intros [= <-]; rewrite lookup_insert_eq; [reflexivity |].
    apply bool_decide_eq_false in Hmodel.
    rewrite delete_id; [reflexivity |]. now apply eq_None_not_Some.
  - destruct (results !! key) as [[| | | | | | | | | d] |]; try discriminate;
      try (now intros [= <-]).
    destruct (bool_decide (d = ∅)); [now intros [= <-] |].
    destruct (bool_decide (is_Some (d !! "model")));
      intros [= <-]; now rewrite lookup_insert_ne by congruence.
Qed.

Lemma save_entries_lookup (results : record) (keys : list string)
    (summary out : record) (k : string) :
  save_entries results summary keys = Ok out ->
  out !! k
  = if existsb (String.eqb k) keys
    then match results !! k with
         | Some (VDict d) =>
             if bool_decide (d = ∅) then summary !! k
             else Some (VDict (delete "model" d))
         | _ => summary !! k
         end
    else summary !! k.
Proof.
  revert summary. induction keys as [| key keys IH]; intros summary; cbn [save_entries].
  - now intros [= <-].
  - destruct (save_entry results summary key) as [s1 |] eqn:Hentry; [| discriminate].
    rewrite bind_Ok. intros Hout. rewrite (IH _ Hout).
    rewrite (save_entry_lookup _ _ _ _ k Hentry). cbn [existsb].
    destruct (String.eqb_spec k key) as [-> | Hne]; cbn [orb]; [| reflexivity].
    destruct (existsb (String.eqb key) keys);
      destruct (results !! key) as [[| | | | | | | | | d] |]; try reflexivity;
      destruct (bool_decide (d = ∅)); reflexivity.
Qed.

Lemma save_entries_returns (results : record) (keys : list string) (summary : record) :
  (forall key v, In key keys -> results !! key = Some v -> exists d, v = VDict d) ->
  exists out : record, save_entries results summary keys = Ok out.
Proof.
  revert summary. induction keys as [| key keys IH]; intros summary Hdict.
  - now eexists.
  - cbn [save_entries].
    assert (Hentry : exists s1, save_entry results summary key = Ok s1).
    { unfold save_entry. destruct (results !! key) as [v |] eqn:Hv; [| now eexists].
      destruct (Hdict key v) as [d ->]; [now left | exact Hv |].
      destruct (bool_decide (d = ∅)); [now eexists |].
      destruct (bool_decide (is_Some (d !! "model"))); now eexists. }
    destruct Hentry as [s1 ->]. rewrite bind_Ok. apply IH.
    intros k v Hin. apply Hdict. now right.
Qed.

(** X22.  When the five reported entries of [self.results] are
    dictionaries, [save_results] returns, and the summary it writes holds
    exactly the non-empty ones among them, each without its ["model"]
    entry: no fitted model object is serialised, and results stored under
    any other key, the Koyck estimates among them, are not written. *)
Theorem saved_summary (self : Levels.ITSLevelsEstimator) :
  (forall key v, In key saved_keys -> Levels.results self !! key = Some v ->
     exists d, v = VDict d) ->
  exists summary : record,
    save_results self = Ok summary
    /\ (forall key v, summary !! key = Some v ->
          In key saved_keys
          /\ exists d : record,
               Levels.results self !! key = Some (VDict d)
               /\ d <> ∅ /\ v = VDict (delete "model" d)
               /\ delete "model" d !! "model" = None)
    /\ (forall key d, In key saved_keys ->
          Levels.results self !! key = Some (VDict d) -> d <> ∅ ->
          summary !! key = Some (VDict (delete "model" d)))
    /\ summary !! "koyck" = None.
Proof.
  intros Hdict. unfold save_results.
  destruct (save_entries_returns (Levels.results self) saved_keys ∅ Hdict)
    as [summary Hsum].
  exists summary. split; [exact Hsum |].
  pose proof (fun k => save_entries_lookup _ _ _ _ k Hsum) as Hlook.
  split; [| split].
  - intros key v Hv. rewrite Hlook in Hv.
    destruct (existsb (String.eqb key) saved_keys) eqn:Hin;
      [| now rewrite lookup_empty in Hv].
    apply existsb_exists in Hin as (k' & Hin & Heq).
    apply String.eqb_eq in Heq as <-. split; [exact Hin |].
    destruct (Levels.results self !! key) as [[| | | | | | | | | d] |];
      try (now rewrite lookup_empty in Hv).
    destruct (bool_decide (d = ∅)) eqn:Hd; [now rewrite lookup_empty in Hv |].
    apply bool_decide_eq_false in Hd. injection Hv as <-.
    exists d. repeat split; try assumption. apply lookup_delete_eq.
  - intros key d Hin Hres Hd. rewrite Hlook, Hres.
    replace (existsb (String.eqb key) saved_keys) with true.
    + now rewrite bool_decide_eq_false_2.
    + symmetry. apply existsb_exists. exists key. split; [exact Hin |].
      apply String.eqb_refl.
  - now rewrite Hlook.
Qed.

End ReportFurther.

Section RegimeFurther.
Import ECMReport.

(** ** Regime labels and regime dummies of the ECM panel *)

Ltac regime_cases :=
  unfold regime_label, regime_post_merge, regime_post_dencun, LP.indicator,
    MERGE, DENCUN;
  cbn [flt fle]; unfold Rltb, Rleb;
  repeat match goal with
         | |- context [Rlt_dec ?x ?y] => destruct (Rlt_dec x y)
         | |- context [Rle_dec ?x ?y] => destruct (Rle_dec x y)
         end;
  cbn [andb]; try (exfalso; lra).

(** X23.  The regime label that selects the by-regime samples and the
    regime dummies of the full-sample regression describe the same split of
    the dates: a date is labelled Merge-Dencun exactly when its post-Merge
    dummy is 1, Post-Dencun exactly when its post-Dencun dummy is 1, and
    London-Merge exactly when both are 0.  A missing date is the exception:
    it is labelled Post-Dencun while both of its dummies are 0. *)
Theorem regime_labels_match_dummies (d : pyfloat) :
  isnan d = false ->
  (regime_label d = "Merge-Dencun" <-> regime_post_merge d = Num 1)
  /\ (regime_label d = "Post-Dencun" <-> regime_post_dencun d = Num 1)
  /\ (regime_label d = "London-Merge"
      <-> regime_post_merge d = Num 0 /\ regime_post_dencun d = Num 0)
  /\ regime_label NaN = "Post-Dencun"
  /\ regime_post_merge NaN = Num 0 /\ regime_post_dencun NaN = Num 0.
Proof.
  intros Hd.
  assert (H10 : Num 1 <> Num 0) by (intros [=]; lra).
  assert (H01 : Num 0 <> Num 1) by (intros [=]; lra).
  destruct d as [x | | |]; try discriminate; regime_cases;
    repeat split; intros; try reflexivity; try discriminate; try congruence;
    try (destruct_and?; congruence).
Qed.

Lemma regime_labels_match_dummies_witness :
  (regime_label (Num 19500) = "Merge-Dencun" <-> regime_post_merge (Num 19500) = Num 1)
  /\ (regime_label (Num 19500) = "Post-Dencun" <-> regime_post_dencun (Num 19500) = Num 1)
  /\ (regime_label (Num 19500) = "London-Merge"
      <-> regime_post_merge (Num 19500) = Num 0 /\ regime_post_dencun (Num 19500) = Num 0)
  /\ regime_label NaN = "Post-Dencun"
  /\ regime_post_merge NaN = Num 0 /\ regime_post_dencun NaN = Num 0.
Proof. apply (regime_labels_match_dummies (Num 19500)). reflexivity. Defined.

Lemma regime_label_cases (d : pyfloat) :
  regime_label d = "London-Merge" \/ regime_label d = "Merge-Dencun"
  \/ regime_label d = "Post-Dencun".
Proof.
  unfold regime_label. destruct (flt d MERGE); [now left |].
  destruct (flt d DENCUN); [right; now left | right; now right].
Qed.

(** X24.  The three by-regime samples split the rows of the panel: every
    row falls in exactly one of them, so their sizes add up to the number
    of rows. *)
Theorem regime_samples_partition (dates : column) :
  (length (select (regime_mask "London-Merge" dates) dates)
   + length (select (regime_mask "Merge-Dencun" dates) dates)
   + length (select (regime_mask "Post-Dencun" dates) dates))%nat
  = length dates
  /\ Forall (fun d => regime_label d = "London-Merge")
       (select (regime_mask "London-Merge" dates) dates)
  /\ Forall (fun d => regime_label d = "Merge-Dencun")
       (select (regime_mask "Merge-Dencun" dates) dates)
  /\ Forall (fun d => regime_label d = "Post-Dencun")
       (select (regime_mask "Post-Dencun" dates) dates).
Proof.
  unfold regime_mask. induction dates as [| d dates (IHlen & IH1 & IH2 & IH3)].
  - repeat split; constructor.
  - cbn [map select].
    destruct (regime_label_cases d) as [Hd | [Hd | Hd]]; rewrite Hd;
      simpl;
      repeat split; try (constructor; assumption); try assumption; lia.
Qed.

End RegimeFurther.

Section InitFurther.
Context `{Backend}.
Variable dt_month : pyfloat -> Z.
Import LevelsInit.

(** ** The frame an estimator is constructed on *)

Lemma select_satisfies {A} (p : A -> bool) (l : list A) :
  Forall (fun x => p x = true) (select (map p l) l).
Proof.
  induction l as [| x l IH]; [constructor |].
  cbn [map select]. destruct (p x) eqn:Hx; [now constructor | exact IH].
Qed.

Lemma permute_Forall {A} (P : A -> Prop) (order : list nat) (l : list A) :
  Forall P l -> Forall P (LP.permute order l).
Proof.
  intros Hl. unfold LP.permute. induction order as [| i order IH]; [constructor |].
  cbn [omap list_omap]. destruct (l !! i) as [x |] eqn:Hx; [| exact IH].
  constructor; [exact (Forall_lookup_1 P l i x Hl Hx) | exact IH].
Qed.

Lemma optional_column (df df' : DataFrame) (name : string)
    (values : column -> column) (k : string) :
  (if has_column df name then Ok df
   else dates ← col df "date"; Ok (set_column name (values dates) df)) = Ok df' ->
  k <> name ->
  columns df' !! k = columns df !! k.
Proof.
  destruct (has_column df name); [now intros [= <-] |].
  destruct (col df "date") as [dates | err]; [| discriminate].
  rewrite bind_Ok. intros [= <-] Hk. cbn [set_column columns].
  apply lookup_insert_ne. congruence.
Qed.

(** The calendar columns and the trend are added under names of their
    own; no other column changes. *)
Lemma calendar_steps (base final : DataFrame) (k : string) :
  (df ← (if has_column base "day_of_week" then Ok base
         else dates ← col base "date";
              Ok (set_column "day_of_week"
                    (map (fun d => Num (IZR (dt_dayofweek d))) dates) base));
   df ← (if has_column df "month_of_year" then Ok df
         else dates ← col df "date";
              Ok (set_column "month_of_year"
                    (map (fun d => Num (IZR (dt_month d))) dates) df));
   df ← (if has_column df "is_weekend" then Ok df
         else dates ← col df "date";
              Ok (set_column "is_weekend"
                    (map (fun d => LP.indicator (5 <=? dt_dayofweek d)%Z) dates) df));
   df ← (if has_column df "is_month_end" then Ok df
         else dates ← col df "date";
              Ok (set_column "is_month_end"
                    (map (fun d => LP.indicator (dt_is_month_end d)) dates) df));
   Ok (set_column "time_trend" (map (fun i => Num (INR i)) (seq 0 (len df))) df))
  = Ok final ->
  k <> "day_of_week" -> k <> "month_of_year" -> k <> "is_weekend" ->
  k <> "is_month_end" -> k <> "time_trend" ->
  columns final !! k = columns base !! k.
Proof.
  intros Hfinal H1 H2 H3 H4 H5.
  repeat match type of Hfinal with
         | ?c ≫= _ = Ok _ => destruct c as [?df |] eqn:?Hstep;
                              [rewrite bind_Ok in Hfinal | discriminate]
         end.
  injection Hfinal as <-. cbn [set_column columns].
  rewrite lookup_insert_ne by congruence.
  rewrite (optional_column _ _ _ _ k Hstep2) by exact H4.
  rewrite (optional_column _ _ _ _ k Hstep1) by exact H3.
  rewrite (optional_column _ _ _ _ k Hstep0) by exact H2.
  now rewrite (optional_column _ _ _ _ k Hstep) by exact H1.
Qed.

Lemma regime_indicators_sum (d : pyfloat) :
  fle LONDON_DATE d = true ->
  (regime_london_of d + regime_merge_of d + regime_dencun_of d)%py = Num 1.
Proof.
  unfold regime_london_of, regime_merge_of, regime_dencun_of, LP.indicator,
    LONDON_DATE, MERGE_DATE, DENCUN_DATE.
  destruct d as [x | | |]; cbn [fle flt]; try discriminate.
  - unfold Rleb, Rltb.
    repeat match goal with
           | |- context [Rlt_dec ?a ?b] => destruct (Rlt_dec a b)
           | |- context [Rle_dec ?a ?b] => destruct (Rle_dec a b)
           end;
      cbn [andb fadd]; intros; try discriminate; try (exfalso; lra);
      f_equal; lra.
  - intros _. unfold Rleb. cbn [andb fadd]. f_equal. lra.
Qed.

(** X25.  The frame of a constructed estimator holds post-London rows only,
    and when the panel brings no regime dummies the three indicators the
    constructor builds split those rows: on every row exactly one of
    [regime_london], [regime_merge] and [regime_dencun] is 1. *)
Theorem estimator_frame_regimes (data : DataFrame) (outcome treatment : string)
    (self : Levels.ITSLevelsEstimator) :
  __init__ dt_month data outcome treatment = Ok self ->
  exists dates : column,
    columns (Levels.data self) !! "date" = Some dates
    /\ Forall (fun d => fle LONDON_DATE d = true) dates
    /\ (columns data !! "regime_post_merge" = None ->
          columns (Levels.data self) !! "regime_london"
          = Some (map regime_london_of dates)
          /\ columns (Levels.data self) !! "regime_merge"
             = Some (map regime_merge_of dates)
          /\ columns (Levels.data self) !! "regime_dencun"
             = Some (map regime_dencun_of dates)
          /\ Forall (fun d => (regime_london_of d + regime_merge_of d
                               + regime_dencun_of d)%py = Num 1) dates).
Proof.
  unfold __init__, _prepare_data, post_london, LP.sort_by_date.
  destruct (col data "date") as [dates0 | err] eqn:Hdates0; [| discriminate].
  rewrite !bind_Ok.
  set (filtered := take_rows _ data).
  assert (Hfiltered : columns filtered !! "date"
                      = Some (select (map (fun d => fle LONDON_DATE d) dates0) dates0)).
  { unfold filtered, take_rows. cbn [columns]. rewrite lookup_fmap.
    unfold col, getitem in Hdates0.
    destruct (columns data !! "date"); [| discriminate]. now injection Hdates0 as ->. }
  rewrite (col_lookup _ _ _ Hfiltered), !bind_Ok. cbv zeta.
  set (order := argsort (select (map (fun d => fle LONDON_DATE d) dates0) dates0)).
  set (dates := LP.permute order (select (map (fun d => fle LONDON_DATE d) dates0) dates0)).
  set (sorted := {| index := seq 0 (len filtered);
                    columns := LP.permute order <$> columns filtered |}).
  assert (Hsorted : forall k, columns sorted !! k
                              = LP.permute order
                                <$> (select (map (fun d => fle LONDON_DATE d) dates0)
                                     <$> columns data !! k)).
  { intros k. unfold sorted, filtered, take_rows. cbn [columns].
    now rewrite !lookup_fmap. }
  assert (Hdate : columns sorted !! "date" = Some dates).
  { rewrite Hsorted. unfold col, getitem in Hdates0.
    destruct (columns data !! "date"); [| discriminate]. now injection Hdates0 as ->. }
  assert (Hpost : Forall (fun d => fle LONDON_DATE d = true) dates).
  { apply permute_Forall, (select_satisfies (fun d => fle LONDON_DATE d)). }
  match goal with
  | |- context [columns ?l !! "regime_post_merge"] => set (logged := l)
  end.
  assert (Hlogged : forall k, k <> "log_base_fee" ->
                              columns logged !! k = columns sorted !! k).
  { intros k Hk. unfold logged.
    destruct (columns sorted !! "base_fee_median_gwei"); [| reflexivity].
    destruct (has_column sorted "log_base_fee"); [reflexivity |].
    cbn [set_column columns]. apply lookup_insert_ne. congruence. }
  intros Hinit. exists dates.
  match type of Hinit with
  | ?prep ≫= _ = Ok _ => destruct prep as [final |] eqn:Hprep; [| discriminate]
  end.
  rewrite bind_Ok in Hinit. injection Hinit as <-. cbn [Levels.data].
  destruct (columns logged !! "regime_post_merge") as [m |] eqn:Hm.
  - rewrite bind_Ok in Hprep.
    rewrite (calendar_steps _ _ "date" Hprep) by done.
    cbn [set_column columns]. rewrite !lookup_insert_ne by done.
    rewrite Hlogged by done.
    split; [exact Hdate | split; [exact Hpost |]].
    intros Hnone. rewrite Hlogged, Hsorted, Hnone in Hm by done. discriminate.
  - rewrite (col_lookup logged "date" dates) in Hprep
      by (rewrite Hlogged by done; exact Hdate).
    rewrite !bind_Ok in Hprep.
    rewrite !(calendar_steps _ _ _ Hprep) by done.
    cbn [set_column columns].
    split; [| split; [exact Hpost |]].
    + rewrite !lookup_insert_ne by done. rewrite Hlogged by done. exact Hdate.
    + intros _. repeat split.
      * rewrite !lookup_insert_ne by done. apply lookup_insert_eq.
      * rewrite lookup_insert_ne by done. apply lookup_insert_eq.
      * apply lookup_insert_eq.
      * eapply Forall_impl; [exact Hpost |]. apply regime_indicators_sum.
Qed.

End InitFurther.

Section PrepareFurther.
Context `{Backend}.
Import LP.

(** ** Regime dummies of the local-projection frame *)

Lemma set_columns_lookup (evs : list (string * column)) (df : DataFrame) (k : string) :
  Forall (fun kv => kv.1 <> k) evs ->
  columns (set_columns evs df) !! k = columns df !! k.
Proof.
  unfold set_columns. intros Hevs. revert df.
  induction Hevs as [| kv evs Hkv _ IH]; intros df; [reflexivity |].
  cbn [fold_left]. rewrite IH. cbn [set_column columns].
  now apply lookup_insert_ne.
Qed.

Lemma step_dummies_nested (d : pyfloat) :
  fle DENCUN d = true ->
  indicator (fle MERGE d) = Num 1 /\ LevelsInit.regime_merge_of d = Num 0.
Proof.
  unfold LevelsInit.regime_merge_of, LevelsInit.MERGE_DATE, LevelsInit.DENCUN_DATE,
    indicator, MERGE, DENCUN.
  destruct d as [x | | |]; cbn [fle flt]; try discriminate.
  - unfold Rleb, Rltb.
    repeat match goal with
           | |- context [Rlt_dec ?a ?b] => destruct (Rlt_dec a b)
           | |- context [Rle_dec ?a ?b] => destruct (Rle_dec a b)
           end;
      cbn [andb]; intros; try discriminate; try (exfalso; lra); now split.
  - intros _. now split.
Qed.

(** X26.  When the panel brings no regime dummies, [prepare_frame] builds
    step dummies: [regime_merge] is 1 from the Merge on and stays 1 after
    Dencun, where [regime_dencun] is 1 as well.  The levels estimator
    builds its [regime_merge] as 0 after Dencun, so on post-Dencun rows the
    two frames disagree on the column of that name.  (Event columns are
    assumed not to be named after the date or a regime.) *)
Theorem projection_frame_regimes (df df' : DataFrame) :
  (forall c evs, event_dummies c = Ok evs ->
     Forall (fun kv => kv.1 <> "date" /\ kv.1 <> "regime_merge"
                       /\ kv.1 <> "regime_dencun") evs) ->
  columns df !! "regime_post_merge" = None ->
  prepare_frame df = Ok df' ->
  exists dates : column,
    columns df' !! "date" = Some dates
    /\ columns df' !! "regime_merge" = Some (map (fun d => indicator (fle MERGE d)) dates)
    /\ columns df' !! "regime_dencun" = Some (map (fun d => indicator (fle DENCUN d)) dates)
    /\ Forall (fun d => fle DENCUN d = true ->
                        indicator (fle MERGE d) = Num 1
                        /\ LevelsInit.regime_merge_of d = Num 0) dates.
Proof.
  intros Hevents Hnone. unfold prepare_frame, sort_by_date.
  destruct (col df "date") as [dates0 | err] eqn:Hdates0; [| discriminate].
  rewrite !bind_Ok.
  set (sorted := {| index := _; columns := _ |}).
  assert (Hsorted : forall k, columns sorted !! k
                              = permute (argsort dates0) <$> columns df !! k).
  { intros k. unfold sorted. cbn [columns]. now rewrite lookup_fmap. }
  set (dates := permute (argsort dates0) dates0).
  assert (Hdate : columns sorted !! "date" = Some dates).
  { rewrite Hsorted. unfold col, getitem in Hdates0.
    destruct (columns df !! "date"); [| discriminate]. now injection Hdates0 as ->. }
  destruct (negb _); [discriminate |].
  destruct (col sorted "log_base_fee") as [y |]; [| discriminate]. rewrite bind_Ok.
  destruct (col sorted "A_t_clean") as [a |]; [| discriminate]. rewrite bind_Ok.
  destruct (col sorted "D_star") as [dstar |]; [| discriminate]. rewrite bind_Ok.
  rewrite (col_lookup _ _ _ Hdate), bind_Ok. cbv zeta.
  cbn [set_column columns].
  rewrite !lookup_insert_ne by done. rewrite Hsorted, Hnone. cbn [fmap option_fmap option_map].
  match goal with
  | |- Ok (try_except _ ?base) = Ok _ -> _ => set (frame := base)
  end.
  assert (Hframe : columns frame !! "date" = Some dates
                   /\ columns frame !! "regime_merge"
                      = Some (map (fun d => indicator (fle MERGE d)) dates)
                   /\ columns frame !! "regime_dencun"
                      = Some (map (fun d => indicator (fle DENCUN d)) dates)).
  { unfold frame.
    repeat match goal with
           | |- context [if ?c then _ else _] => destruct c
           end;
      cbn [set_column columns];
      repeat split; rewrite ?lookup_insert_ne by done;
      first [exact Hdate | apply lookup_insert_eq]. }
  destruct Hframe as (Hd & Hm & Hc).
  intros [= <-]. exists dates.
  assert (Hnested : Forall (fun d => fle DENCUN d = true ->
                                     indicator (fle MERGE d) = Num 1
                                     /\ LevelsInit.regime_merge_of d = Num 0) dates).
  { apply List.Forall_forall. intros d _. apply step_dummies_nested. }
  destruct (event_dummies dates) as [evs | err] eqn:Hev; cbn [mbind result_bind try_except].
  - specialize (Hevents _ _ Hev).
    rewrite !set_columns_lookup
      by (eapply Forall_impl; [exact Hevents |]; now intros kv (? & ? & ?)).
    now repeat split.
  - now repeat split.
Qed.

End PrepareFurther.

Section RowsFurther.
Context `{Backend}.
Import LP.

(** ** Rows lost to leads and lags *)

Lemma select_length_le {A} (mask : list bool) (l : list A) :
  (length (select mask l) <= kept (mask))%nat.
Proof.
  unfold kept. revert l. induction mask as [| b mask IH]; intros l; [now destruct l |].
  destruct l as [| x l]; [cbn; lia |].
  cbn [select List.filter]. specialize (IH l). destruct b; cbn [length]; lia.
Qed.

Lemma kept_zip_andb_l (a b : list bool) :
  (kept ((zip_with andb a b)) <= kept (a))%nat.
Proof.
  unfold kept. revert b. induction a as [| x a IH]; intros b; [reflexivity |].
  destruct b as [| y b]; [cbn; lia |].
  cbn [zip_with List.filter]. specialize (IH b).
  destruct x, y; cbn [andb length]; lia.
Qed.

Lemma kept_zip_andb_r (a b : list bool) :
  (kept ((zip_with andb a b)) <= kept (b))%nat.
Proof.
  unfold kept. revert b. induction a as [| x a IH]; intros b; [cbn; lia |].
  destruct b as [| y b]; [reflexivity |].
  cbn [zip_with List.filter]. specialize (IH b).
  destruct x, y; cbn [andb length]; lia.
Qed.

Lemma kept_complete_rows_head (n : nat) (c : column) (cs : list column) :
  (kept ((complete_rows n (c :: cs)))
   <= kept ((notna c)))%nat.
Proof. apply kept_zip_andb_l. Qed.

Lemma kept_notna_sub_l (a b : column) :
  (kept ((notna (col_sub a b)))
   <= kept ((notna a)))%nat.
Proof.
  unfold kept, col_sub, notna. revert b. induction a as [| x a IH]; intros b; [reflexivity |].
  destruct b as [| y b]; [cbn; lia |].
  cbn [zip_with map List.filter]. specialize (IH b).
  destruct x, y; cbn [fsub fadd fneg isnan negb length] in *; lia.
Qed.

Lemma kept_notna_sub_r (a b : column) :
  (kept ((notna (col_sub a b)))
   <= kept ((notna b)))%nat.
Proof.
  unfold kept, col_sub, notna. revert b. induction a as [| x a IH]; intros b; [cbn; lia |].
  destruct b as [| y b]; [reflexivity |].
  cbn [zip_with map List.filter]. specialize (IH b).
  destruct x, y; cbn [fsub fadd fneg isnan negb length] in *; lia.
Qed.

Lemma kept_notna_le (c : column) :
  (kept ((notna c)) <= length c)%nat.
Proof.
  unfold kept, notna. etransitivity; [apply List.filter_length_le |].
  now rewrite length_map.
Qed.

Lemma kept_notna_app (a b : column) :
  kept ((notna (a ++ b)))
  = (kept ((notna a)) + kept ((notna b)))%nat.
Proof. unfold kept, notna. now rewrite map_app, List.filter_app, length_app. Qed.

Lemma kept_notna_missing (k : nat) :
  kept ((notna (replicate k NaN))) = 0%nat.
Proof. induction k as [| k IH]; [reflexivity | exact IH]. Qed.

(** A column moved up by [k >= 1] rows or down by [k >= 1] rows has at
    most [n - k] defined cells. *)
Lemma kept_shift_up (k : nat) (c : column) :
  (kept ((notna (shift (- Z.of_nat (S k)) c)))
   <= length c - S k)%nat.
Proof.
  unfold shift. replace (0 <=? - Z.of_nat (S k))%Z with false by (symmetry; apply Z.leb_gt; lia).
  rewrite kept_notna_app, kept_notna_missing.
  replace (Z.to_nat (- - Z.of_nat (S k))) with (S k) by lia.
  pose proof (kept_notna_le (drop (S k) c)) as Hle. rewrite length_drop in Hle. lia.
Qed.

Lemma kept_shift_down (c : column) :
  (kept ((notna (shift 1 c))) <= length c - 1)%nat.
Proof.
  change (shift 1 c) with (take (length c) (NaN :: c)).
  destruct c as [| x c]; [reflexivity |].
  cbn [length take]. change (kept (notna (NaN :: take (length c) (x :: c))))
    with (kept (notna (take (length c) (x :: c)))).
  pose proof (kept_notna_le (take (length c) (x :: c))) as Hle.
  rewrite length_take in Hle. cbn [length] in Hle. lia.
Qed.

(** X27.  A local projection at horizon [h >= 0] never uses more than
    [n - max(h, 1)] rows of an [n]-row frame: the rows whose lead of the
    outcome (or, at horizon 0, whose lag) falls outside the sample are
    dropped, not filled. *)
Theorem horizon_rows_lost_to_the_lead (df : DataFrame) (h : Z) (bw : option Z)
    (outcome : string) (extra : list string) (res : HorizonResult) (y0 : column) :
  (0 <= h)%Z ->
  col df outcome = Ok y0 ->
  horizon_regression df h bw outcome extra = Ok res ->
  (hr_n res <= length y0 - Z.to_nat (Z.max h 1))%nat.
Proof.
  intros Hh Hy0 Hres.
  destruct (horizon_regression_bandwidth _ _ _ _ _ _ Hres)
    as (_ & _ & y_h & frame & Hframe & ->).
  unfold horizon_frame in Hframe. rewrite Hy0, bind_Ok in Hframe.
  destruct (mapM (col df) _) as [xs | err]; [| discriminate].
  rewrite bind_Ok in Hframe. injection Hframe as <- _.
  etransitivity; [apply select_length_le |].
  etransitivity; [apply kept_complete_rows_head |].
  destruct (Z.eq_dec h 0%Z) as [-> | Hpos].
  - etransitivity; [apply kept_notna_sub_r |].
    change (- 0 + 1)%Z with 1%Z. etransitivity; [apply kept_shift_down |].
    replace (Z.to_nat (Z.max 0 1)) with 1%nat by lia. lia.
  - etransitivity; [apply kept_notna_sub_l |].
    replace (- h)%Z with (- Z.of_nat (S (Z.to_nat (h - 1))))%Z by lia.
    etransitivity; [apply kept_shift_up |]. lia.
Qed.

End RowsFurther.

Section LagsFurther.
Context `{Backend}.
Import Levels.

(** ** Rows dropped by the distributed-lag specification *)

Lemma string_app_nil_r (s : string) : s +:+ "" = s.
Proof.
  induction s as [| a s IH]; [reflexivity |].
  change (String a (s +:+ "") = String a s). now rewrite IH.
Qed.

Lemma lag_name_fresh (treat : string) (lag : Z) : lag_name treat lag <> treat.
Proof.
  unfold lag_name. intros Heq. rewrite <- (string_app_nil_r treat) in Heq at 2.
  apply (inj (String.app treat)) in Heq. discriminate.
Qed.

Lemma lag_name_inj (treat : string) (lag lag' : Z) :
  lag_name treat lag = lag_name treat lag' -> lag = lag'.
Proof.
  unfold lag_name. intros Heq.
  apply (inj (String.app treat)) in Heq.
  apply (inj (String.app "_lag")) in Heq.
  now apply (inj pretty) in Heq.
Qed.

Lemma add_lag_columns_lookup (treat : string) (lags : list Z) (df df' : DataFrame)
    (a : column) (lag : Z) :
  columns df !! treat = Some a ->
  add_lag_columns treat lags df = (df', Ok tt) ->
  In lag lags ->
  columns df' !! lag_name treat lag = Some (shift lag a).
Proof.
  intros Ha Hadd Hin.
  assert (Hgen : forall df0,
             columns df0 !! treat = Some a ->
             add_lag_columns treat lags df0 = (df', Ok tt) ->
             (In lag lags \/ columns df0 !! lag_name treat lag = Some (shift lag a)) ->
             columns df' !! lag_name treat lag = Some (shift lag a)).
  { clear. induction lags as [| l lags IH]; intros df0 Ha; cbn [add_lag_columns].
    - intros [= <-] [[] | Hdone]. exact Hdone.
    - rewrite (col_lookup _ _ _ Ha). intros Hadd Hcase. eapply IH; [| exact Hadd |].
      + cbn [set_column columns]. rewrite lookup_insert_ne; [exact Ha |].
        apply lag_name_fresh.
      + cbn [set_column columns].
        destruct (Z.eq_dec l lag) as [-> | Hne].
        * right. apply lookup_insert_eq.
        * destruct Hcase as [[Heq | Hin] | Hdone]; [contradiction | now left |].
          right. rewrite lookup_insert_ne; [exact Hdone |].
          intros Heq. now apply lag_name_inj in Heq. }
  eapply Hgen; [exact Ha | exact Hadd | now left].
Qed.

Lemma kept_complete_rows_in (n : nat) (c : column) (cs : list column) :
  In c cs -> (kept (complete_rows n cs) <= kept (notna c))%nat.
Proof.
  induction cs as [| c' cs IH]; intros Hin; [contradiction |].
  destruct Hin as [-> | Hin]; [apply kept_zip_andb_l |].
  etransitivity; [apply kept_zip_andb_r | exact (IH Hin)].
Qed.

Lemma select_length_le_list {A} (mask : list bool) (l : list A) :
  (length (select mask l) <= length l)%nat.
Proof.
  revert l. induction mask as [| b mask IH]; intros l; [destruct l; cbn; lia |].
  destruct l as [| x l]; [reflexivity |].
  cbn [select]. specialize (IH l). destruct b; cbn [length]; lia.
Qed.

Lemma kept_shift_lag (k : nat) (c : column) :
  (kept (notna (shift (Z.of_nat k) c)) <= length c - k)%nat.
Proof.
  unfold shift. replace (0 <=? Z.of_nat k)%Z with true by (symmetry; apply Z.leb_le; lia).
  rewrite Nat2Z.id.
  destruct (Nat.le_gt_cases (length c) k) as [Hle | Hgt].
  - rewrite take_app_le by (rewrite length_replicate; lia).
    rewrite take_replicate, kept_notna_missing. lia.
  - rewrite take_app_ge by (rewrite length_replicate; lia).
    rewrite length_replicate, kept_notna_app, kept_notna_missing.
    pose proof (kept_notna_le (take (length c - k) c)) as Hk.
    rewrite length_take in Hk. lia.
Qed.

(** Rows of the design built on a frame after [dropna()]: no more than the
    defined cells of any one column of the frame. *)
Lemma design_rows_after_dropna (lhs : string) (rhs : list string) (df : DataFrame)
    (d : design) (k : string) (c : column) :
  dmatrices lhs rhs (dropna df) = Ok d ->
  columns df !! k = Some c ->
  (length (d_y d) <= kept (notna c))%nat.
Proof.
  unfold dmatrices, variable, dropna. intros Hd Hc.
  set (mask := complete_rows (len df) (map snd (map_to_list (columns df)))) in *.
  cbn [take_rows columns] in Hd. rewrite lookup_fmap in Hd.
  destruct (columns df !! lhs) as [y |]; [| discriminate].
  cbn [fmap option_fmap option_map] in Hd. rewrite bind_Ok in Hd.
  destruct (mapM _ rhs) as [xs |]; [| discriminate].
  rewrite bind_Ok in Hd. injection Hd as <-. cbn [d_y].
  etransitivity; [apply select_length_le_list |].
  etransitivity; [apply select_length_le |].
  apply kept_complete_rows_in.
  apply in_map_iff. exists (k, c). split; [reflexivity |].
  apply list_elem_of_In, elem_of_map_to_list, Hc.
Qed.

(** X28.  The distributed-lag specification is fitted on no more than
    [n - lag] rows for each of its lags: the rows on which a lag of the
    treatment is undefined are dropped from the regression, not filled. *)
Theorem distributed_lags_drop_undefined_rows (lags : list Z)
    (self self' : ITSLevelsEstimator) (r : record) (a : column) (lag : Z) :
  estimate_distributed_lags lags self = (self', Ok r) ->
  col (data self) (treatment self) = Ok a ->
  In lag lags -> (0 <= lag)%Z ->
  exists n : nat,
    r !! "n_obs" = Some (VInt (Z.of_nat n))
    /\ (n <= length a - Z.to_nat lag)%nat.
Proof.
  intros Hest Ha Hin Hlag. unfold estimate_distributed_lags in Hest.
  destruct (add_lag_columns _ _ _) as [df [[] | err]] eqn:Hadd;
    [| cbn in Hest; congruence].
  cbn [data outcome treatment with_data] in Hest.
  destruct (dmatrices _ _ _) as [d | err] eqn:Hd;
    [| cbn in Hest; congruence].
  rewrite bind_Ok in Hest. cbv zeta in Hest.
  repeat match type of Hest with
         | context [match ?c ≫= _ with _ => _ end] =>
             destruct c; [rewrite bind_Ok in Hest | cbn in Hest; congruence]
         end.
  cbn [snd results with_results] in Hest. rewrite getitem_dict_insert in Hest.
  injection Hest as _ <-.
  exists (length (d_y d)). split; [reflexivity |].
  unfold col, getitem in Ha.
  destruct (columns (data self) !! treatment self) as [a' |] eqn:Ha'; [| discriminate].
  injection Ha as ->.
  pose proof (add_lag_columns_lookup _ _ _ _ _ lag Ha' Hadd Hin) as Hcol.
  etransitivity; [exact (design_rows_after_dropna _ _ _ _ _ _ Hd Hcol) |].
  replace lag with (Z.of_nat (Z.to_nat lag)) at 1 by lia.
  apply kept_shift_lag.
Qed.

End LagsFurther.

(** ** The further properties on concrete inputs *)

(** X7, witness: the short-sample record of the five-day panel. *)
Lemma ecm_record_tables_witness :
  returns (ECMReport.save_latex_ecm_compact_plain (ECM.ecm_short_sample 4)) = true
  /\ exists n : nat,
       ECM.ecm_short_sample 4 !! "n" = Some (VInt (Z.of_nat n))
       /\ ((n < 30)%nat ->
             ECM.ecm_short_sample 4 !! "bw" = None
             /\ ECM.save_latex_ecm (ECM.ecm_short_sample 4) = Raise (KeyError "bw"))
       /\ ((30 <= n)%nat ->
             returns (ECM.save_latex_ecm (ECM.ecm_short_sample 4)) = true
             /\ exists bw : Z,
                  ECM.ecm_short_sample 4 !! "bw" = Some (VInt bw) /\ (1 <= bw <= 7)%Z).
Proof.
  apply (ecm_record_tables (H := Stub.be) (Stub.panel 5)
           "log_base_fee" ECM.x_full (Stub.residuals 5) []).
  evaluate.
Defined.

(** X8, witness: a fit with [phi = 0]. *)
Lemma compact_table_half_life_witness :
  ECMReport.cp_half_life
    <$> ECMReport.save_latex_ecm_compact_plain
          (ECM.ecm_fitted Prepared.zero_adjustment_design Prepared.zero_adjustment_fit 40)
  = Ok (ECM.Number (VFloat (ECM.half_life_days (Num 0))))
  /\ ECM.hl_str
       <$> ECM.save_latex_ecm
             (ECM.ecm_fitted Prepared.zero_adjustment_design
                Prepared.zero_adjustment_fit 40)
     = Ok (if isfinite (ECM.half_life_days (Num 0))
           then ECM.Number (VFloat (ECM.half_life_days (Num 0))) else ECM.NA)
  /\ (0 = 0 -> ECM.half_life_days (Num 0) = NInf)
  /\ (0 <= -1 -> ECM.half_life_days (Num 0) = NaN).
Proof.
  apply (compact_table_half_life
           Prepared.zero_adjustment_design Prepared.zero_adjustment_fit 40 0).
  reflexivity.
Defined.

(** X9, witness: fifty complete days and a Johansen routine that returns. *)
Lemma johansen_rows_all_or_none_witness :
  exists (sub : DataFrame) (X : list column) (rows : list record),
    dropna_subset ["log_base_fee"; "A_t_clean"; "D_star"] (Stub.panel 50) = Ok sub
    /\ mapM (col sub) ["log_base_fee"; "A_t_clean"; "D_star"] = Ok X
    /\ ECM.johansen_tests (H := Doubles.be_johansen) (Stub.panel 50)
         ["log_base_fee"; "A_t_clean"; "D_star"] 1 1 = Ok rows
    /\ (rows = [] \/ length rows = 4%nat)
    /\ ((len sub < 50)%nat -> rows = [])
    /\ (forall e : exn,
          coint_johansen (Backend := Doubles.be_johansen) X 1 1 = Raise e -> rows = [])
    /\ (forall joh : Johansen,
          (50 <= len sub)%nat ->
          coint_johansen (Backend := Doubles.be_johansen) X 1 1 = Ok joh ->
          (forall (t0 t1 m0 m1 : pyfloat) (ct0 ct1 cm0 cm1 : pyfloat * pyfloat * pyfloat),
              lr1 joh !! 0%nat = Some t0 -> cvt joh !! 0%nat = Some ct0 ->
              lr2 joh !! 0%nat = Some m0 -> cvm joh !! 0%nat = Some cm0 ->
              lr1 joh !! 1%nat = Some t1 -> cvt joh !! 1%nat = Some ct1 ->
              lr2 joh !! 1%nat = Some m1 -> cvm joh !! 1%nat = Some cm1 ->
              rows = [ ECM.johansen_row "trace" "r<=0" t0 ct0;
                       ECM.johansen_row "max-eig" "r=0" m0 cm0;
                       ECM.johansen_row "trace" "r<=1" t1 ct1;
                       ECM.johansen_row "max-eig" "r=1" m1 cm1 ])
          /\ ((length (lr1 joh) < 2 \/ length (cvt joh) < 2
               \/ length (lr2 joh) < 2 \/ length (cvm joh) < 2)%nat -> rows = [])).
Proof.
  apply (johansen_rows_all_or_none (H := Doubles.be_johansen) (Stub.panel 50)
           ["log_base_fee"; "A_t_clean"; "D_star"] 1 1).
  evaluate.
Defined.

(** The four rows of fifty complete days. *)
Example johansen_rows_of_fifty_days :
  ECM.johansen_tests (H := Doubles.be_johansen) (Stub.panel 50)
    ["log_base_fee"; "A_t_clean"; "D_star"] 1 1
  = Ok [ ECM.johansen_row "trace" "r<=0" (Num 40) (Num 27, Num 30, Num 35);
         ECM.johansen_row "max-eig" "r=0" (Num 30) (Num 19, Num 21, Num 26);
         ECM.johansen_row "trace" "r<=1" (Num 10) (Num 13, Num 15, Num 20);
         ECM.johansen_row "max-eig" "r=1" (Num 10) (Num 13, Num 15, Num 20) ].
Proof. evaluate. Qed.

(** X10, witness: five complete days and an ADF test that raises. *)
Lemma engle_granger_missing_p_value_witness :
  exists sel : DataFrame,
    ECM.select_columns ("log_base_fee" :: ECM.x_full) (Stub.panel 5) = Ok sel
    /\ (len (dropna sel) = 0%nat ->
        ECM.engle_granger (H := Doubles.be_adf_fails) (Stub.panel 5) "log_base_fee"
          ECM.x_full
        = Ok (NaN, NaN, {| s_index := []; s_values := [] |}))
    /\ (len (dropna sel) <> 0%nat ->
        forall (d : design) (model : Fit) (e : exn),
          dmatrices "log_base_fee" ECM.x_full (dropna sel) = Ok d ->
          OLS_fit (Backend := Doubles.be_adf_fails) (d_y d) (d_X d) NonRobust = Ok model ->
          adfuller (Backend := Doubles.be_adf_fails) (resid model) "c" = Raise e ->
          ECM.engle_granger (H := Doubles.be_adf_fails) (Stub.panel 5) "log_base_fee"
            ECM.x_full
          = Ok (NaN, NaN, {| s_index := d_index d; s_values := resid model |}))
    /\ (forall (panel : DataFrame) (res : Series),
          ECM.ecm_stage (H := Doubles.be_adf_fails) panel NaN res
          = Ok ECM.ecm_not_estimated).
Proof.
  apply (engle_granger_missing_p_value (H := Doubles.be_adf_fails) (Stub.panel 5)
           "log_base_fee" ECM.x_full).
  evaluate.
Defined.

(** Five complete days on which the ADF test raises: the step returns. *)
Example engle_granger_swallows_the_adf_exception :
  ECM.engle_granger (H := Doubles.be_adf_fails) (Stub.panel 5) "log_base_fee" ECM.x_full
  = Ok (NaN, NaN, Stub.residuals 5).
Proof. evaluate. Qed.

(** X11, witness: five days, every row with a long-run residual. *)
Lemma error_correction_term_alignment_witness :
  exists ect lag : column,
    columns Prepared.ecm_frame5.1.1 !! "ECT" = Some ect
    /\ columns Prepared.ecm_frame5.1.1 !! "ECT_lag1" = Some lag
    /\ ect = map (series_at (s_index (Stub.residuals 5)) (s_values (Stub.residuals 5)))
               (seq 0 (len (Stub.panel 5)))
    /\ length lag = len (Stub.panel 5)
    /\ forall i : nat, (i < len (Stub.panel 5))%nat ->
         lag !! i
         = Some (match i with
                 | O => NaN
                 | S j => series_at (s_index (Stub.residuals 5))
                            (s_values (Stub.residuals 5)) j
                 end).
Proof.
  apply (error_correction_term_alignment (Stub.panel 5) (Stub.residuals 5) []
           Prepared.ecm_frame5.1.1 Prepared.ecm_frame5.1.2 Prepared.ecm_frame5.2).
  evaluate.
Defined.

(** X12, witness: one replication on five days. *)
Lemma bootstrap_below_thirty_replications_witness :
  LP.moving_block_bootstrap_irf (H := Stub.be) (Prepared.frame 5) 0 1 (Some 2%Z) 42
  = Some (Ok (NaN, NaN))
  /\ (NaN, NaN) = (NaN, NaN).
Proof.
  split; [evaluate |].
  apply (bootstrap_below_thirty_replications (H := Stub.be) (Prepared.frame 5) 0 1
           (Some 2%Z) 42); [lia | evaluate].
Defined.

Lemma stub_integers_in_range (s lo hi v s' : Z) :
  Stub.stub_integers s lo hi = Ok (v, s') -> (lo <= v < hi)%Z.
Proof.
  unfold Stub.stub_integers. destruct (Z.ltb_spec lo hi); [| discriminate].
  intros [= <- _]. pose proof (Z.mod_pos_bound s (hi - lo)). lia.
Qed.

(** X13, witness: blocks of two rows on a four-row sample. *)
Lemma resample_has_the_original_length_witness :
  Forall (fun i => 0 <= i < Z.of_nat (length [Num 1; Num 2; Num 3; Num 4]))%Z
    [0; 1; 1; 2]%Z
  /\ exists yb : column,
       mapM (LP.iloc [Num 1; Num 2; Num 3; Num 4])
         (take (length [Num 1; Num 2; Num 3; Num 4]) [0; 1; 1; 2]%Z) = Ok yb
       /\ length yb = length [Num 1; Num 2; Num 3; Num 4].
Proof.
  apply (resample_has_the_original_length (H := Stub.be) 4 2 0%Z 2%Z
           [Num 1; Num 2; Num 3; Num 4] [0; 1; 1; 2]%Z).
  - apply stub_integers_in_range.
  - reflexivity.
Defined.

Lemma stub_integers_empty_range (s lo hi : Z) :
  (hi <= lo)%Z -> exists msg, Stub.stub_integers s lo hi = Raise (ValueError msg).
Proof.
  intros Hle. unfold Stub.stub_integers.
  destruct (Z.ltb_spec lo hi); [lia |]. now eexists.
Qed.

(** X14, witness: horizon 3 on five days leaves one usable row. *)
Lemma bootstrap_short_sample_raises_witness :
  exists msg,
    LP.moving_block_bootstrap_irf (H := Stub.be) (Prepared.frame 5) 3 1 None 42
    = Some (Raise (ValueError msg)).
Proof.
  apply (bootstrap_short_sample_raises (H := Stub.be) (Prepared.frame 5) 3 1 None 42
           Prepared.horizon3.1 Prepared.horizon3.2).
  - apply stub_integers_empty_range.
  - evaluate.
  - assert (Hlen : length Prepared.horizon3.1 = 1%nat) by evaluate.
    rewrite Hlen. lia.
  - assert (Hlen : length Prepared.horizon3.1 = 1%nat) by evaluate.
    rewrite Hlen. pose proof (default_block_len_pos (len (Prepared.frame 5))).
    unfold LP.default_block_len in *. cbn [default]. lia.
  - lia.
Defined.

(** X15, witness: a sweep up to horizon -1 on five days. *)
Lemma empty_sweep_has_no_cumulative_table_witness :
  LP.compute_irfs (H := Stub.be) (Stub.panel 5) (-1) false "log_base_fee" false
  = Some (Ok [])
  /\ @nil LP.HorizonResult = []
  /\ forall (hz : Z) (hs : list Z),
       LP.compute_cumulative (LP.summary_frame []) (hz :: hs) "log_base_fee"
       = Raise (KeyError "h").
Proof.
  split; [evaluate |].
  apply (empty_sweep_has_no_cumulative_table (H := Stub.be) (Stub.panel 5) (-1) false
           "log_base_fee" false []); [lia | evaluate].
Defined.

(** X16, witness: horizon -1 requested from a summary of horizons 0 to 7. *)
Lemma cumulative_row_before_first_horizon_witness :
  LP.cumulative_row (LP.summary_frame Stub.rows8) "log_base_fee" (-1)
  = Ok {[ "H" := VInt (-1);
          "beta_cum" := VFloat (Num 0);
          "semi_elasticity_10pp" := VFloat (Num 0);
          "semi_ci_low_delta" := VFloat (Num 0);
          "semi_ci_high_delta" := VFloat (Num 0);
          "semi_ci_low_cons" := VFloat (Num 0);
          "semi_ci_high_cons" := VFloat (Num 0) ]}.
Proof.
  apply (cumulative_row_before_first_horizon Stub.rows8 (-1)).
  - discriminate.
  - repeat constructor.
Defined.


(** X18, witness: orders up to (1, 1) on five days, AIC [10 - p + 2 q]. *)
Lemma by_order_grid_returns :
  ArmaGrid.estimate_arma_grid (H := Stub.be) (H0 := StubArima.by_order) 1 1 10
    (Stub.estimator 5)
  = ((ArmaGrid.estimate_arma_grid (H := Stub.be) (H0 := StubArima.by_order) 1 1 10
        (Stub.estimator 5)).1,
     Ok (StubArima.selected
           (ArmaGrid.estimate_arma_grid (H := Stub.be) (H0 := StubArima.by_order) 1 1 10
              (Stub.estimator 5)).2)).
Proof.
  unfold ArmaGrid.estimate_arma_grid.
  destruct (dmatrices _ _ _) as [d | err] eqn:Hd; [| vm_compute in Hd; discriminate Hd].
  rewrite bind_Ok. cbv zeta.
  destruct (ArmaGrid.grid_rows _ _ _ _ _) as [| r rows] eqn:Hrows;
    [vm_compute in Hrows; discriminate Hrows |].
  unfold ArmaGrid.sort_values. rewrite bind_Ok.
  destruct (sorted_head_minimal r rows) as (b & rest & -> & _ & _).
  reflexivity.
Qed.

Lemma arma_grid_selects_minimum_witness :
  In (StubArima.selected
        (ArmaGrid.estimate_arma_grid (H := Stub.be) (H0 := StubArima.by_order) 1 1 10
           (Stub.estimator 5)).2).2
     (StubArima.selected
        (ArmaGrid.estimate_arma_grid (H := Stub.be) (H0 := StubArima.by_order) 1 1 10
           (Stub.estimator 5)).2).1
  /\ Forall (fun r =>
               ArmaGrid.row_before r
                 (StubArima.selected
                    (ArmaGrid.estimate_arma_grid (H := Stub.be)
                       (H0 := StubArima.by_order) 1 1 10 (Stub.estimator 5)).2).2
               = false)
       (StubArima.selected
          (ArmaGrid.estimate_arma_grid (H := Stub.be) (H0 := StubArima.by_order) 1 1 10
             (Stub.estimator 5)).2).1
  /\ (forall r : ArmaGrid.GridRow,
        In r (StubArima.selected
                (ArmaGrid.estimate_arma_grid (H := Stub.be) (H0 := StubArima.by_order)
                   1 1 10 (Stub.estimator 5)).2).1 ->
        isfinite (ArmaGrid.g_aic r) = true ->
        flt (ArmaGrid.g_aic
               (StubArima.selected
                  (ArmaGrid.estimate_arma_grid (H := Stub.be)
                     (H0 := StubArima.by_order) 1 1 10 (Stub.estimator 5)).2).2)
          PInf = true)
  /\ Levels.results
       (ArmaGrid.estimate_arma_grid (H := Stub.be) (H0 := StubArima.by_order) 1 1 10
          (Stub.estimator 5)).1 !! "arma_best"
     = Some (VDict
               (ArmaGrid.to_dict
                  (StubArima.selected
                     (ArmaGrid.estimate_arma_grid (H := Stub.be)
                        (H0 := StubArima.by_order) 1 1 10 (Stub.estimator 5)).2).2)).
Proof.
  apply (arma_grid_selects_minimum (H := Stub.be) (H0 := StubArima.by_order) 1 1 10
           (Stub.estimator 5) _ _ _).
  rewrite by_order_grid_returns at 1.
  now destruct (StubArima.selected _).
Defined.


(** X20, witness: both maximal orders zero on five days. *)
Lemma arma_grid_without_orders_witness :
  ArmaGrid.estimate_arma_grid (H := Stub.be) (H0 := StubArima.by_order) 0 0 10
    (Stub.estimator 5)
  = (Stub.estimator 5, Raise (KeyError "aic")).
Proof.
  eapply (arma_grid_without_orders (H := Stub.be) (H0 := StubArima.by_order) 0 0 10
            (Stub.estimator 5)); [lia | lia | evaluate].
Defined.

(** X21, witness: a backend on which no order can be fitted. *)
Lemma arma_grid_when_every_fit_fails_witness :
  head (StubArima.selected
          (ArmaGrid.estimate_arma_grid (H := Stub.be) (H0 := StubArima.failing) 1 1 10
             (Stub.estimator 5)).2).1
  = Some (StubArima.selected
            (ArmaGrid.estimate_arma_grid (H := Stub.be) (H0 := StubArima.failing) 1 1 10
               (Stub.estimator 5)).2).2
  /\ ArmaGrid.g_beta
       (StubArima.selected
          (ArmaGrid.estimate_arma_grid (H := Stub.be) (H0 := StubArima.failing) 1 1 10
             (Stub.estimator 5)).2).2 = NaN
  /\ ArmaGrid.g_aic
       (StubArima.selected
          (ArmaGrid.estimate_arma_grid (H := Stub.be) (H0 := StubArima.failing) 1 1 10
             (Stub.estimator 5)).2).2 = PInf
  /\ Forall (fun r => ArmaGrid.g_aic r = PInf /\ ArmaGrid.g_beta r = NaN)
       (StubArima.selected
          (ArmaGrid.estimate_arma_grid (H := Stub.be) (H0 := StubArima.failing) 1 1 10
             (Stub.estimator 5)).2).1.
Proof.
  apply (arma_grid_when_every_fit_fails (H := Stub.be) (H0 := StubArima.failing) 1 1 10
           (Stub.estimator 5)
           (ArmaGrid.estimate_arma_grid (H := Stub.be) (H0 := StubArima.failing) 1 1 10
              (Stub.estimator 5)).1).
  - intros y X p q. now eexists.
  - evaluate.
Defined.

(** X22, witness: the five-day estimator after the main specification. *)
Lemma saved_summary_witness :
  exists summary : record,
    LevelsReport.save_results Stub.after_main_spec = Ok summary
    /\ (forall key v, summary !! key = Some v ->
          In key LevelsReport.saved_keys
          /\ exists d : record,
               Levels.results Stub.after_main_spec !! key = Some (VDict d)
               /\ d <> ∅ /\ v = VDict (delete "model" d)
               /\ delete "model" d !! "model" = None)
    /\ (forall key d, In key LevelsReport.saved_keys ->
          Levels.results Stub.after_main_spec !! key = Some (VDict d) -> d <> ∅ ->
          summary !! key = Some (VDict (delete "model" d)))
    /\ summary !! "koyck" = None.
Proof.
  apply (saved_summary Stub.after_main_spec).
  intros key v Hin Hv.
  repeat (destruct Hin as [<- | Hin]; [vm_compute in Hv |]); try contradiction;
    first [discriminate Hv | injection Hv as <-; now eexists].
Defined.

(** X25, witness: four days, one of them before London. *)
Lemma estimator_frame_regimes_witness :
  exists dates : column,
    columns (Levels.data Prepared.bare_estimator) !! "date" = Some dates
    /\ Forall (fun d => fle LevelsInit.LONDON_DATE d = true) dates
    /\ (columns Prepared.bare_panel !! "regime_post_merge" = None ->
          columns (Levels.data Prepared.bare_estimator) !! "regime_london"
          = Some (map LevelsInit.regime_london_of dates)
          /\ columns (Levels.data Prepared.bare_estimator) !! "regime_merge"
             = Some (map LevelsInit.regime_merge_of dates)
          /\ columns (Levels.data Prepared.bare_estimator) !! "regime_dencun"
             = Some (map LevelsInit.regime_dencun_of dates)
          /\ Forall (fun d => (LevelsInit.regime_london_of d + LevelsInit.regime_merge_of d
                               + LevelsInit.regime_dencun_of d)%py = Num 1) dates).
Proof.
  apply (estimator_frame_regimes (H := Stub.be) (fun _ => 8%Z) Prepared.bare_panel
           "log_base_fee" "A_t_clean" Prepared.bare_estimator).
  evaluate.
Defined.

(** X26, witness: the same four days, no event registry. *)
Lemma projection_frame_regimes_witness :
  exists dates : column,
    columns Prepared.bare_frame !! "date" = Some dates
    /\ columns Prepared.bare_frame !! "regime_merge"
       = Some (map (fun d => LP.indicator (fle LP.MERGE d)) dates)
    /\ columns Prepared.bare_frame !! "regime_dencun"
       = Some (map (fun d => LP.indicator (fle LP.DENCUN d)) dates)
    /\ Forall (fun d => fle LP.DENCUN d = true ->
                        LP.indicator (fle LP.MERGE d) = Num 1
                        /\ LevelsInit.regime_merge_of d = Num 0) dates.
Proof.
  apply (projection_frame_regimes (H := Stub.be) Prepared.bare_panel Prepared.bare_frame).
  - intros c evs Hev. discriminate Hev.
  - evaluate.
  - evaluate.
Defined.

(** X27, witness: horizon 3 on five days. *)
Lemma horizon_rows_lost_to_the_lead_witness :
  (LP.hr_n Prepared.projection3
   <= length (replicate 5 (Num 3)) - Z.to_nat (Z.max 3 1))%nat.
Proof.
  apply (horizon_rows_lost_to_the_lead (H := Stub.be) (Prepared.frame 5) 3 None
           "log_base_fee" [] Prepared.projection3 (replicate 5 (Num 3)));
    [lia | evaluate | evaluate].
Defined.

(** X28, witness: lags 1 and 7 on ten days. *)
Lemma distributed_lags_drop_undefined_rows_witness :
  exists n : nat,
    Stub.returned
      (Levels.estimate_distributed_lags (H := Stub.be) [1; 7]%Z (Stub.estimator 10)).2
      !! "n_obs" = Some (VInt (Z.of_nat n))
    /\ (n <= length (replicate 10 (Num 0.5)) - Z.to_nat 7)%nat.
Proof.
  apply (distributed_lags_drop_undefined_rows (H := Stub.be) [1; 7]%Z
           (Stub.estimator 10) Stub.after_distributed_lags _ (replicate 10 (Num 0.5)) 7).
  - evaluate.
  - evaluate.
  - right. now left.
  - lia.
Defined.

(** ** Rows of the Koyck specification *)

Section KoyckFurther.
Context `{Backend}.
Import Levels.

(** X30.  The Koyck specification is fitted on at most [n - 1] rows of an
    [n]-row frame: the first row, on which the lagged outcome is undefined,
    is dropped from the regression. *)
Theorem koyck_drops_the_first_row (use_time_trend : bool)
    (self self' : ITSLevelsEstimator) (r : record) (y : column) :
  estimate_koyck_lag use_time_trend self = (self', Ok r) ->
  col (data self) (outcome self) = Ok y ->
  exists n : nat,
    r !! "n_obs" = Some (VInt (Z.of_nat n))
    /\ (n <= length y - 1)%nat.
Proof.
  intros Hest Hy. unfold estimate_koyck_lag in Hest. rewrite Hy in Hest.
  cbn [data outcome treatment with_data] in Hest.
  destruct (dmatrices _ _ _) as [d | err] eqn:Hd;
    [| cbn in Hest; congruence].
  rewrite bind_Ok in Hest. cbv zeta in Hest.
  repeat match type of Hest with
         | context [match ?c ≫= _ with _ => _ end] =>
             destruct c; [rewrite bind_Ok in Hest | cbn in Hest; congruence]
         end.
  cbn [snd results with_results] in Hest. rewrite getitem_dict_insert in Hest.
  injection Hest as _ <-.
  exists (length (d_y d)). split; [reflexivity |].
  etransitivity; [| apply (kept_shift_down y)].
  apply (design_rows_after_dropna _ _ _ _ "log_base_fee_lag1" _ Hd).
  cbn [set_column columns]. apply lookup_insert_eq.
Qed.

End KoyckFurther.

(** X30, witness: ten complete days. *)
Lemma koyck_drops_the_first_row_witness :
  exists n : nat,
    Stub.returned (Levels.estimate_koyck_lag (H := Stub.be) false (Stub.estimator 10)).2
      !! "n_obs" = Some (VInt (Z.of_nat n))
    /\ (n <= length (replicate 10 (Num 3)) - 1)%nat.
Proof.
  apply (koyck_drops_the_first_row (H := Stub.be) false (Stub.estimator 10)
           (Levels.estimate_koyck_lag (H := Stub.be) false (Stub.estimator 10)).1
           _ (replicate 10 (Num 3))); evaluate.
Defined.
